(** * EPL analytics pipeline: splitter, dispatcher and load gate

    A shallow embedding of the three scripts of the repository

      - [src/epl-function/function_app.py]        (spreadsheet splitter)
      - [src/epl-dbt-dispatcher/function_app.py]  (workflow dispatcher)
      - [src/.github/scripts/gate_until_loaded.py] (load-completion gate)

    A Python [str] is modelled by the [string] of its UTF-8 encoding.  Sheet
    names are read character by character, a character being a code point,
    with the alphanumeric table of Unicode.  Blob paths, file names and
    warehouse statuses are read byte by byte with Python's tables on the
    ASCII range; a property whose conclusion depends on that for text beyond
    ASCII says so in a hypothesis.  Wall-clock time is an integer number of
    milliseconds.  Calls into the cloud SDKs
    are answered by a [World] record and leave an entry in a chronological
    trace; logging calls are left out. *)

From Stdlib Require Import ZArith NArith List Bool Ascii String Lia.
From Stdlib Require Import DecimalString.
Import ListNotations.

Open Scope string_scope.

(* ================================================================== *)
(** ** Python's [str] *)

Module Py.

Definition code (c : ascii) : N := N_of_ascii c.

Definition between (lo hi : N) (c : ascii) : bool :=
  ((lo <=? code c) && (code c <=? hi))%N.

(** [c.isdigit()] and the regular expression class [\d], for a character
    of the ASCII range. *)
Definition isdigit (c : ascii) : bool := between 48 57 c.
Definition isupper (c : ascii) : bool := between 65 90 c.
Definition islower (c : ascii) : bool := between 97 122 c.

(** [c.isspace()] for a character of the ASCII range: TAB..CR, FS..US and
    the blank. *)
Definition isspace (c : ascii) : bool := between 9 13 c || between 28 32 c.

Definition lower_char (c : ascii) : ascii :=
  if isupper c then ascii_of_N (code c + 32) else c.

Definition upper_char (c : ascii) : ascii :=
  if islower c then ascii_of_N (code c - 32) else c.

Fixpoint map (f : ascii -> ascii) (s : string) : string :=
  match s with
  | EmptyString => EmptyString
  | String c s' => String (f c) (map f s')
  end.

(** [s.lower()] and [s.upper()]. *)
Definition lower (s : string) : string := map lower_char s.
Definition upper (s : string) : string := map upper_char s.

(** [s.startswith(p)]. *)
Definition startswith (s p : string) : bool := String.prefix p s.

(** [s.endswith(p)]: some tail of [s] is [p]. *)
Fixpoint endswith (s p : string) : bool :=
  (s =? p) ||
  match s with
  | EmptyString => false
  | String _ s' => endswith s' p
  end.

(** [sub in s]. *)
Fixpoint contains (sub s : string) : bool :=
  String.prefix sub s ||
  match s with
  | EmptyString => false
  | String _ s' => contains sub s'
  end.

(** [c in s] for a single character. *)
Fixpoint has_char (c : ascii) (s : string) : bool :=
  match s with
  | EmptyString => false
  | String d s' => (d =? c)%char || has_char c s'
  end.

Fixpoint lstrip_by (p : ascii -> bool) (s : string) : string :=
  match s with
  | EmptyString => EmptyString
  | String c s' => if p c then lstrip_by p s' else s
  end.

Fixpoint rstrip_by (p : ascii -> bool) (s : string) : string :=
  match s with
  | EmptyString => EmptyString
  | String c s' =>
      match rstrip_by p s' with
      | EmptyString => if p c then EmptyString else String c EmptyString
      | r => String c r
      end
  end.

(** [s.strip()] removes white space at both ends. *)
Definition strip (s : string) : string := rstrip_by isspace (lstrip_by isspace s).

(** [s.rstrip(c)] for a one-character argument. *)
Definition rstrip (s : string) (c : ascii) : string :=
  rstrip_by (fun d => (d =? c)%char) s.

(** The text after the first [sep], when there is one:
    [s.split(sep, 1)[1]]. *)
Fixpoint after_first (sep : ascii) (s : string) : option string :=
  match s with
  | EmptyString => None
  | String c s' => if (c =? sep)%char then Some s' else after_first sep s'
  end.

(** The text after the last [sep], the whole of [s] when there is none:
    [s.split(sep)[-1]]. *)
Fixpoint after_last (sep : ascii) (s : string) : string :=
  match s with
  | EmptyString => EmptyString
  | String c s' =>
      if has_char sep s' then after_last sep s'
      else if (c =? sep)%char then s' else s
  end.

(** [os.path.basename] on a POSIX host. *)
Definition basename (path : string) : string := after_last "/" path.

(** [s[:-n]] for [n > 0]. *)
Definition drop_last (n : nat) (s : string) : string :=
  substring 0 (String.length s - n) s.

(** [str(n)] for a non-negative integer. *)
Definition str (n : Z) : string :=
  NilZero.string_of_uint (N.to_uint (Z.to_N n)).

(** [f"{n:02d}"] for a non-negative integer. *)
Definition fmt_02d (n : Z) : string :=
  if (n <? 10)%Z then "0" ++ str n else str n.

(** [int(s)] for a string of decimal digits. *)
Definition int (s : string) : Z :=
  match NilZero.uint_of_string s with
  | Some u => Z.of_N (N.of_uint u)
  | None => 0%Z
  end.

(** The last character of [s], if any. *)
Fixpoint last_char (s : string) : option ascii :=
  match s with
  | EmptyString => None
  | String c s' =>
      match last_char s' with
      | Some d => Some d
      | None => Some c
      end
  end.

(** [c * n] *)
Fixpoint repeat_char (c : ascii) (n : nat) : string :=
  match n with
  | O => EmptyString
  | S n' => String c (repeat_char c n')
  end.

(** The double-quote character. *)
Definition dquote : ascii := ascii_of_nat 34.

(** Every character of [s] satisfies [p]. *)
Fixpoint all_chars (p : ascii -> bool) (s : string) : bool :=
  match s with
  | EmptyString => true
  | String c s' => p c && all_chars p s'
  end.

(** [x in xs] for a list of strings. *)
Definition mem (x : string) (xs : list string) : bool :=
  existsb (String.eqb x) xs.

(** [s.isascii()] *)
Definition isascii (s : string) : bool :=
  all_chars (fun c => (code c <? 128)%N) s.

(** *** Characters beyond the ASCII range

    In UTF-8 a character of the ASCII range is one byte, and any other
    character is a lead byte followed by one to three continuation bytes,
    which are the bytes 128 to 191. *)

Definition is_continuation (c : ascii) : bool := between 128 191 c.

(** [s] goes on with a continuation byte. *)
Definition continues (s : string) : bool :=
  match s with
  | String d _ => is_continuation d
  | EmptyString => false
  end.

(** The characters of [s] in order, which is what [for c in s] runs over:
    every byte that is no continuation byte starts a character, which takes
    the continuation bytes behind it. *)
Fixpoint chars (s : string) : list string :=
  match s with
  | EmptyString => []
  | String c rest =>
      match chars rest with
      | u :: us =>
          if continues rest then String c u :: us
          else String c EmptyString :: u :: us
      | [] => [String c EmptyString]
      end
  end.

(** [len(s)] *)
Definition len (s : string) : nat := List.length (chars s).

(** [sep.join(parts)] *)
Fixpoint join (sep : string) (parts : list string) : string :=
  match parts with
  | [] => EmptyString
  | [x] => x
  | x :: rest => x ++ sep ++ join sep rest
  end.

(** [ord(c)], the code point of the character [c]; [None] when [c] is not
    the UTF-8 encoding of one code point, surrogates included. *)
Definition ord (c : string) : option N :=
  match c with
  | String a EmptyString =>
      if (code a <? 128)%N then Some (code a) else None
  | String a (String b EmptyString) =>
      if between 194 223 a && is_continuation b
      then Some ((code a - 192) * 64 + (code b - 128))%N
      else None
  | String a (String b (String c EmptyString)) =>
      let cp := ((code a - 224) * 4096 + (code b - 128) * 64 + (code c - 128))%N in
      if between 224 239 a && is_continuation b && is_continuation c
         && (2048 <=? cp)%N && negb ((55296 <=? cp)%N && (cp <=? 57343)%N)
      then Some cp
      else None
  | String a (String b (String c (String d EmptyString))) =>
      let cp := ((code a - 240) * 262144 + (code b - 128) * 4096
                 + (code c - 128) * 64 + (code d - 128))%N in
      if between 240 244 a && is_continuation b && is_continuation c
         && is_continuation d && (65536 <=? cp)%N && (cp <=? 1114111)%N
      then Some cp
      else None
  | _ => None
  end.

(** [c] is a lead byte, or a byte of the ASCII range, followed by
    continuation bytes only. *)
Definition one_char (c : string) : bool :=
  match c with
  | String a t => negb (is_continuation a) && all_chars is_continuation t
  | EmptyString => false
  end.

Definition in_ranges (cp : N) (ranges : list (N * N)) : bool :=
  existsb (fun r => (fst r <=? cp)%N && (cp <=? snd r)%N) ranges.

(** The code points [cp] with [chr(cp).isalnum()], as inclusive ranges:
    the letters and the decimal, digit and numeric characters of Unicode
    14.0, the table of CPython 3.11. *)
Definition alnum_ranges : list (N * N) :=
  [(48, 57); (65, 90); (97, 122); (170, 170); (178, 179); (181, 181); (185, 186);
   (188, 190); (192, 214); (216, 246); (248, 705); (710, 721); (736, 740); (748, 748);
   (750, 750); (880, 884); (886, 887); (890, 893); (895, 895); (902, 902); (904, 906);
   (908, 908); (910, 929); (931, 1013); (1015, 1153); (1162, 1327); (1329, 1366);
   (1369, 1369); (1376, 1416); (1488, 1514); (1519, 1522); (1568, 1610); (1632, 1641);
   (1646, 1647); (1649, 1747); (1749, 1749); (1765, 1766); (1774, 1788); (1791, 1791);
   (1808, 1808); (1810, 1839); (1869, 1957); (1969, 1969); (1984, 2026); (2036, 2037);
   (2042, 2042); (2048, 2069); (2074, 2074); (2084, 2084); (2088, 2088); (2112, 2136);
   (2144, 2154); (2160, 2183); (2185, 2190); (2208, 2249); (2308, 2361); (2365, 2365);
   (2384, 2384); (2392, 2401); (2406, 2415); (2417, 2432); (2437, 2444); (2447, 2448);
   (2451, 2472); (2474, 2480); (2482, 2482); (2486, 2489); (2493, 2493); (2510, 2510);
   (2524, 2525); (2527, 2529); (2534, 2545); (2548, 2553); (2556, 2556); (2565, 2570);
   (2575, 2576); (2579, 2600); (2602, 2608); (2610, 2611); (2613, 2614); (2616, 2617);
   (2649, 2652); (2654, 2654); (2662, 2671); (2674, 2676); (2693, 2701); (2703, 2705);
   (2707, 2728); (2730, 2736); (2738, 2739); (2741, 2745); (2749, 2749); (2768, 2768);
   (2784, 2785); (2790, 2799); (2809, 2809); (2821, 2828); (2831, 2832); (2835, 2856);
   (2858, 2864); (2866, 2867); (2869, 2873); (2877, 2877); (2908, 2909); (2911, 2913);
   (2918, 2927); (2929, 2935); (2947, 2947); (2949, 2954); (2958, 2960); (2962, 2965);
   (2969, 2970); (2972, 2972); (2974, 2975); (2979, 2980); (2984, 2986); (2990, 3001);
   (3024, 3024); (3046, 3058); (3077, 3084); (3086, 3088); (3090, 3112); (3114, 3129);
   (3133, 3133); (3160, 3162); (3165, 3165); (3168, 3169); (3174, 3183); (3192, 3198);
   (3200, 3200); (3205, 3212); (3214, 3216); (3218, 3240); (3242, 3251); (3253, 3257);
   (3261, 3261); (3293, 3294); (3296, 3297); (3302, 3311); (3313, 3314); (3332, 3340);
   (3342, 3344); (3346, 3386); (3389, 3389); (3406, 3406); (3412, 3414); (3416, 3425);
   (3430, 3448); (3450, 3455); (3461, 3478); (3482, 3505); (3507, 3515); (3517, 3517);
   (3520, 3526); (3558, 3567); (3585, 3632); (3634, 3635); (3648, 3654); (3664, 3673);
   (3713, 3714); (3716, 3716); (3718, 3722); (3724, 3747); (3749, 3749); (3751, 3760);
   (3762, 3763); (3773, 3773); (3776, 3780); (3782, 3782); (3792, 3801); (3804, 3807);
   (3840, 3840); (3872, 3891); (3904, 3911); (3913, 3948); (3976, 3980); (4096, 4138);
   (4159, 4169); (4176, 4181); (4186, 4189); (4193, 4193); (4197, 4198); (4206, 4208);
   (4213, 4225); (4238, 4238); (4240, 4249); (4256, 4293); (4295, 4295); (4301, 4301);
   (4304, 4346); (4348, 4680); (4682, 4685); (4688, 4694); (4696, 4696); (4698, 4701);
   (4704, 4744); (4746, 4749); (4752, 4784); (4786, 4789); (4792, 4798); (4800, 4800);
   (4802, 4805); (4808, 4822); (4824, 4880); (4882, 4885); (4888, 4954); (4969, 4988);
   (4992, 5007); (5024, 5109); (5112, 5117); (5121, 5740); (5743, 5759); (5761, 5786);
   (5792, 5866); (5870, 5880); (5888, 5905); (5919, 5937); (5952, 5969); (5984, 5996);
   (5998, 6000); (6016, 6067); (6103, 6103); (6108, 6108); (6112, 6121); (6128, 6137);
   (6160, 6169); (6176, 6264); (6272, 6276); (6279, 6312); (6314, 6314); (6320, 6389);
   (6400, 6430); (6470, 6509); (6512, 6516); (6528, 6571); (6576, 6601); (6608, 6618);
   (6656, 6678); (6688, 6740); (6784, 6793); (6800, 6809); (6823, 6823); (6917, 6963);
   (6981, 6988); (6992, 7001); (7043, 7072); (7086, 7141); (7168, 7203); (7232, 7241);
   (7245, 7293); (7296, 7304); (7312, 7354); (7357, 7359); (7401, 7404); (7406, 7411);
   (7413, 7414); (7418, 7418); (7424, 7615); (7680, 7957); (7960, 7965); (7968, 8005);
   (8008, 8013); (8016, 8023); (8025, 8025); (8027, 8027); (8029, 8029); (8031, 8061);
   (8064, 8116); (8118, 8124); (8126, 8126); (8130, 8132); (8134, 8140); (8144, 8147);
   (8150, 8155); (8160, 8172); (8178, 8180); (8182, 8188); (8304, 8305); (8308, 8313);
   (8319, 8329); (8336, 8348); (8450, 8450); (8455, 8455); (8458, 8467); (8469, 8469);
   (8473, 8477); (8484, 8484); (8486, 8486); (8488, 8488); (8490, 8493); (8495, 8505);
   (8508, 8511); (8517, 8521); (8526, 8526); (8528, 8585); (9312, 9371); (9450, 9471);
   (10102, 10131); (11264, 11492); (11499, 11502); (11506, 11507); (11517, 11517);
   (11520, 11557); (11559, 11559); (11565, 11565); (11568, 11623); (11631, 11631);
   (11648, 11670); (11680, 11686); (11688, 11694); (11696, 11702); (11704, 11710);
   (11712, 11718); (11720, 11726); (11728, 11734); (11736, 11742); (11823, 11823);
   (12293, 12295); (12321, 12329); (12337, 12341); (12344, 12348); (12353, 12438);
   (12445, 12447); (12449, 12538); (12540, 12543); (12549, 12591); (12593, 12686);
   (12690, 12693); (12704, 12735); (12784, 12799); (12832, 12841); (12872, 12879);
   (12881, 12895); (12928, 12937); (12977, 12991); (13312, 19903); (19968, 42124);
   (42192, 42237); (42240, 42508); (42512, 42539); (42560, 42606); (42623, 42653);
   (42656, 42735); (42775, 42783); (42786, 42888); (42891, 42954); (42960, 42961);
   (42963, 42963); (42965, 42969); (42994, 43009); (43011, 43013); (43015, 43018);
   (43020, 43042); (43056, 43061); (43072, 43123); (43138, 43187); (43216, 43225);
   (43250, 43255); (43259, 43259); (43261, 43262); (43264, 43301); (43312, 43334);
   (43360, 43388); (43396, 43442); (43471, 43481); (43488, 43492); (43494, 43518);
   (43520, 43560); (43584, 43586); (43588, 43595); (43600, 43609); (43616, 43638);
   (43642, 43642); (43646, 43695); (43697, 43697); (43701, 43702); (43705, 43709);
   (43712, 43712); (43714, 43714); (43739, 43741); (43744, 43754); (43762, 43764);
   (43777, 43782); (43785, 43790); (43793, 43798); (43808, 43814); (43816, 43822);
   (43824, 43866); (43868, 43881); (43888, 44002); (44016, 44025); (44032, 55203);
   (55216, 55238); (55243, 55291); (63744, 64109); (64112, 64217); (64256, 64262);
   (64275, 64279); (64285, 64285); (64287, 64296); (64298, 64310); (64312, 64316);
   (64318, 64318); (64320, 64321); (64323, 64324); (64326, 64433); (64467, 64829);
   (64848, 64911); (64914, 64967); (65008, 65019); (65136, 65140); (65142, 65276);
   (65296, 65305); (65313, 65338); (65345, 65370); (65382, 65470); (65474, 65479);
   (65482, 65487); (65490, 65495); (65498, 65500); (65536, 65547); (65549, 65574);
   (65576, 65594); (65596, 65597); (65599, 65613); (65616, 65629); (65664, 65786);
   (65799, 65843); (65856, 65912); (65930, 65931); (66176, 66204); (66208, 66256);
   (66273, 66299); (66304, 66339); (66349, 66378); (66384, 66421); (66432, 66461);
   (66464, 66499); (66504, 66511); (66513, 66517); (66560, 66717); (66720, 66729);
   (66736, 66771); (66776, 66811); (66816, 66855); (66864, 66915); (66928, 66938);
   (66940, 66954); (66956, 66962); (66964, 66965); (66967, 66977); (66979, 66993);
   (66995, 67001); (67003, 67004); (67072, 67382); (67392, 67413); (67424, 67431);
   (67456, 67461); (67463, 67504); (67506, 67514); (67584, 67589); (67592, 67592);
   (67594, 67637); (67639, 67640); (67644, 67644); (67647, 67669); (67672, 67702);
   (67705, 67742); (67751, 67759); (67808, 67826); (67828, 67829); (67835, 67867);
   (67872, 67897); (67968, 68023); (68028, 68047); (68050, 68096); (68112, 68115);
   (68117, 68119); (68121, 68149); (68160, 68168); (68192, 68222); (68224, 68255);
   (68288, 68295); (68297, 68324); (68331, 68335); (68352, 68405); (68416, 68437);
   (68440, 68466); (68472, 68497); (68521, 68527); (68608, 68680); (68736, 68786);
   (68800, 68850); (68858, 68899); (68912, 68921); (69216, 69246); (69248, 69289);
   (69296, 69297); (69376, 69415); (69424, 69445); (69457, 69460); (69488, 69505);
   (69552, 69579); (69600, 69622); (69635, 69687); (69714, 69743); (69745, 69746);
   (69749, 69749); (69763, 69807); (69840, 69864); (69872, 69881); (69891, 69926);
   (69942, 69951); (69956, 69956); (69959, 69959); (69968, 70002); (70006, 70006);
   (70019, 70066); (70081, 70084); (70096, 70106); (70108, 70108); (70113, 70132);
   (70144, 70161); (70163, 70187); (70272, 70278); (70280, 70280); (70282, 70285);
   (70287, 70301); (70303, 70312); (70320, 70366); (70384, 70393); (70405, 70412);
   (70415, 70416); (70419, 70440); (70442, 70448); (70450, 70451); (70453, 70457);
   (70461, 70461); (70480, 70480); (70493, 70497); (70656, 70708); (70727, 70730);
   (70736, 70745); (70751, 70753); (70784, 70831); (70852, 70853); (70855, 70855);
   (70864, 70873); (71040, 71086); (71128, 71131); (71168, 71215); (71236, 71236);
   (71248, 71257); (71296, 71338); (71352, 71352); (71360, 71369); (71424, 71450);
   (71472, 71483); (71488, 71494); (71680, 71723); (71840, 71922); (71935, 71942);
   (71945, 71945); (71948, 71955); (71957, 71958); (71960, 71983); (71999, 71999);
   (72001, 72001); (72016, 72025); (72096, 72103); (72106, 72144); (72161, 72161);
   (72163, 72163); (72192, 72192); (72203, 72242); (72250, 72250); (72272, 72272);
   (72284, 72329); (72349, 72349); (72368, 72440); (72704, 72712); (72714, 72750);
   (72768, 72768); (72784, 72812); (72818, 72847); (72960, 72966); (72968, 72969);
   (72971, 73008); (73030, 73030); (73040, 73049); (73056, 73061); (73063, 73064);
   (73066, 73097); (73112, 73112); (73120, 73129); (73440, 73458); (73648, 73648);
   (73664, 73684); (73728, 74649); (74752, 74862); (74880, 75075); (77712, 77808);
   (77824, 78894); (82944, 83526); (92160, 92728); (92736, 92766); (92768, 92777);
   (92784, 92862); (92864, 92873); (92880, 92909); (92928, 92975); (92992, 92995);
   (93008, 93017); (93019, 93025); (93027, 93047); (93053, 93071); (93760, 93846);
   (93952, 94026); (94032, 94032); (94099, 94111); (94176, 94177); (94179, 94179);
   (94208, 100343); (100352, 101589); (101632, 101640); (110576, 110579);
   (110581, 110587); (110589, 110590); (110592, 110882); (110928, 110930);
   (110948, 110951); (110960, 111355); (113664, 113770); (113776, 113788);
   (113792, 113800); (113808, 113817); (119520, 119539); (119648, 119672);
   (119808, 119892); (119894, 119964); (119966, 119967); (119970, 119970);
   (119973, 119974); (119977, 119980); (119982, 119993); (119995, 119995);
   (119997, 120003); (120005, 120069); (120071, 120074); (120077, 120084);
   (120086, 120092); (120094, 120121); (120123, 120126); (120128, 120132);
   (120134, 120134); (120138, 120144); (120146, 120485); (120488, 120512);
   (120514, 120538); (120540, 120570); (120572, 120596); (120598, 120628);
   (120630, 120654); (120656, 120686); (120688, 120712); (120714, 120744);
   (120746, 120770); (120772, 120779); (120782, 120831); (122624, 122654);
   (123136, 123180); (123191, 123197); (123200, 123209); (123214, 123214);
   (123536, 123565); (123584, 123627); (123632, 123641); (124896, 124902);
   (124904, 124907); (124909, 124910); (124912, 124926); (124928, 125124);
   (125127, 125135); (125184, 125251); (125259, 125259); (125264, 125273);
   (126065, 126123); (126125, 126127); (126129, 126132); (126209, 126253);
   (126255, 126269); (126464, 126467); (126469, 126495); (126497, 126498);
   (126500, 126500); (126503, 126503); (126505, 126514); (126516, 126519);
   (126521, 126521); (126523, 126523); (126530, 126530); (126535, 126535);
   (126537, 126537); (126539, 126539); (126541, 126543); (126545, 126546);
   (126548, 126548); (126551, 126551); (126553, 126553); (126555, 126555);
   (126557, 126557); (126559, 126559); (126561, 126562); (126564, 126564);
   (126567, 126570); (126572, 126578); (126580, 126583); (126585, 126588);
   (126590, 126590); (126592, 126601); (126603, 126619); (126625, 126627);
   (126629, 126633); (126635, 126651); (127232, 127244); (130032, 130041);
   (131072, 173791); (173824, 177976); (177984, 178205); (178208, 183969);
   (183984, 191456); (194560, 195101); (196608, 201546)]%N.

(** [c.isalnum()] for a character [c]. *)
Definition isalnum (c : string) : bool :=
  match ord c with
  | Some cp => in_ranges cp alnum_ranges
  | None => false
  end.

End Py.

(* ================================================================== *)
(** ** Effects: a clock, a trace, exceptions *)

Module Eff.

(** One call to an outside service either returns or raises. *)
Inductive Reply (A : Type) : Type :=
| Returns (a : A)
| Raises (e : string).
Arguments Returns {A} a.
Arguments Raises {A} e.

(** The state threaded through a run: the clock in milliseconds, the
    number of polls made so far, and the calls made so far, oldest first,
    each with the clock reading at which it was issued. *)
Record St (E : Type) : Type := { now : Z; polls : nat; trace : list (Z * E) }.
Arguments now {E} s.
Arguments polls {E} s.
Arguments trace {E} s.

Inductive Res (A : Type) : Type :=
| Ret (a : A)          (* normal return *)
| Exn (e : string)     (* an exception propagates *)
| OutOfFuel.           (* the loop bound of the model was reached *)
Arguments Ret {A} a.
Arguments Exn {A} e.
Arguments OutOfFuel {A}.

Definition M (E A : Type) : Type := St E -> Res A * St E.

Definition ret {E A} (a : A) : M E A := fun s => (Ret a, s).
Definition raise {E A} (e : string) : M E A := fun s => (Exn e, s).
Definition out_of_fuel {E A} : M E A := fun s => (OutOfFuel, s).
Definition bind {E A B} (m : M E A) (k : A -> M E B) : M E B :=
  fun s =>
    match m s with
    | (Ret a, s') => k a s'
    | (Exn e, s') => (Exn e, s')
    | (OutOfFuel, s') => (OutOfFuel, s')
    end.

(** [try: m finally: f] *)
Definition finally {E A} (m : M E A) (f : M E unit) : M E A :=
  fun s =>
    match m s with
    | (OutOfFuel, s') => (OutOfFuel, s')
    | (r, s') =>
        match f s' with
        | (Ret _, s'') => (r, s'')
        | (Exn e, s'') => (Exn e, s'')
        | (OutOfFuel, s'') => (OutOfFuel, s'')
        end
    end.

Definition emit {E} (e : E) : M E unit :=
  fun s => (Ret tt, {| now := now s; polls := polls s;
                       trace := (trace s ++ [(now s, e)])%list |}).

(** [time.time()] *)
Definition time_time {E} : M E Z := fun s => (Ret (now s), s).

(** The clock moves on by [ms] milliseconds. *)
Definition elapse {E} (ms : Z) : M E unit :=
  fun s => (Ret tt, {| now := (now s + ms)%Z; polls := polls s; trace := trace s |}).

(** The [k]-th poll of an outside service: it is issued now, takes
    [delay k] milliseconds and answers [reply k]; [ev] is its trace entry. *)
Definition poll {E A} (delay : nat -> N) (reply : nat -> Reply A)
           (ev : A -> E) : M E A :=
  fun s =>
    let k := polls s in
    let t := (now s + Z.of_N (delay k))%Z in
    match reply k with
    | Returns a =>
        (Ret a, {| now := t; polls := S k;
                   trace := (trace s ++ [(now s, ev a)])%list |})
    | Raises e => (Exn e, {| now := t; polls := S k; trace := trace s |})
    end.

Definition initial {E} (start : Z) : St E :=
  {| now := start; polls := 0; trace := [] |}.

Definition events {E A} (r : Res A * St E) : list E := List.map snd (trace (snd r)).
Definition result {E A} (r : Res A * St E) : Res A := fst r.

End Eff.

Import Eff.

Declare Scope eff_scope.
Delimit Scope eff_scope with eff.
Notation "x <- m ;; k" := (bind m (fun x => k))
  (at level 61, m at next level, right associativity) : eff_scope.
Notation "m ;; k" := (bind m (fun _ => k))
  (at level 61, right associativity) : eff_scope.
Open Scope eff_scope.

(* ================================================================== *)
(** ** The spreadsheet splitter, [src/epl-function/function_app.py] *)

Module Splitter.

Definition CONTAINER_NAME : string := "ingestion".

(** [OUT_PREFIX_TEMPLATE.format(...)] and [ARCHIVE_PREFIX_TEMPLATE.format(...)]. *)
Definition OUT_PREFIX (file_type year month : string) : string :=
  file_type ++ "/" ++ year ++ "/" ++ month ++ "/".
Definition ARCHIVE_PREFIX (file_type year month : string) : string :=
  "_archive/" ++ file_type ++ "/" ++ year ++ "/" ++ month ++ "/".

(** [None] exports every sheet. *)
Definition ACCEPTED_SHEETS : option (list string) := None.

(** What [datetime.utcnow()] returns, as far as the splitter reads it. *)
Record UtcNow := { now_year : Z; now_month : Z }.

(** The match of [(\d{4})-(\d{2})-(\d{2})] anchored at the head of [s]:
    its three groups. *)
Definition match_date_here (s : string) : option (string * string * string) :=
  match s with
  | String y1 (String y2 (String y3 (String y4 (String h1
    (String m1 (String m2 (String h2 (String d1 (String d2 _))))))))) =>
      if Py.isdigit y1 && Py.isdigit y2 && Py.isdigit y3 && Py.isdigit y4
         && (h1 =? "-")%char
         && Py.isdigit m1 && Py.isdigit m2
         && (h2 =? "-")%char
         && Py.isdigit d1 && Py.isdigit d2
      then Some (String y1 (String y2 (String y3 (String y4 EmptyString))),
                 String m1 (String m2 EmptyString),
                 String d1 (String d2 EmptyString))
      else None
  | _ => None
  end.

(** [re.search] of that pattern: the leftmost position where it matches. *)
Fixpoint re_search_date (s : string) : option (string * string * string) :=
  match match_date_here s with
  | Some g => Some g
  | None =>
      match s with
      | EmptyString => None
      | String _ s' => re_search_date s'
      end
  end.

(** Whether [datetime.strptime(f"{year}-{month}-01", "%Y-%m-%d")] returns,
    for a four-digit [year] and a two-digit [month]: [%m] accepts 01..12
    and [datetime] refuses the year 0. *)
Definition strptime_first_of_month_ok (year month : string) : bool :=
  ((1 <=? Py.int year) && (1 <=? Py.int month) && (Py.int month <=? 12))%Z.

Definition _extract_year_month (now : UtcNow) (stem : string) : string * string :=
  match re_search_date stem with
  | Some (year, month, _) =>
      if strptime_first_of_month_ok year month
      then (year, month)
      else (Py.str (now_year now), Py.fmt_02d (now_month now))
  | None => (Py.str (now_year now), Py.fmt_02d (now_month now))
  end.

(** *** Vocabulary of the specification for dates *)






Definition _determine_file_type (filename : string) : string * option string :=
  let filename_lower := Py.lower filename in
  if Py.startswith filename_lower "routes_" && Py.contains "dsk4" filename_lower
  then ("driver_routes", Some "Routes")
  else if Py.contains "dayofopsplan" filename_lower
  then ("dsp_summary", None)
  else ("dsp_summary", None).

(** [c.isalnum() or c in ("-", "_")] for a character [c]. *)
Definition path_safe (c : string) : bool :=
  Py.isalnum c || ((c =? "-") || (c =? "_")).

(** [c if (c.isalnum() or c in ("-", "_")) else "_"] *)
Definition safe_char (c : string) : string :=
  if path_safe c then c else "_".

(** The join of the generator over the characters of [name]. *)
Definition _safe (name : string) : string :=
  Py.join EmptyString (List.map safe_char (Py.chars name)).

(** *** Effects

    One invocation runs against a [World]: what the clock reads when the
    invocation starts, whether a storage account is configured, what the
    workbook holds, which SDK calls raise, and what each poll of the
    destination's copy status answers and how long it takes. *)

(** The calls that reach the workbook or the storage account. *)
Inductive Event : Type :=
| EvReadWorkbook                                   (* inputblob.read(), pd.ExcelFile *)
| EvReadExcel (sheet : string)                     (* pd.read_excel, to_csv *)
| EvUpload (name sheet : string)                   (* container.upload_blob(overwrite=True) *)
| EvStartCopy (src dst : string)                   (* dst_blob.start_copy_from_url *)
| EvPoll (dst : string) (status : option string)   (* dst_blob.get_blob_properties *)
| EvSleep (seconds : Z)                            (* time.sleep *)
| EvDelete (name : string).                        (* container.delete_blob *)

Record World := {
  utcnow : UtcNow;
  start_time : Z;                          (* milliseconds *)
  storage_configured : bool;               (* EPL_STORAGE__serviceUri or EPL_STORAGE is set *)
  sheet_names : Reply (list string);       (* xls.sheet_names, or the read raises *)
  raises : Event -> bool;                  (* this SDK call raises *)
  poll_delay : nat -> N;                   (* milliseconds taken by the k-th poll *)
  poll_status : nat -> Reply (option string)  (* props.copy.status of the k-th poll *)
}.

Definition St : Type := Eff.St Event.
Definition M (A : Type) : Type := Eff.M Event A.

(** An SDK call without a result of interest. *)
Definition call (w : World) (e : Event) : M unit :=
  emit e ;; if raises w e then raise "sdk error" else ret tt.

(** [time.sleep(seconds)] *)
Definition time_sleep (seconds : Z) : M unit :=
  emit (EvSleep seconds) ;; elapse (1000 * seconds).

(** [dest_blob_client.get_blob_properties()] followed by
    [props.copy.status if props.copy else None]. *)
Definition get_copy_status (w : World) (dst : string) : M (option string) :=
  poll (poll_delay w) (poll_status w) (EvPoll dst).

Definition _get_blob_service_client (w : World) : M unit :=
  if storage_configured w then ret tt
  else raise "Storage connection not configured.".

Definition status_is (status : option string) (name : string) : bool :=
  match status with
  | Some s => s =? name
  | None => false
  end.

(** The [while time.time() < deadline] loop. *)
Fixpoint wait_loop (w : World) (fuel : nat) (dst : string) (deadline : Z) : M bool :=
  match fuel with
  | O => out_of_fuel
  | S fuel' =>
      t <- time_time ;;
      if (t <? deadline)%Z then
        status <- get_copy_status w dst ;;
        if status_is status "success" then ret true
        else if status_is status "aborted" || status_is status "failed" then ret false
        else time_sleep 1 ;; wait_loop w fuel' dst deadline
      else ret false
  end.

(** [copy_id] is not read by the function.  Every round of the loop sleeps
    one second, so [timeout_s] rounds and the final reading of the clock are
    all the loop can make. *)
Definition _wait_for_copy_success (w : World) (dst copy_id : string)
           (timeout_s : Z) : M bool :=
  t <- time_time ;;
  let deadline := (t + 1000 * timeout_s)%Z in
  wait_loop w (S (Z.to_nat timeout_s)) dst deadline.

(** What the loop adds to the trace: polls of [dst] and sleeps of a second. *)
Definition wait_entry (dst : string) (te : Z * Event) : Prop :=
  (exists st, snd te = EvPoll dst st) \/ snd te = EvSleep 1.

(** What comes before the archive step in the trace: the read of the
    workbook and, for each exported sheet, its read and its upload. *)
Definition export_entry (te : Z * Event) : Prop :=
  match snd te with
  | EvReadWorkbook | EvReadExcel _ | EvUpload _ _ => True
  | _ => False
  end.

(** What follows the start of the copy of [src] to [dst] in the trace. *)
Definition archive_event (src dst : string) (e : Event) : Prop :=
  match e with
  | EvPoll d _ => d = dst
  | EvSleep n => n = 1%Z
  | EvDelete b => b = src
  | _ => False
  end.

(** [if target_sheet:] *)
Definition truthy (o : option string) : bool :=
  match o with
  | Some s => negb (s =? EmptyString)
  | None => false
  end.

(** The [for sheet in sheet_names] loop. *)
Fixpoint export_sheets (w : World) (out_prefix stem : string)
         (sheets : list string) : M unit :=
  match sheets with
  | [] => ret tt
  | sheet :: rest =>
      call w (EvReadExcel sheet) ;;
      let out_blob_name := out_prefix ++ stem ++ "__" ++ _safe sheet ++ ".csv" in
      call w (EvUpload out_blob_name sheet) ;;
      export_sheets w out_prefix stem rest
  end.

(** The base name of the path, stripped of white space at both ends, then
    of trailing apostrophes, then of trailing double quotes. *)
Definition clean_filename (full_path : string) : string :=
  Py.rstrip (Py.rstrip (Py.strip (Py.basename full_path)) "'") Py.dquote.

(** [full_path.split("/", 1)[1] if "/" in full_path else full_path] *)
Definition blob_name_of (full_path : string) : string :=
  match Py.after_first "/" full_path with
  | Some rest => rest
  | None => full_path
  end.

(** The event is a call of [container.delete_blob]. *)
Definition is_delete (e : Event) : bool :=
  match e with
  | EvDelete _ => true
  | _ => false
  end.

(** [m] double quotes followed by [n] apostrophes. *)
Definition trailing_quotes (m n : nat) : string :=
  Py.repeat_char Py.dquote m ++ Py.repeat_char "'" n.

(** The name [base] with quotes behind it and white space around. *)
Definition decorated (ws1 base ws2 : string) (m n : nat) : string :=
  ws1 ++ base ++ trailing_quotes m n ++ ws2.

(** The part of [split_excel] that follows the two filters, from
    [stem = filename[:-5]] to the archive step. *)
Definition process (w : World) (blob_name filename : string) : M unit :=
  let stem := Py.drop_last 5 filename in
  let '(year, month) := _extract_year_month (utcnow w) stem in
  let '(file_type, target_sheet) := _determine_file_type filename in
  _get_blob_service_client w ;;
  emit EvReadWorkbook ;;
  match sheet_names w with
  | Raises e => raise e
  | Returns names =>
      let selection :=
        if truthy target_sheet then
          match target_sheet with
          | Some t => if Py.mem t names then Some [t] else None
          | None => None
          end
        else
          match ACCEPTED_SHEETS with
          | Some accepted => Some (filter (fun s => Py.mem s accepted) names)
          | None => Some names
          end in
      match selection with
      | None => ret tt                   (* target sheet not found *)
      | Some [] => ret tt                (* no sheets to export *)
      | Some sheets =>
          let out_prefix := OUT_PREFIX file_type year month in
          let archive_prefix := ARCHIVE_PREFIX file_type year month in
          export_sheets w out_prefix stem sheets ;;
          let archive_blob_name := archive_prefix ++ filename in
          call w (EvStartCopy blob_name archive_blob_name) ;;
          ok <- _wait_for_copy_success w archive_blob_name EmptyString 60 ;;
          if ok then call w (EvDelete blob_name) else ret tt
      end
  end.

(** The body of [split_excel]; its [except] clause logs and raises the
    exception again, which leaves the result as it is. *)
Definition split_excel (w : World) (full_path : string) : M unit :=
  let blob_name := blob_name_of full_path in
  if Py.startswith blob_name "_archive/" || Py.startswith blob_name "dsp_summary/"
  then ret tt
  else
    let filename := clean_filename full_path in
    if Py.startswith filename "~$" || negb (Py.endswith (Py.lower filename) ".xlsx")
    then ret tt
    else process w blob_name filename.

(** One invocation of the trigger on the blob [full_path]. *)
Definition run (w : World) (full_path : string) : Res unit * St :=
  split_excel w full_path (initial (start_time w)).

End Splitter.

(* ================================================================== *)
(** ** The load-completion gate, [src/.github/scripts/gate_until_loaded.py] *)

Module Gate.

(** The parsed command line. *)
Record Args := {
  table : string;
  file : string;
  timeout : Z;               (* seconds, default 1800 *)
  lookback_hours : Z         (* default 24 *)
}.

(** A row of the copy history: file_name, status, row_count, last_load_time. *)
Record Row := {
  file_name : string;
  status : option string;    (* [None] is SQL NULL *)
  row_count : Z;
  last_load_time : string
}.

Inductive Event : Type :=
| EvConnect                                     (* snowflake.connector.connect *)
| EvQuery (file_tail : string) (row : option Row)   (* cur.execute(q); cur.fetchone() *)
| EvSleep (seconds : Z)                         (* time.sleep *)
| EvClose.                                      (* conn.close() *)

(** The warehouse as the gate sees it: whether the connection opens, and
    for the k-th query how long it takes and what [fetchone()] returns,
    which is the most recent matching row of the history, if any. *)
Record World := {
  start_time : Z;
  connect_ok : bool;
  query_delay : nat -> N;
  query_reply : nat -> Reply (option Row)
}.

Definition St : Type := Eff.St Event.
Definition M (A : Type) : Type := Eff.M Event A.

Definition time_sleep (seconds : Z) : M unit :=
  emit (EvSleep seconds) ;; elapse (1000 * seconds).

Definition fetchone (w : World) (file_tail : string) : M (option Row) :=
  poll (query_delay w) (query_reply w) (EvQuery file_tail).

(** The status column, the empty string when it is null, in upper case. *)
Definition status_of (row : Row) : string :=
  Py.upper match status row with
           | Some s => s
           | None => EmptyString
           end.

(** The [if row:] block: the exit code it returns, if it returns. *)
Definition verdict (row : option Row) : option Z :=
  match row with
  | Some r =>
      let status := status_of r in
      if status =? "LOADED" then Some 0%Z
      else if (status =? "LOAD_FAILED") || (status =? "PARTIALLY_LOADED") then Some 2%Z
      else None
  | None => None
  end.

(** The [while time.time() - start < args.timeout] loop. *)
Fixpoint poll_loop (w : World) (fuel : nat) (file_tail : string)
         (start timeout_s : Z) : M Z :=
  match fuel with
  | O => out_of_fuel
  | S fuel' =>
      t <- time_time ;;
      if (t - start <? 1000 * timeout_s)%Z then
        row <- fetchone w file_tail ;;
        match verdict row with
        | Some exit_code => ret exit_code
        | None => time_sleep 10 ;; poll_loop w fuel' file_tail start timeout_s
        end
      else ret 3%Z
  end.

(** [main()]: the value it returns is the exit code of the process.
    Every round of the loop sleeps ten seconds, so [timeout] rounds and the
    final reading of the clock are all the loop can make. *)
Definition main (w : World) (args : Args) : M Z :=
  emit EvConnect ;;
  (if connect_ok w then ret tt else raise "connection error") ;;
  let file_tail := Py.after_last "/" (file args) in
  start <- time_time ;;
  finally
    (poll_loop w (S (Z.to_nat (timeout args))) file_tail start (timeout args))
    (emit EvClose).

Definition run (w : World) (args : Args) : Res Z * St :=
  main w args (initial (start_time w)).

(** *** Vocabulary of the specification for a polling run *)

(** The clock reading at the [k]-th test of the loop condition when every
    poll before it asked for another round: a poll is issued at once,
    takes [query_delay], and is followed by a sleep of ten seconds. *)
Fixpoint guard_time (w : World) (k : nat) : Z :=
  match k with
  | O => start_time w
  | S j => (guard_time w j + Z.of_N (query_delay w j) + 10000)%Z
  end.

(** At the [k]-th test the elapsed time is below the timeout. *)
Definition in_time (w : World) (args : Args) (k : nat) : Prop :=
  (guard_time w k - start_time w < 1000 * timeout args)%Z.

(** The row the [k]-th poll returns. *)
Definition replied (w : World) (k : nat) : option Row :=
  match query_reply w k with
  | Returns row => row
  | Raises _ => None
  end.

(** The [k]-th poll returns and finds no row, or a row whose status is
    none of the three terminal ones. *)
Definition another_round (w : World) (k : nat) : Prop :=
  exists row, query_reply w k = Returns row /\
    (row = None \/
     exists r, row = Some r /\ status_of r <> "LOADED"
               /\ status_of r <> "LOAD_FAILED" /\ status_of r <> "PARTIALLY_LOADED").

(** The trace of [k] rounds that each asked for another one. *)
Fixpoint rounds_trace (w : World) (file_tail : string) (k : nat) : list (Z * Event) :=
  match k with
  | O => [(start_time w, EvConnect)]
  | S j =>
      (rounds_trace w file_tail j
       ++ [(guard_time w j, EvQuery file_tail (replied w j));
           ((guard_time w j + Z.of_N (query_delay w j))%Z, EvSleep 10)])%list
  end.

(** The state at the [k]-th test of the loop condition. *)
Definition at_round (w : World) (file_tail : string) (k : nat) : St :=
  {| now := guard_time w k; polls := k; trace := rounds_trace w file_tail k |}.

(** [s] is [t], a lower-case word, written in any letter case. *)
Definition in_any_case (s t : string) : Prop := Py.lower s = t.

End Gate.

(* ================================================================== *)
(** ** The workflow dispatcher, [src/epl-dbt-dispatcher/function_app.py] *)

Module Dispatcher.

Record Config := {
  GITHUB_OWNER : string;
  GITHUB_REPO : string;
  GITHUB_PAT : string;
  PATH_BEGINS : string;
  PATH_ENDS : string
}.

(** [os.environ.get] with the empty string as default. *)
Definition environ_get (environ : string -> option string) (key : string) : string :=
  match environ key with
  | Some v => v
  | None => EmptyString
  end.

Definition get_config (environ : string -> option string) : Config :=
  {| GITHUB_OWNER := environ_get environ "GITHUB_OWNER";
     GITHUB_REPO := environ_get environ "GITHUB_REPO";
     GITHUB_PAT := environ_get environ "GITHUB_PAT";
     PATH_BEGINS := environ_get environ "PATH_BEGINS";
     PATH_ENDS := environ_get environ "PATH_ENDS" |}.

(** The notification: [get_json()] returns the [data] object, [None] or
    raises; [event_time] is kept in ISO format. *)
Record EventGridEvent := {
  get_json : Reply (option (list (string * string)));
  subject : string;
  event_type : string;
  event_time : option string
}.

(** [d.get] with the empty string as default. *)
Fixpoint dict_get (d : list (string * string)) (key : string) : string :=
  match d with
  | [] => EmptyString
  | (k, v) :: d' => if k =? key then v else dict_get d' key
  end.

(** The answer of [requests.post]. *)
Inductive HttpReply : Type :=
| Status (status_code : Z)
| TimedOut
| RequestException.

Record World := {
  environ : string -> option string;
  utcnow_iso : string;                  (* datetime.utcnow().isoformat() *)
  http : HttpReply
}.

(** The one outbound call: [requests.post(github_url, headers, data, timeout=30)]. *)
Record Post := {
  url : string;
  authorization : string;
  post_event_type : string;
  blob_url : string;
  post_file_name : string;
  post_event_time : string
}.

(** [truthy s] is [bool(s)] for a string. *)
Definition truthy (s : string) : bool := negb (s =? EmptyString).

Definition OnBlobCreatedDispatchToGitHub (w : World) (azeventgrid : EventGridEvent)
  : Res unit * list Post :=
  let config := get_config (environ w) in
  if negb (truthy (GITHUB_OWNER config)) || negb (truthy (GITHUB_REPO config))
  then (Exn "GitHub configuration incomplete", [])
  else if negb (truthy (GITHUB_PAT config))
  then (Exn "GitHub PAT not configured", [])
  else
    match get_json azeventgrid with
    | Raises e => (Exn e, [])
    | Returns event_data =>
        let subject := subject azeventgrid in
        let blob_url :=
          match event_data with
          | Some ((_ :: _) as d) => dict_get d "url"
          | _ => EmptyString
          end in
        if truthy (PATH_BEGINS config)
           && negb (Py.startswith subject (PATH_BEGINS config))
        then (Ret tt, [])
        else if truthy (PATH_ENDS config)
                && negb (Py.endswith subject (PATH_ENDS config))
        then (Ret tt, [])
        else
          let file_name :=
            if truthy blob_url then Py.after_last "/" blob_url
            else Py.after_last "/" subject in
          let github_url :=
            "https://api.github.com/repos/" ++ GITHUB_OWNER config ++ "/"
              ++ GITHUB_REPO config ++ "/dispatches" in
          let post :=
            {| url := github_url;
               authorization := "token " ++ GITHUB_PAT config;
               post_event_type := "blob-created";
               blob_url := blob_url;
               post_file_name := file_name;
               post_event_time :=
                 match event_time azeventgrid with
                 | Some t => t
                 | None => utcnow_iso w
                 end |} in
          match http w with
          | Status 204 => (Ret tt, [post])
          | Status code =>
              (Exn ("GitHub dispatch failed with status " ++ Py.str code), [post])
          | TimedOut => (Exn "timeout", [post])
          | RequestException => (Exn "request failed", [post])
          end
    end.

End Dispatcher.

(* ================================================================== *)
(** ** Concrete worlds *)

Module Examples.

Definition loaded_row (status : string) : Gate.Row :=
  {| Gate.file_name := "dsp_summary/2025/02/2025-02-10-DSK4__Solution.csv";
     Gate.status := Some status;
     Gate.row_count := 42;
     Gate.last_load_time := "2025-02-10 08:00:00" |}.

(** A warehouse whose first two polls find the file still loading and
    whose third poll finds the status [third]. *)
Definition warehouse (third : string) : Gate.World :=
  {| Gate.start_time := 0;
     Gate.connect_ok := true;
     Gate.query_delay := fun _ => 100%N;
     Gate.query_reply := fun k =>
       Returns (Some (loaded_row (if (k <? 2)%nat then "LOADING" else third))) |}.

Definition gate_args (timeout : Z) : Gate.Args :=
  {| Gate.table := "RAW.SOLUTION_BASE";
     Gate.file := "dsp_summary/2025/02/2025-02-10-DSK4__Solution.csv";
     Gate.timeout := timeout;
     Gate.lookback_hours := 24 |}.

(** The application settings of the dispatcher, with or without a token. *)
Definition settings (pat : option string) (key : string) : option string :=
  if key =? "GITHUB_OWNER" then Some "dataepl"
  else if key =? "GITHUB_REPO" then Some "epl_analytics_project"
  else if key =? "GITHUB_PAT" then pat
  else if key =? "PATH_ENDS" then Some "__Solution.csv"
  else None.

Definition dispatcher_world (pat : option string) : Dispatcher.World :=
  {| Dispatcher.environ := settings pat;
     Dispatcher.utcnow_iso := "2025-02-10T08:00:00";
     Dispatcher.http := Dispatcher.Status 204 |}.

(** A notification for a blob that the suffix filter does not let through. *)
Definition notes_created : Dispatcher.EventGridEvent :=
  {| Dispatcher.get_json :=
       Returns (Some [("url",
         "https://epldatastore01.blob.core.windows.net/ingestion/dsp_summary/2025/02/2025-02-10-DSK4__Notes.csv")]);
     Dispatcher.subject :=
       "/blobServices/default/containers/ingestion/blobs/dsp_summary/2025/02/2025-02-10-DSK4__Notes.csv";
     Dispatcher.event_type := "Microsoft.Storage.BlobCreated";
     Dispatcher.event_time := Some "2025-02-10T07:59:58" |}.

(** A storage account where every call succeeds and the [k]-th poll of the
    archive copy reports [status k]; the workbook has the sheets [sheets]. *)
Definition storage_with (sheets : list string) (status : nat -> string)
  : Splitter.World :=
  {| Splitter.utcnow := {| Splitter.now_year := 2026; Splitter.now_month := 3 |};
     Splitter.start_time := 0;
     Splitter.storage_configured := true;
     Splitter.sheet_names := Returns sheets;
     Splitter.raises := fun _ => false;
     Splitter.poll_delay := fun _ => 250%N;
     Splitter.poll_status := fun k => Returns (Some (status k)) |}.

(** The archive copy reports success on the third poll. *)
Definition storage (sheets : list string) : Splitter.World :=
  storage_with sheets (fun k => if (k <? 2)%nat then "pending" else "success").

End Examples.

(* ================================================================== *)
(** ** Stages of the splitter and vocabulary for its trace *)

Module Stages.

Import Splitter.

(** A year as the splitter writes it in a path: four decimal digits. *)
Definition year_text (s : string) : bool :=
  (String.length s =? 4)%nat && Py.all_chars Py.isdigit s.

(** A month as the splitter writes it in a path: two decimal digits that
    name a month, 01 to 12. *)
Definition month_text (s : string) : bool :=
  (String.length s =? 2)%nat && Py.all_chars Py.isdigit s
  && ((1 <=? Py.int s)%Z && (Py.int s <=? 12)%Z).

(** The path passes the two filters at the head of [split_excel]. *)
Definition accepted (full_path : string) : bool :=
  negb (Py.startswith (blob_name_of full_path) "_archive/"
        || Py.startswith (blob_name_of full_path) "dsp_summary/")
  && negb (Py.startswith (clean_filename full_path) "~$"
           || negb (Py.endswith (Py.lower (clean_filename full_path)) ".xlsx")).

(** The sheets [split_excel] exports from a workbook with the sheets
    [names]; [None] when the target sheet is not among them. *)
Definition selection (target_sheet : option string) (names : list string)
  : option (list string) :=
  if truthy target_sheet then
    match target_sheet with
    | Some t => if Py.mem t names then Some [t] else None
    | None => None
    end
  else
    match ACCEPTED_SHEETS with
    | Some accepted => Some (filter (fun s => Py.mem s accepted) names)
    | None => Some names
    end.

(** The name [out_blob_name] of the CSV written for [sheet] of [filename]. *)
Definition upload_name (w : World) (filename sheet : string) : string :=
  let stem := Py.drop_last 5 filename in
  OUT_PREFIX (fst (_determine_file_type filename))
             (fst (_extract_year_month (utcnow w) stem))
             (snd (_extract_year_month (utcnow w) stem))
  ++ stem ++ "__" ++ _safe sheet ++ ".csv".

(** The name [archive_blob_name] under which [filename] is archived. *)
Definition archive_name (w : World) (filename : string) : string :=
  let stem := Py.drop_last 5 filename in
  ARCHIVE_PREFIX (fst (_determine_file_type filename))
                 (fst (_extract_year_month (utcnow w) stem))
                 (snd (_extract_year_month (utcnow w) stem))
  ++ filename.

(** The archive step: start the copy, wait, delete on success. *)
Definition archive (w : World) (blob_name archive_blob_name : string) : M unit :=
  call w (EvStartCopy blob_name archive_blob_name) ;;
  ok <- _wait_for_copy_success w archive_blob_name EmptyString 60 ;;
  if ok then call w (EvDelete blob_name) else ret tt.

(** The trace of an export in which no call raises, issued at time [t]. *)
Definition export_trace (w : World) (t : Z) (filename : string)
           (sheets : list string) : list (Z * Event) :=
  flat_map (fun sheet => [(t, EvReadExcel sheet);
                          (t, EvUpload (upload_name w filename sheet) sheet)])
           sheets.

(** [e] is the read or the upload of one of [sheets], the upload under
    the name built from [filename]. *)
Definition export_event (w : World) (filename : string) (sheets : list string)
           (e : Event) : Prop :=
  exists sheet, In sheet sheets /\
    (e = EvReadExcel sheet \/ e = EvUpload (upload_name w filename sheet) sheet).




End Stages.

(* ================================================================== *)
(** ** The diagnostics endpoint, [diag] in [src/epl-function/function_app.py] *)

Module Diag.

(** The client asked of the SDK: [DefaultAzureCredential()] followed by
    [BlobServiceClient(account_url=..., credential=cred)], or
    [BlobServiceClient.from_connection_string(conn_str)]. *)
Inductive Client : Type :=
| ManagedIdentity (account_url : string)
| ConnectionString (conn_str : string).

(** The two application settings [_get_blob_service_client] reads, what the
    SDK answers when asked to build a client, which raises on a setting it
    cannot read, and the listing of the container: each step of the
    iteration over [container.list_blobs] yields a blob name or raises. *)
Record World := {
  service_uri : option string;          (* EPL_STORAGE__serviceUri *)
  connection_string : option string;    (* EPL_STORAGE *)
  new_client : Client -> Reply unit;
  blobs : list (Reply string)
}.

(** [if value:] for a setting read with [os.getenv]. *)
Definition setting (value : option string) : option string :=
  match value with
  | Some v => if v =? EmptyString then None else Some v
  | None => None
  end.

(** The call of the SDK that builds [client]. *)
Definition build (w : World) (client : Client) : Reply Client :=
  match new_client w client with
  | Returns _ => Returns client
  | Raises e => Raises e
  end.

Definition _get_blob_service_client (w : World) : Reply Client :=
  match setting (service_uri w) with
  | Some uri => build w (ManagedIdentity uri)
  | None =>
      match setting (connection_string w) with
      | Some conn_str => build w (ConnectionString conn_str)
      | None => Raises "Storage connection not configured."
      end
  end.

(** The [for i, b in enumerate(..., start=1)] loop with its [break]. *)
Fixpoint sample_loop (i : nat) (items : list (Reply string)) (names : list string)
  : Reply (list string) :=
  match items with
  | [] => Returns names
  | Raises e :: _ => Raises e
  | Returns b :: rest =>
      let names := (names ++ [b])%list in
      if (5 <=? i)%nat then Returns names else sample_loop (S i) rest names
  end.

(** The response: its status code and what its body is rendered from. *)
Inductive Body : Type :=
| Sample (serviceUri container : string) (sample_blobs : list string)
| DiagError (e : string).

Record HttpResponse := { body : Body; status_code : Z }.

Definition diag (w : World) : HttpResponse :=
  let svc := match service_uri w with
             | Some v => v
             | None => "<missing>"
             end in
  match _get_blob_service_client w with
  | Raises e => {| body := DiagError e; status_code := 500 |}
  | Returns _ =>
      match sample_loop 1 (blobs w) [] with
      | Raises e => {| body := DiagError e; status_code := 500 |}
      | Returns names =>
          {| body := Sample svc Splitter.CONTAINER_NAME names; status_code := 200 |}
      end
  end.


End Diag.

(* ================================================================== *)
(** ** Vocabulary for the dispatcher and the gate *)

Module Dispatch.

Import Dispatcher.

(** Owner, repository and token are set, the event data can be read, and
    the subject passes both path filters. *)
Definition dispatches (w : World) (azeventgrid : EventGridEvent) : bool :=
  let config := get_config (environ w) in
  truthy (GITHUB_OWNER config) && truthy (GITHUB_REPO config)
  && truthy (GITHUB_PAT config)
  && match get_json azeventgrid with
     | Returns _ => true
     | Raises _ => false
     end
  && (negb (truthy (PATH_BEGINS config))
      || Py.startswith (subject azeventgrid) (PATH_BEGINS config))
  && (negb (truthy (PATH_ENDS config))
      || Py.endswith (subject azeventgrid) (PATH_ENDS config)).

(** The [url] entry of the event data, the empty string without one. *)
Definition blob_url_of (azeventgrid : EventGridEvent) : string :=
  match get_json azeventgrid with
  | Returns (Some ((_ :: _) as d)) => dict_get d "url"
  | _ => EmptyString
  end.

End Dispatch.

(* ================================================================== *)
(** ** More concrete worlds *)

Module MoreExamples.


(** A container of seven blobs whose listing fails at the sixth. *)
Definition seven_blobs : Diag.World :=
  {| Diag.service_uri := Some "https://epldatastore01.blob.core.windows.net";
     Diag.connection_string := None;
     Diag.new_client := fun _ => Returns tt;
     Diag.blobs := [Returns "a.xlsx"; Returns "b.xlsx"; Returns "c.xlsx";
                    Returns "d.xlsx"; Returns "e.xlsx"; Raises "timeout";
                    Returns "g.xlsx"] |}.

(** A service URI the SDK cannot read, beside a connection string it can. *)
Definition bad_service_uri : Diag.World :=
  {| Diag.service_uri := Some "epldatastore01";
     Diag.connection_string := Some "UseDevelopmentStorage=true";
     Diag.new_client := fun client =>
       match client with
       | Diag.ManagedIdentity _ => Raises "Invalid URL"
       | Diag.ConnectionString _ => Returns tt
       end;
     Diag.blobs := [Returns "a.xlsx"] |}.

(** A warehouse whose third query fails. *)
Definition flaky_warehouse : Gate.World :=
  {| Gate.start_time := 0;
     Gate.connect_ok := true;
     Gate.query_delay := fun _ => 100%N;
     Gate.query_reply := fun k =>
       if (k <? 2)%nat then Returns None else Raises "connection lost" |}.

(** A dispatcher with complete settings and no path filter, answered with
    the status [code]. *)
Definition open_settings (key : string) : option string :=
  if key =? "GITHUB_OWNER" then Some "dataepl"
  else if key =? "GITHUB_REPO" then Some "epl_analytics_project"
  else if key =? "GITHUB_PAT" then Some "ghp_token"
  else None.

Definition answered (code : Z) : Dispatcher.World :=
  {| Dispatcher.environ := open_settings;
     Dispatcher.utcnow_iso := "2025-02-10T08:00:00";
     Dispatcher.http := Dispatcher.Status code |}.

(** The request sent for [Examples.notes_created] under [open_settings]. *)
Definition notes_post : Dispatcher.Post :=
  {| Dispatcher.url :=
       "https://api.github.com/repos/dataepl/epl_analytics_project/dispatches";
     Dispatcher.authorization := "token ghp_token";
     Dispatcher.post_event_type := "blob-created";
     Dispatcher.blob_url :=
       "https://epldatastore01.blob.core.windows.net/ingestion/dsp_summary/2025/02/2025-02-10-DSK4__Notes.csv";
     Dispatcher.post_file_name := "2025-02-10-DSK4__Notes.csv";
     Dispatcher.post_event_time := "2025-02-10T07:59:58" |}.

End MoreExamples.

(* ================================================================== *)
(** * Properties *)

(** ** Sanity checks of the string model against Python *)

Example py_smoke :
  Py.lower "Routes_DSK4" = "routes_dsk4" /\
  Py.upper "Loaded" = "LOADED" /\
  Py.strip "  a b  " = "a b" /\
  Py.rstrip (Py.rstrip (String.append "x.xlsx" (String Py.dquote "'")) "'") Py.dquote = "x.xlsx" /\
  Py.basename "a/b/c.xlsx" = "c.xlsx" /\
  Py.basename "a/b/" = EmptyString /\
  Py.after_first "/" "a/b/c" = Some "b/c" /\
  Py.drop_last 5 "name.xlsx" = "name" /\
  Py.drop_last 5 "abc" = EmptyString /\
  Py.str 2025 = "2025" /\ Py.fmt_02d 2 = "02" /\ Py.fmt_02d 11 = "11" /\
  Py.int "0007" = 7%Z /\
  Py.endswith "a.xlsx" ".xlsx" = true /\ Py.contains "dsk4" "routes_dsk4_x" = true.
Proof. repeat split; vm_compute; reflexivity. Qed.

Example splitter_smoke :
  let now := {| Splitter.now_year := 2026; Splitter.now_month := 3 |} in
  Splitter._extract_year_month now "Routes_DSK4_2025-09-13_15_16 (EDT)" = ("2025", "09") /\
  Splitter._extract_year_month now "x2025-13-01" = ("2026", "03") /\
  Splitter._extract_year_month now "x2025-02-31" = ("2025", "02") /\
  Splitter._extract_year_month now "0000-02-10" = ("2026", "03") /\
  Splitter._extract_year_month now "12025-02-101" = ("2025", "02") /\
  Splitter._determine_file_type "Routes_DSK4_2025-09-13_15_16 (EDT).xlsx" = ("driver_routes", Some "Routes") /\
  Splitter._safe "Dispatch Plan (v2)" = "Dispatch_Plan__v2_".
Proof. repeat split; vm_compute; reflexivity. Qed.


(** ** Characters of a string *)

Lemma append_empty (s : string) : s ++ EmptyString = s.
Proof. induction s as [|c s IH]; cbn; [reflexivity | now rewrite IH]. Qed.

Lemma join_cons (x : string) (rest : list string) :
  Py.join EmptyString (x :: rest) = x ++ Py.join EmptyString rest.
Proof.
  destruct rest as [|y rest]; cbn [Py.join append]; [now rewrite append_empty | reflexivity].
Qed.

Lemma chars_nonempty (c : ascii) (rest : string) : Py.chars (String c rest) <> [].
Proof.
  cbn [Py.chars]. destruct (Py.chars rest); [discriminate|].
  destruct (Py.continues rest); discriminate.
Qed.

(** The characters of a string, joined, are the string. *)
Lemma join_chars : forall s, Py.join EmptyString (Py.chars s) = s.
Proof.
  induction s as [|c rest IH]; [reflexivity|].
  cbn [Py.chars]. destruct (Py.chars rest) as [|u us] eqn:E.
  - cbn in IH. now subst rest.
  - rewrite join_cons in IH.
    destruct (Py.continues rest); rewrite !join_cons; cbn [append]; now rewrite <- IH.
Qed.


Lemma chars_one_char (rest : string) : Py.continues rest = false ->
  forall t a, Py.all_chars Py.is_continuation t = true ->
  Py.chars (String a (t ++ rest)) = String a t :: Py.chars rest.
Proof.
  intros Hrest. induction t as [|b t IH]; intros a Ht.
  - cbn [append Py.chars]. rewrite Hrest.
    destruct (Py.chars rest) as [|u us] eqn:E; reflexivity.
  - cbn [Py.all_chars] in Ht. apply andb_true_iff in Ht as [Hb Ht].
    change (String a (String b t ++ rest)) with (String a (String b (t ++ rest))).
    change (Py.chars (String a (String b (t ++ rest))))
      with (match Py.chars (String b (t ++ rest)) with
            | u :: us =>
                if Py.continues (String b (t ++ rest)) then String a u :: us
                else String a EmptyString :: u :: us
            | [] => [String a EmptyString]
            end).
    rewrite (IH b Ht). cbn [Py.continues]. now rewrite Hb.
Qed.

Lemma join_starts_char (us : list string) :
  Forall (fun u => Py.one_char u = true) us ->
  Py.continues (Py.join EmptyString us) = false.
Proof.
  intros F. destruct F as [|u us Hu F]; [reflexivity|].
  rewrite join_cons. destruct u as [|a t]; [discriminate Hu|].
  cbn in Hu |- *. apply andb_true_iff in Hu as [Ha _].
  now apply negb_true_iff in Ha.
Qed.

(** Characters joined are read back one by one. *)
Lemma chars_join (us : list string) :
  Forall (fun u => Py.one_char u = true) us -> Py.chars (Py.join EmptyString us) = us.
Proof.
  induction 1 as [|u us Hu F IH]; [reflexivity|].
  rewrite join_cons. destruct u as [|a t]; [discriminate Hu|].
  cbn [Py.one_char] in Hu. apply andb_true_iff in Hu as [_ Ht].
  change (String a t ++ Py.join EmptyString us)
    with (String a (t ++ Py.join EmptyString us)).
  rewrite (chars_one_char _ (join_starts_char us F) t a Ht), IH. reflexivity.
Qed.

Lemma lead_byte (lo hi : N) (a : ascii) :
  (192 <= lo)%N -> Py.between lo hi a = true -> Py.is_continuation a = false.
Proof.
  unfold Py.is_continuation, Py.between. intros Hlo H.
  apply andb_true_iff in H as [H _]. apply N.leb_le in H.
  apply andb_false_iff. right. apply N.leb_gt. lia.
Qed.

(** A character with a code point is one character. *)
Lemma ord_one_char (c : string) (cp : N) : Py.ord c = Some cp -> Py.one_char c = true.
Proof.
  destruct c as [|a [|b [|c [|d [|e r]]]]]; cbn [Py.ord]; try discriminate.
  - destruct (Py.code a <? 128)%N eqn:E; [|discriminate]. intros _.
    cbn [Py.one_char Py.all_chars]. rewrite andb_true_r. apply negb_true_iff.
    unfold Py.is_continuation, Py.between. apply N.ltb_lt in E.
    apply andb_false_iff. left. apply N.leb_gt. lia.
  - destruct (Py.between 194 223 a) eqn:A; cbn [andb]; [|discriminate].
    destruct (Py.is_continuation b) eqn:B; [|discriminate]. intros _.
    cbn [Py.one_char Py.all_chars].
    now rewrite (lead_byte 194 223 a ltac:(lia) A), B.
  - cbv zeta.
    destruct (Py.between 224 239 a) eqn:A; cbn [andb]; [|discriminate].
    destruct (Py.is_continuation b) eqn:B; cbn [andb]; [|discriminate].
    destruct (Py.is_continuation c) eqn:C; cbn [andb]; [|discriminate]. intros _.
    cbn [Py.one_char Py.all_chars].
    now rewrite (lead_byte 224 239 a ltac:(lia) A), B, C.
  - cbv zeta.
    destruct (Py.between 240 244 a) eqn:A; cbn [andb]; [|discriminate].
    destruct (Py.is_continuation b) eqn:B; cbn [andb]; [|discriminate].
    destruct (Py.is_continuation c) eqn:C; cbn [andb]; [|discriminate].
    destruct (Py.is_continuation d) eqn:D; cbn [andb]; [|discriminate]. intros _.
    cbn [Py.one_char Py.all_chars].
    now rewrite (lead_byte 240 244 a ltac:(lia) A), B, C, D.
Qed.

(** ** Sheet-name sanitization *)

Example safe_smoke :
  Splitter._safe "Résumé" = "Résumé" /\
  Splitter._safe "Plan–A" = "Plan_A" /\
  Splitter._safe "Q1 (été) 50%" = "Q1__été__50_" /\
  Splitter._safe "計画-2" = "計画-2" /\
  Py.len "Plan–A" = 6%nat.
Proof. repeat split; vm_compute; reflexivity. Qed.

Lemma underscore_path_safe : Splitter.path_safe "_" = true.
Proof. unfold Splitter.path_safe. now rewrite orb_true_r. Qed.

Lemma safe_char_path_safe (c : string) : Splitter.path_safe (Splitter.safe_char c) = true.
Proof.
  unfold Splitter.safe_char.
  destruct (Splitter.path_safe c) eqn:E.
  - exact E.
  - exact underscore_path_safe.
Qed.

Lemma safe_char_fixed (c : string) :
  Splitter.path_safe c = true -> Splitter.safe_char c = c.
Proof.
  unfold Splitter.safe_char. intros H. now rewrite H.
Qed.

Lemma path_safe_one_char (c : string) : Splitter.path_safe c = true -> Py.one_char c = true.
Proof.
  unfold Splitter.path_safe, Py.isalnum. intros H.
  apply orb_true_iff in H as [H | H].
  - destruct (Py.ord c) as [cp|] eqn:E; [|discriminate H]. exact (ord_one_char c cp E).
  - apply orb_true_iff in H as [H | H]; apply String.eqb_eq in H; subst c; reflexivity.
Qed.

(** The sanitized name, character by character. *)
Lemma chars_safe (s : string) :
  Py.chars (Splitter._safe s) = List.map Splitter.safe_char (Py.chars s).
Proof.
  unfold Splitter._safe. apply chars_join.
  apply Forall_forall. intros u Hu. apply in_map_iff in Hu as (c & <- & _).
  apply path_safe_one_char, safe_char_path_safe.
Qed.

(** C4: [_safe] is idempotent, and every character of its result is
    alphanumeric, a hyphen or an underscore. *)
Theorem C4_safe_idempotent_and_path_safe (s : string) :
  Splitter._safe (Splitter._safe s) = Splitter._safe s /\
  forallb Splitter.path_safe (Py.chars (Splitter._safe s)) = true.
Proof.
  split.
  - unfold Splitter._safe at 1. rewrite chars_safe, map_map. unfold Splitter._safe.
    f_equal. apply map_ext. intros c. apply safe_char_fixed, safe_char_path_safe.
  - rewrite chars_safe. apply forallb_forall. intros u Hu.
    apply in_map_iff in Hu as (c & <- & _). apply safe_char_path_safe.
Qed.

(** ** Classification by file name *)




(** ** Partition extraction *)










(** ** The effect monad *)

Lemma bind_inv {E A B} (m : M E A) (k : A -> M E B) (s s' : St E) (r : Res B) :
  bind m k s = (r, s') ->
  (exists a s1, m s = (Ret a, s1) /\ k a s1 = (r, s')) \/
  (exists e, m s = (Exn e, s') /\ r = Exn e) \/
  (m s = (OutOfFuel, s') /\ r = OutOfFuel).
Proof.
  unfold bind. destruct (m s) as [[a|e|] s1]; intros H.
  - left. eauto.
  - right. left. inversion H; subst. eauto.
  - right. right. inversion H; subst. eauto.
Qed.

Ltac bind_inv H :=
  let a := fresh "a" in
  let s1 := fresh "s" in
  let e := fresh "e" in
  let H1 := fresh H "a" in
  let H2 := fresh H "b" in
  apply bind_inv in H;
  destruct H as [(a & s1 & H1 & H2) | [(e & H1 & H2) | (H1 & H2)]].

Ltac same_pair H := inversion H; subst; clear H.

(** ** Waiting for the archive copy *)

Section Wait.
Import Splitter.
Variable w : World.
Variable dst : string.
Variable deadline : Z.

Lemma time_sleep_run (n : Z) (s : St) :
  time_sleep n s =
  (Ret tt, {| now := (now s + 1000 * n)%Z; polls := polls s;
              trace := (trace s ++ [(now s, EvSleep n)])%list |}).
Proof. reflexivity. Qed.

Lemma wait_loop_inv : forall fuel s r s',
  wait_loop w fuel dst deadline s = (r, s') ->
  exists added,
    trace s' = (trace s ++ added)%list /\
    Forall (wait_entry dst) added /\
    (r = Ret true ->
     exists tp, In (tp, EvPoll dst (Some "success")) added /\ (now s <= tp < deadline)%Z) /\
    (forall tp st, In (tp, EvPoll dst (Some st)) added ->
                   st = "aborted" \/ st = "failed" -> r = Ret false).
Proof.
  induction fuel as [|fuel IH]; intros s r s' H.
  - same_pair H. exists []. rewrite app_nil_r.
    split; [reflexivity|]. split; [constructor|].
    split; [discriminate | intros ? ? []].
  - cbn [wait_loop] in H. unfold bind at 1, time_time at 1 in H.
    destruct (now s <? deadline)%Z eqn:Hguard.
    2:{ same_pair H. exists []. rewrite app_nil_r.
        split; [reflexivity|]. split; [constructor|].
        split; [discriminate | intros ? ? []]. }
    apply Z.ltb_lt in Hguard.
    unfold bind at 1, get_copy_status, poll in H.
    destruct (poll_status w (polls s)) as [status|e].
    2:{ same_pair H. exists []. cbn. rewrite app_nil_r.
        split; [reflexivity|]. split; [constructor|].
        split; [discriminate | intros ? ? []]. }
    destruct (status_is status "success") eqn:Hs.
    { same_pair H. exists [(now s, EvPoll dst status)]. cbn.
      destruct status as [st|]; [|discriminate]. cbn in Hs.
      apply String.eqb_eq in Hs. subst st.
      split; [reflexivity|]. split; [constructor; [left; eexists; reflexivity | constructor]|].
      split.
      - intros _. exists (now s). split; [left; reflexivity | lia].
      - intros tp st [Hin|[]] [->| ->]; inversion Hin. }
    destruct (status_is status "aborted" || status_is status "failed") eqn:Ht.
    { same_pair H. exists [(now s, EvPoll dst status)]. cbn.
      split; [reflexivity|]. split; [constructor; [left; eexists; reflexivity | constructor]|].
      split; [discriminate | reflexivity]. }
    unfold bind at 1 in H. rewrite time_sleep_run in H. cbn [now polls trace] in H.
    apply IH in H. destruct H as (added & Htr & Hall & Hok & Hbad).
    cbn [now polls trace] in *.
    exists ((now s, EvPoll dst status)
              :: ((now s + Z.of_N (poll_delay w (polls s)))%Z, EvSleep 1) :: added).
    split; [rewrite Htr, <- !app_assoc; reflexivity|].
    split; [constructor; [left; eexists; reflexivity|]; constructor; [right; reflexivity | exact Hall]|].
    split.
    + intros Hr. destruct (Hok Hr) as (tp & Hin & Htp).
      exists tp. split; [right; right; exact Hin | lia].
    + intros tp st [Hin|[Hin|Hin]] Hst.
      * inversion Hin; subst. cbn in Ht.
        destruct Hst as [-> | ->]; cbn in Ht; discriminate.
      * inversion Hin.
      * eapply Hbad; eauto.
Qed.

Lemma wait_loop_fuel : forall n s,
  (deadline - now s <= 1000 * Z.of_nat n)%Z ->
  fst (wait_loop w (S n) dst deadline s) <> OutOfFuel.
Proof.
  induction n as [|n IH]; intros s Hn; cbn [wait_loop];
    unfold bind at 1, time_time at 1;
    (destruct (now s <? deadline)%Z eqn:Hguard; [|discriminate]);
    apply Z.ltb_lt in Hguard.
  - lia.
  - unfold bind at 1, get_copy_status, poll.
    destruct (poll_status w (polls s)) as [status|e]; [|discriminate].
    destruct (status_is status "success"); [discriminate|].
    destruct (status_is status "aborted" || status_is status "failed"); [discriminate|].
    unfold bind at 1. rewrite time_sleep_run. cbn [now polls trace].
    apply IH. cbn [now]. lia.
Qed.

End Wait.

(** ** The archive step of the splitter *)

Section Archive.
Import Splitter.
Variable w : World.

Lemma call_inv (e : Event) (s s' : St) (r : Res unit) :
  call w e s = (r, s') ->
  trace s' = (trace s ++ [(now s, e)])%list /\ now s' = now s /\ r <> OutOfFuel.
Proof.
  unfold call, bind, emit. destruct (raises w e); intros H; same_pair H;
    cbn; repeat split; discriminate.
Qed.

Lemma export_sheets_inv (out_prefix stem : string) : forall sheets s r s',
  export_sheets w out_prefix stem sheets s = (r, s') ->
  exists added,
    trace s' = (trace s ++ added)%list /\ Forall export_entry added /\
    now s' = now s /\ r <> OutOfFuel.
Proof.
  induction sheets as [|sheet rest IH]; intros s r s' H.
  - same_pair H. exists []. rewrite app_nil_r.
    repeat split; [constructor | discriminate].
  - cbn [export_sheets] in H. bind_inv H.
    + apply call_inv in Ha as (T1 & N1 & _). bind_inv Hb.
      * apply call_inv in Hba as (T2 & N2 & _).
        apply IH in Hbb as (added & T3 & F3 & N3 & R3).
        eexists (_ :: _ :: added).
        split; [rewrite T3, T2, T1, <- !app_assoc; reflexivity|].
        split; [repeat constructor; assumption|].
        split; [congruence | assumption].
      * apply call_inv in Hba as (T2 & N2 & _). subst r.
        eexists [_; _].
        split; [rewrite T2, T1, <- !app_assoc; reflexivity|].
        split; [repeat constructor|]. split; [congruence | discriminate].
      * apply call_inv in Hba as (_ & _ & R). contradiction.
    + apply call_inv in Ha as (T1 & N1 & _). subst r. eexists [_].
      split; [exact T1|]. split; [repeat constructor|].
      split; [congruence | discriminate].
    + apply call_inv in Ha as (_ & _ & R). contradiction.
Qed.

(** The trace of the part after the filters: either it never reaches the
    archive step, or it is the export, the start of the copy, the polls of
    the wait, and a delete only behind a poll that saw success in time. *)
Lemma process_shape (blob_name filename : string) (s s' : St) (r : Res unit) :
  trace s = [] ->
  process w blob_name filename s = (r, s') ->
  r <> OutOfFuel /\
  (Forall export_entry (trace s') \/
   exists pre t0 dst added tail,
     trace s' = (pre ++ (t0, EvStartCopy blob_name dst) :: added ++ tail)%list /\
     Forall export_entry pre /\
     Forall (wait_entry dst) added /\
     (tail = [] \/
      exists t tp, tail = [(t, EvDelete blob_name)] /\
                   In (tp, EvPoll dst (Some "success")) added /\
                   (t0 <= tp < t0 + 60000)%Z) /\
     (forall tp st, In (tp, EvPoll dst (Some st)) added ->
                    st = "aborted" \/ st = "failed" -> tail = [])).
Proof.
  intros Hnil. unfold process.
  destruct (_extract_year_month _ _) as [year month].
  destruct (_determine_file_type _) as [file_type target_sheet].
  unfold bind at 1, _get_blob_service_client.
  destruct (storage_configured w).
  2:{ intros H; same_pair H. split; [discriminate|]. left. rewrite Hnil. constructor. }
  unfold ret at 1. unfold bind at 1, emit at 1.
  set (s1 := {| now := now s; polls := polls s;
                trace := (trace s ++ [(now s, EvReadWorkbook)])%list |}).
  assert (F1 : Forall export_entry (trace s1)).
  { subst s1. cbn. rewrite Hnil. repeat constructor. }
  destruct (sheet_names w) as [names|e].
  2:{ intros H; same_pair H. split; [discriminate|]. left. exact F1. }
  match goal with
  | |- match ?sel with _ => _ end s1 = _ -> _ => destruct sel as [[|sh sheets]|]
  end.
  1,3: intros H; same_pair H; (split; [discriminate|]); left; exact F1.
  intros H. bind_inv H.
  2,3: apply export_sheets_inv in Ha as (added & T & F & N & R);
       try contradiction;
       subst r; (split; [discriminate|]); left; rewrite T;
       apply Forall_app; split; assumption.
  apply export_sheets_inv in Ha as (ex & T & F & N & _).
  assert (Fpre : Forall export_entry (trace s0))
    by (rewrite T; apply Forall_app; split; assumption).
  clear T F F1. bind_inv Hb.
  3:{ apply call_inv in Hba as (T & _ & R). contradiction. }
  2:{ apply call_inv in Hba as (T & _ & R). subst r. split; [discriminate|]. right.
      eexists (trace s0), (now s0), _, [], []. rewrite T.
      split; [reflexivity|]. split; [assumption|]. split; [constructor|].
      split; [left; reflexivity | reflexivity]. }
  apply call_inv in Hba as (T & N1 & _).
  bind_inv Hbb.
  - (* the wait returned *)
    unfold _wait_for_copy_success, bind at 1, time_time at 1 in Hbba.
    apply wait_loop_inv in Hbba as (added & Tw & Fw & Hok & Hbad).
    destruct a1.
    + apply call_inv in Hbbb as (Td & Nd & Rd). split; [exact Rd|]. right.
      destruct (Hok eq_refl) as (tp & Hin & Htp).
      eexists (trace s0), (now s0), _, added, [(now s3, EvDelete blob_name)].
      rewrite Td, Tw, T, <- !app_assoc. cbn [app].
      split; [reflexivity|]. split; [assumption|]. split; [assumption|].
      split.
      * right. exists (now s3), tp. repeat split; try assumption; lia.
      * intros tp' st Hin' Hst. specialize (Hbad tp' st Hin' Hst). discriminate.
    + same_pair Hbbb. split; [discriminate|]. right.
      eexists (trace s0), (now s0), _, added, [].
      rewrite Tw, T, <- !app_assoc, app_nil_r. cbn [app].
      split; [reflexivity|]. split; [assumption|]. split; [assumption|].
      split; [left; reflexivity | reflexivity].
  - (* a poll raised *)
    unfold _wait_for_copy_success, bind at 1, time_time at 1 in Hbba.
    apply wait_loop_inv in Hbba as (added & Tw & Fw & Hok & Hbad).
    subst r. split; [discriminate|]. right.
    eexists (trace s0), (now s0), _, added, [].
    rewrite Tw, T, <- !app_assoc, app_nil_r. cbn [app].
    split; [reflexivity|]. split; [assumption|]. split; [assumption|].
    split; [left; reflexivity | reflexivity].
  - (* the bound of the model is not reached *)
    unfold _wait_for_copy_success, bind at 1, time_time at 1 in Hbba.
    pose proof (wait_loop_fuel w
                  (ARCHIVE_PREFIX file_type year month ++ filename)
                  (now s2 + 1000 * 60)%Z 60 s2 ltac:(lia)) as Hfuel.
    change (S (Z.to_nat 60)) with 61%nat in Hbba.
    rewrite Hbba in Hfuel. contradiction Hfuel. reflexivity.
Qed.

End Archive.

Lemma export_entry_only (l : list (Z * Splitter.Event)) (t : Z) (e : Splitter.Event) :
  Forall Splitter.export_entry l -> In (t, e) l ->
  match e with
  | Splitter.EvReadWorkbook | Splitter.EvReadExcel _ | Splitter.EvUpload _ _ => True
  | _ => False
  end.
Proof. intros F H. rewrite Forall_forall in F. exact (F _ H). Qed.

Lemma wait_entry_only (dst : string) (l : list (Z * Splitter.Event)) (t : Z)
      (e : Splitter.Event) :
  Forall (Splitter.wait_entry dst) l -> In (t, e) l ->
  match e with
  | Splitter.EvPoll d _ => d = dst
  | Splitter.EvSleep n => n = 1%Z
  | _ => False
  end.
Proof.
  intros F H. rewrite Forall_forall in F. destruct (F _ H) as [[st E] | E];
    cbn in E; subst e; reflexivity.
Qed.

(** C1: the splitter deletes a blob only when it is the source and a poll of
    the archive copy, issued less than 60 seconds after the wait for the copy
    began (the model takes the start of the copy to be instantaneous), saw the
    status success; once a poll sees aborted or failed, and when no poll sees
    success before the time is out, nothing is deleted.  The run always comes
    to an end. *)
Theorem C1_delete_only_after_copy_success (w : Splitter.World) (full_path : string) :
  let r := Splitter.run w full_path in
  result r <> OutOfFuel /\
  (forall t b, In (t, Splitter.EvDelete b) (trace (snd r)) ->
     b = Splitter.blob_name_of full_path /\
     exists t0 dst tp,
       In (t0, Splitter.EvStartCopy b dst) (trace (snd r)) /\
       In (tp, Splitter.EvPoll dst (Some "success")) (trace (snd r)) /\
       (t0 <= tp < t0 + 60000)%Z) /\
  (forall tp dst st, In (tp, Splitter.EvPoll dst (Some st)) (trace (snd r)) ->
     st = "aborted" \/ st = "failed" ->
     forall t b, ~ In (t, Splitter.EvDelete b) (trace (snd r))) /\
  ((forall tp dst, ~ In (tp, Splitter.EvPoll dst (Some "success")) (trace (snd r))) ->
   forall t b, ~ In (t, Splitter.EvDelete b) (trace (snd r))).
Proof.
  intros r.
  assert (Hidle : trace (snd r) = [] -> result r <> OutOfFuel ->
                  result r <> OutOfFuel /\
                  (forall t b, In (t, Splitter.EvDelete b) (trace (snd r)) ->
                     b = Splitter.blob_name_of full_path /\
                     exists t0 dst tp,
                       In (t0, Splitter.EvStartCopy b dst) (trace (snd r)) /\
                       In (tp, Splitter.EvPoll dst (Some "success")) (trace (snd r)) /\
                       (t0 <= tp < t0 + 60000)%Z) /\
                  (forall tp dst st,
                     In (tp, Splitter.EvPoll dst (Some st)) (trace (snd r)) ->
                     st = "aborted" \/ st = "failed" ->
                     forall t b, ~ In (t, Splitter.EvDelete b) (trace (snd r))) /\
                  ((forall tp dst,
                      ~ In (tp, Splitter.EvPoll dst (Some "success")) (trace (snd r))) ->
                   forall t b, ~ In (t, Splitter.EvDelete b) (trace (snd r)))).
  { intros E R. rewrite E. split; [exact R|]. split; [intros ? ? []|].
    split; [intros ? ? ? []| intros _ ? ? []]. }
  subst r. unfold Splitter.run, Splitter.split_excel in *.
  destruct (Py.startswith _ "_archive/" || Py.startswith _ "dsp_summary/").
  { apply Hidle; [reflexivity | discriminate]. }
  destruct (Py.startswith _ "~$" || negb _).
  { apply Hidle; [reflexivity | discriminate]. }
  clear Hidle.
  destruct (Splitter.process w _ _ _) as [r s'] eqn:Hrun.
  apply process_shape in Hrun; [|reflexivity].
  destruct Hrun as [R [Hpre | (pre & t0 & dst & added & tail & T & Fp & Fw & Htail & Hbad)]];
    cbn [result fst snd]; (split; [exact R|]).
  - split; [|split].
    + intros t b H. destruct (export_entry_only _ _ _ Hpre H).
    + intros tp d st H. destruct (export_entry_only _ _ _ Hpre H).
    + intros _ t b H. destruct (export_entry_only _ _ _ Hpre H).
  - assert (Hdel : forall t b, In (t, Splitter.EvDelete b) (trace s') ->
                   b = Splitter.blob_name_of full_path /\
                   exists u tp, tail = [(u, Splitter.EvDelete b)] /\
                     In (tp, Splitter.EvPoll dst (Some "success")) added /\
                     (t0 <= tp < t0 + 60000)%Z).
    { intros t b H. rewrite T in H.
      apply in_app_or in H as [H | [H | H]].
      - destruct (export_entry_only _ _ _ Fp H).
      - discriminate H.
      - apply in_app_or in H as [H | H].
        + destruct (wait_entry_only _ _ _ _ Fw H).
        + destruct Htail as [-> | (u & tp & -> & Hin & Htp)]; [destruct H|].
          destruct H as [H | []]. inversion H; subst. eauto 6. }
    split; [|split].
    + intros t b H. destruct (Hdel t b H) as (-> & u & tp & _ & Hin & Htp).
      split; [reflexivity|]. exists t0, dst, tp. rewrite T.
      split; [apply in_or_app; right; left; reflexivity|].
      split; [|exact Htp].
      apply in_or_app; right; right. apply in_or_app; left. exact Hin.
    + intros tp d st H Hst t b Hd.
      destruct (Hdel t b Hd) as (_ & u & tp' & Etail & _).
      rewrite T in H. apply in_app_or in H as [H | [H | H]].
      * destruct (export_entry_only _ _ _ Fp H).
      * discriminate H.
      * apply in_app_or in H as [H | H].
        -- pose proof (wait_entry_only _ _ _ _ Fw H) as ->.
           rewrite (Hbad tp st H Hst) in Etail. discriminate Etail.
        -- rewrite Etail in H. destruct H as [H | []]. discriminate H.
    + intros Hno t b Hd.
      destruct (Hdel t b Hd) as (_ & u & tp & _ & Hin & _).
      apply (Hno tp dst). rewrite T.
      apply in_or_app; right; right. apply in_or_app; left. exact Hin.
Qed.

(** The copy fails on the second poll: the source stays. *)
Example archive_copy_failed_keeps_source :
  let r := Splitter.run
             (Examples.storage_with ["Solution"]
                (fun k => if (k <? 1)%nat then "pending" else "failed"))
             "ingestion/2025-02-10-DSK4-CYCLE_1-DSP-DayOfOpsPlan.xlsx" in
  result r = Ret tt /\ polls (snd r) = 2%nat /\
  existsb Splitter.is_delete (events r) = false.
Proof. vm_compute. repeat split. Qed.

(** The copy stays pending: the wait gives up after 60 seconds, which is 48
    polls of a quarter of a second each with a sleep of one second between
    them, and the source stays. *)
Example archive_copy_timeout_keeps_source :
  let r := Splitter.run
             (Examples.storage_with ["Solution"] (fun _ => "pending"))
             "ingestion/2025-02-10-DSK4-CYCLE_1-DSP-DayOfOpsPlan.xlsx" in
  result r = Ret tt /\ polls (snd r) = 48%nat /\ now (snd r) = 60000%Z /\
  existsb Splitter.is_delete (events r) = false.
Proof. vm_compute. repeat split. Qed.

(** ** The load-completion gate *)

Lemma upper_lower_char (c : ascii) : Py.upper_char (Py.lower_char c) = Py.upper_char c.
Proof. destruct c as [[] [] [] [] [] [] [] []]; reflexivity. Qed.

Lemma upper_lower (s : string) : Py.upper (Py.lower s) = Py.upper s.
Proof.
  unfold Py.upper, Py.lower. induction s as [|c s IH]; cbn [Py.map].
  - reflexivity.
  - now rewrite IH, upper_lower_char.
Qed.

Lemma upper_in_any_case (s t : string) :
  Gate.in_any_case s t -> Py.upper s = Py.upper t.
Proof. unfold Gate.in_any_case. intros <-. symmetry. apply upper_lower. Qed.

Section GateRun.
Import Gate.
Variable w : World.
Variable args : Args.


Lemma another_round_verdict (k : nat) :
  another_round w k ->
  query_reply w k = Returns (replied w k) /\ verdict (replied w k) = None.
Proof.
  intros (row & E & H). unfold replied. rewrite E. split; [reflexivity|].
  destruct H as [-> | (r & -> & H1 & H2 & H3)]; [reflexivity|].
  cbn [verdict]. apply String.eqb_neq in H1, H2, H3. now rewrite H1, H2, H3.
Qed.

Lemma guard_time_lower (k : nat) :
  (start_time w + 10000 * Z.of_nat k <= guard_time w k)%Z.
Proof. induction k as [|k IH]; cbn [guard_time]; lia. Qed.


Lemma poll_loop_round (k fuel : nat) :
  in_time w args k -> another_round w k ->
  poll_loop w (S fuel) (Py.after_last "/" (file args)) (start_time w) (timeout args) (at_round w (Py.after_last "/" (file args)) k)
  = poll_loop w fuel (Py.after_last "/" (file args)) (start_time w) (timeout args) (at_round w (Py.after_last "/" (file args)) (S k)).
Proof.
  intros Ht Hr. apply another_round_verdict in Hr as [E V].
  cbn [poll_loop]. unfold bind at 1, time_time at 1. cbn [now at_round].
  apply Z.ltb_lt in Ht. rewrite Ht.
  unfold bind at 1, fetchone, poll. cbn [now polls trace at_round].
  rewrite E, V. unfold bind at 1, time_sleep. unfold bind at 1, emit, elapse.
  cbn [now polls trace]. f_equal. unfold at_round. cbn [guard_time rounds_trace].
  rewrite <- app_assoc. reflexivity.
Qed.

Lemma poll_loop_rounds (k : nat) : forall fuel,
  (forall j, (j < k)%nat -> in_time w args j /\ another_round w j) ->
  poll_loop w (k + fuel) (Py.after_last "/" (file args)) (start_time w) (timeout args) (at_round w (Py.after_last "/" (file args)) 0)
  = poll_loop w fuel (Py.after_last "/" (file args)) (start_time w) (timeout args) (at_round w (Py.after_last "/" (file args)) k).
Proof.
  induction k as [|k IH]; intros fuel H; [reflexivity|].
  replace (S k + fuel)%nat with (k + S fuel)%nat by lia.
  rewrite IH by (intros j Hj; apply H; lia).
  apply poll_loop_round; apply H; lia.
Qed.

Lemma main_unfold :
  connect_ok w = true ->
  run w args
  = finally (poll_loop w (S (Z.to_nat (timeout args))) (Py.after_last "/" (file args))
               (start_time w) (timeout args))
      (emit EvClose) (at_round w (Py.after_last "/" (file args)) 0).
Proof. intros C. unfold run, main, bind, emit. cbn. rewrite C. reflexivity. Qed.

(** The first poll that returns a verdict, in time, decides the run. *)
Lemma gate_decided (k : nat) (row : option Row) (exit_code : Z) :
  connect_ok w = true ->
  (forall j, (j < k)%nat -> in_time w args j /\ another_round w j) ->
  in_time w args k ->
  query_reply w k = Returns row ->
  verdict row = Some exit_code ->
  run w args
  = (Ret exit_code,
     {| now := guard_time w k + Z.of_N (query_delay w k);
        polls := S k;
        trace := rounds_trace w (Py.after_last "/" (file args)) k
                 ++ [(guard_time w k, EvQuery (Py.after_last "/" (file args)) row);
                     ((guard_time w k + Z.of_N (query_delay w k))%Z, EvClose)] |}).
Proof.
  intros C Hpre Ht E V. rewrite (main_unfold C). unfold finally.
  assert (Hk : (Z.of_nat k < timeout args)%Z).
  { pose proof (guard_time_lower k). unfold in_time in Ht. lia. }
  replace (S (Z.to_nat (timeout args))) with (k + S (Z.to_nat (timeout args) - k))%nat by lia.
  rewrite (poll_loop_rounds k _ Hpre).
  cbn [poll_loop]. unfold bind at 1, time_time at 1. cbn [now at_round].
  apply Z.ltb_lt in Ht. rewrite Ht.
  unfold bind at 1, fetchone, poll. cbn [now polls trace at_round].
  rewrite E, V. unfold ret, emit. cbn [now polls trace].
  rewrite <- app_assoc. reflexivity.
Qed.

(** When the time is out before any verdict, the run ends with code 3. *)
Lemma gate_timed_out (k : nat) :
  connect_ok w = true ->
  (forall j, (j < k)%nat -> in_time w args j /\ another_round w j) ->
  ~ in_time w args k ->
  run w args
  = (Ret 3%Z,
     {| now := guard_time w k;
        polls := k;
        trace := rounds_trace w (Py.after_last "/" (file args)) k ++ [(guard_time w k, EvClose)] |}).
Proof.
  intros C Hpre Ht. rewrite (main_unfold C). unfold finally.
  assert (Hk : (k <= Z.to_nat (timeout args))%nat).
  { destruct k as [|k]; [lia|].
    destruct (Hpre k ltac:(lia)) as [Hin _].
    pose proof (guard_time_lower k). unfold in_time in Hin. lia. }
  replace (S (Z.to_nat (timeout args))) with (k + S (Z.to_nat (timeout args) - k))%nat by lia.
  rewrite (poll_loop_rounds k _ Hpre).
  cbn [poll_loop]. unfold bind at 1, time_time at 1. cbn [now at_round].
  unfold in_time in Ht. apply Z.ltb_nlt in Ht. rewrite Ht.
  reflexivity.
Qed.

End GateRun.

Section GateTrace.
Import Gate.
Variable w : World.
Variable args : Args.

Lemma poll_loop_extends (file_tail : string) (start timeout_s : Z) :
  forall fuel s r s',
    poll_loop w fuel file_tail start timeout_s s = (r, s') ->
    exists added, trace s' = (trace s ++ added)%list.
Proof.
  induction fuel as [|fuel IH]; intros s r s' H.
  - same_pair H. exists []. now rewrite app_nil_r.
  - cbn [poll_loop] in H. unfold bind at 1, time_time at 1 in H.
    destruct (now s - start <? 1000 * timeout_s)%Z.
    2:{ same_pair H. exists []. now rewrite app_nil_r. }
    unfold bind at 1, fetchone, poll in H.
    destruct (query_reply w (polls s)) as [row|e].
    2:{ same_pair H. exists []. cbn. now rewrite app_nil_r. }
    destruct (verdict row).
    + same_pair H. eexists. reflexivity.
    + unfold bind at 1, time_sleep in H. unfold bind at 1, emit, elapse in H.
      apply IH in H as (added & T). cbn [now polls trace] in T.
      eexists. rewrite T, <- !app_assoc. reflexivity.
Qed.

(** After [k] rounds that each asked for another one, a poll issued in
    time and answered shows in the trace at the [k]-th reading of the clock. *)
Lemma gate_polls_at (k : nat) (row : option Row) :
  connect_ok w = true ->
  (forall j, (j < k)%nat -> in_time w args j /\ another_round w j) ->
  in_time w args k ->
  query_reply w k = Returns row ->
  exists added,
    trace (snd (run w args))
    = (rounds_trace w (Py.after_last "/" (file args)) k
       ++ (guard_time w k, EvQuery (Py.after_last "/" (file args)) row) :: added)%list.
Proof.
  intros C Hpre Ht E. rewrite (main_unfold w args C). unfold finally.
  assert (Hk : (Z.of_nat k < timeout args)%Z).
  { pose proof (guard_time_lower w k). unfold in_time in Ht. lia. }
  replace (S (Z.to_nat (timeout args))) with (k + S (Z.to_nat (timeout args) - k))%nat by lia.
  rewrite (poll_loop_rounds w args k _ Hpre).
  cbn [poll_loop]. unfold bind at 1, time_time at 1. cbn [now at_round].
  apply Z.ltb_lt in Ht. rewrite Ht.
  unfold bind at 1, fetchone, poll. cbn [now polls trace at_round]. rewrite E.
  destruct (verdict row).
  - cbn. eexists. rewrite <- app_assoc. reflexivity.
  - unfold bind at 1, time_sleep. unfold bind at 1, emit, elapse. cbn [now polls trace].
    match goal with
    | |- context [poll_loop ?a ?b ?c ?d ?e ?st] =>
        destruct (poll_loop a b c d e st) as [r s'] eqn:L
    end.
    apply poll_loop_extends in L as (added & T). cbn [trace] in T.
    destruct r; cbn; rewrite T, <- !app_assoc; cbn [app]; eexists; reflexivity.
Qed.

End GateTrace.

Lemma status_of_exact (r : Gate.Row) (s : string) :
  Gate.status r = Some s -> Gate.status_of r = Py.upper s.
Proof. unfold Gate.status_of. now intros ->. Qed.

(** C5: in a polling run whose first [k] polls each asked for another round
    within the timeout, the [k]-th poll, issued ten seconds after the one
    before it returned, decides as follows.  Issued in time, a row with status
    LOADED ends the run with exit code 0; a row with status LOAD_FAILED or
    PARTIALLY_LOADED ends it with exit code 2 and [k + 1] polls made in all;
    any other status, or no row, is followed by a sleep of ten seconds and the
    next test of the clock, and by the next poll when that test is in time.
    When the [k]-th test finds the timeout reached, the exit code is 3. *)
Theorem C5_gate_exit_codes (w : Gate.World) (args : Gate.Args) (k : nat) :
  Gate.connect_ok w = true ->
  (forall j, (j < k)%nat -> Gate.in_time w args j /\ Gate.another_round w j) ->
  let file_tail := Py.after_last "/" (Gate.file args) in
  (Gate.in_time w args k ->
   forall r, Gate.query_reply w k = Returns (Some r) ->
     (Gate.status r = Some "LOADED" ->
      Gate.run w args
      = (Ret 0%Z,
         {| now := Gate.guard_time w k + Z.of_N (Gate.query_delay w k);
            polls := S k;
            trace := Gate.rounds_trace w file_tail k
                     ++ [(Gate.guard_time w k, Gate.EvQuery file_tail (Some r));
                         ((Gate.guard_time w k + Z.of_N (Gate.query_delay w k))%Z,
                          Gate.EvClose)] |})) /\
     (Gate.status r = Some "LOAD_FAILED" \/ Gate.status r = Some "PARTIALLY_LOADED" ->
      Gate.run w args
      = (Ret 2%Z,
         {| now := Gate.guard_time w k + Z.of_N (Gate.query_delay w k);
            polls := S k;
            trace := Gate.rounds_trace w file_tail k
                     ++ [(Gate.guard_time w k, Gate.EvQuery file_tail (Some r));
                         ((Gate.guard_time w k + Z.of_N (Gate.query_delay w k))%Z,
                          Gate.EvClose)] |}))) /\
  (Gate.in_time w args k -> Gate.another_round w k ->
   Gate.in_time w args (S k) ->
   forall row, Gate.query_reply w (S k) = Returns row ->
     exists added,
       trace (snd (Gate.run w args))
       = (Gate.rounds_trace w file_tail k
          ++ [(Gate.guard_time w k, Gate.EvQuery file_tail (Gate.replied w k));
              ((Gate.guard_time w k + Z.of_N (Gate.query_delay w k))%Z, Gate.EvSleep 10);
              ((Gate.guard_time w k + Z.of_N (Gate.query_delay w k) + 10000)%Z,
               Gate.EvQuery file_tail row)]
          ++ added)%list) /\
  (~ Gate.in_time w args k ->
   Gate.run w args
   = (Ret 3%Z,
      {| now := Gate.guard_time w k;
         polls := k;
         trace := Gate.rounds_trace w file_tail k
                  ++ [(Gate.guard_time w k, Gate.EvClose)] |})).
Proof.
  intros C Hpre file_tail. split; [|split].
  - intros Ht r E. split.
    + intros Hs. apply (gate_decided w args k (Some r) 0 C Hpre Ht E).
      cbn [Gate.verdict]. now rewrite (status_of_exact r _ Hs).
    + intros [Hs | Hs]; apply (gate_decided w args k (Some r) 2 C Hpre Ht E);
        cbn [Gate.verdict]; now rewrite (status_of_exact r _ Hs).
  - intros Ht Hr Ht' row E.
    destruct (gate_polls_at w args (S k) row C) as (added & T); [|exact Ht'|exact E|].
    + intros j Hj. destruct (Nat.eq_dec j k) as [-> | Hne]; [split; assumption|].
      apply Hpre. lia.
    + exists added. rewrite T. cbn [Gate.rounds_trace Gate.guard_time].
      rewrite <- !app_assoc. reflexivity.
  - intros Ht. exact (gate_timed_out w args k C Hpre Ht).
Qed.

Lemma warehouse_loading (third : string) (timeout : Z) (j : nat) :
  (30 < timeout)%Z -> (j < 2)%nat ->
  Gate.in_time (Examples.warehouse third) (Examples.gate_args timeout) j /\
  Gate.another_round (Examples.warehouse third) j.
Proof.
  intros Hto Hj. destruct j as [|[|j]]; [| |lia].
  - split; [unfold Gate.in_time, Examples.gate_args, Examples.warehouse;
            cbn [Gate.guard_time Gate.start_time Gate.query_delay Gate.timeout]; lia|].
    eexists. split; [reflexivity|]. right. eexists. split; [reflexivity|].
    repeat split; discriminate.
  - split; [unfold Gate.in_time, Examples.gate_args, Examples.warehouse;
            cbn [Gate.guard_time Gate.start_time Gate.query_delay Gate.timeout]; lia|].
    eexists. split; [reflexivity|]. right. eexists. split; [reflexivity|].
    repeat split; discriminate.
Defined.

(** Scenario 3 of the specification: LOADING, LOADING, then LOADED. *)
Lemma C5_gate_exit_codes_witness :
  result (Gate.run (Examples.warehouse "LOADED") (Examples.gate_args 1800)) = Ret 0%Z /\
  polls (snd (Gate.run (Examples.warehouse "LOADED") (Examples.gate_args 1800))) = 3%nat.
Proof.
  assert (Hin : Gate.in_time (Examples.warehouse "LOADED") (Examples.gate_args 1800) 2)
    by (unfold Gate.in_time; cbn; lia).
  pose proof (proj1 (proj1 (C5_gate_exit_codes
                              (Examples.warehouse "LOADED") (Examples.gate_args 1800) 2
                              eq_refl
                              (fun j Hj => warehouse_loading "LOADED" 1800 j ltac:(lia) Hj))
                           Hin (Examples.loaded_row "LOADED") eq_refl) eq_refl) as H.
  rewrite H. split; reflexivity.
Defined.

(** C10: the status of the deciding row is compared in upper case, and a
    null status counts as the empty string: loaded in any letter case gives
    exit code 0, load_failed or partially_loaded in any letter case gives
    exit code 2, and a row with a null status asks for another round. *)
Theorem C10_gate_status_any_case (w : Gate.World) (args : Gate.Args) (k : nat)
        (r : Gate.Row) :
  Gate.connect_ok w = true ->
  (forall j, (j < k)%nat -> Gate.in_time w args j /\ Gate.another_round w j) ->
  Gate.in_time w args k ->
  Gate.query_reply w k = Returns (Some r) ->
  (forall s, Gate.status r = Some s -> Gate.in_any_case s "loaded" ->
             result (Gate.run w args) = Ret 0%Z) /\
  (forall s, Gate.status r = Some s ->
             Gate.in_any_case s "load_failed" \/ Gate.in_any_case s "partially_loaded" ->
             result (Gate.run w args) = Ret 2%Z) /\
  (Gate.status r = None ->
   Gate.status_of r = EmptyString /\ Gate.another_round w k).
Proof.
  intros C Hpre Ht E. split; [|split].
  - intros s Hs Hc.
    rewrite (gate_decided w args k (Some r) 0 C Hpre Ht E); [reflexivity|].
    cbn [Gate.verdict].
    now rewrite (status_of_exact r s Hs), (upper_in_any_case _ _ Hc).
  - intros s Hs [Hc | Hc];
      (rewrite (gate_decided w args k (Some r) 2 C Hpre Ht E); [reflexivity|]);
      cbn [Gate.verdict];
      now rewrite (status_of_exact r s Hs), (upper_in_any_case _ _ Hc).
  - intros Hs.
    assert (Hn : Gate.status_of r = EmptyString) by (unfold Gate.status_of; now rewrite Hs).
    split; [exact Hn|].
    exists (Some r). split; [exact E|]. right. exists r. split; [reflexivity|].
    rewrite Hn. repeat split; discriminate.
Qed.

Lemma C10_gate_status_any_case_witness :
  Gate.in_any_case "Loaded" "loaded" /\
  result (Gate.run (Examples.warehouse "Loaded") (Examples.gate_args 1800)) = Ret 0%Z.
Proof.
  split; [reflexivity|].
  assert (Hin : Gate.in_time (Examples.warehouse "Loaded") (Examples.gate_args 1800) 2)
    by (unfold Gate.in_time; cbn; lia).
  exact (proj1 (C10_gate_status_any_case
                  (Examples.warehouse "Loaded") (Examples.gate_args 1800) 2
                  (Examples.loaded_row "Loaded") eq_refl
                  (fun j Hj => warehouse_loading "Loaded" 1800 j ltac:(lia) Hj)
                  Hin eq_refl)
               "Loaded" eq_refl eq_refl).
Defined.

(** A failed load ends the run at once with exit code 2. *)
Example gate_load_failed :
  let r := Gate.run (Examples.warehouse "LOAD_FAILED") (Examples.gate_args 1800) in
  result r = Ret 2%Z /\ polls (snd r) = 3%nat.
Proof. vm_compute. repeat split. Qed.

(** With a timeout of 15 seconds the third test of the clock, after two
    polls, ends the run with exit code 3. *)
Example gate_timeout :
  let r := Gate.run (Examples.warehouse "LOADED") (Examples.gate_args 15) in
  result r = Ret 3%Z /\ polls (snd r) = 2%nat.
Proof. vm_compute. repeat split. Qed.

(** ** The path filters of the dispatcher *)

(** C6, as the code has it: when a configured prefix or suffix filter
    rejects the subject, no HTTP call is made; and when moreover owner,
    repository and token are configured and the event data can be read, the
    invocation returns normally. *)
Theorem C6_filtered_subject_is_noop (w : Dispatcher.World)
        (azeventgrid : Dispatcher.EventGridEvent) :
  let config := Dispatcher.get_config (Dispatcher.environ w) in
  (Dispatcher.PATH_BEGINS config <> EmptyString /\
   Py.startswith (Dispatcher.subject azeventgrid) (Dispatcher.PATH_BEGINS config) = false) \/
  (Dispatcher.PATH_ENDS config <> EmptyString /\
   Py.endswith (Dispatcher.subject azeventgrid) (Dispatcher.PATH_ENDS config) = false) ->
  snd (Dispatcher.OnBlobCreatedDispatchToGitHub w azeventgrid) = [] /\
  (Dispatcher.GITHUB_OWNER config <> EmptyString ->
   Dispatcher.GITHUB_REPO config <> EmptyString ->
   Dispatcher.GITHUB_PAT config <> EmptyString ->
   (exists data, Dispatcher.get_json azeventgrid = Returns data) ->
   fst (Dispatcher.OnBlobCreatedDispatchToGitHub w azeventgrid) = Ret tt).
Proof.
  intros config Hfilter.
  assert (Hskip :
    (Dispatcher.truthy (Dispatcher.PATH_BEGINS config)
     && negb (Py.startswith (Dispatcher.subject azeventgrid) (Dispatcher.PATH_BEGINS config)) = true)
    \/ (Dispatcher.truthy (Dispatcher.PATH_ENDS config)
        && negb (Py.endswith (Dispatcher.subject azeventgrid) (Dispatcher.PATH_ENDS config)) = true)).
  { unfold Dispatcher.truthy.
    destruct Hfilter as [[Hne Hf] | [Hne Hf]]; [left | right];
      apply String.eqb_neq in Hne; now rewrite Hne, Hf. }
  unfold Dispatcher.OnBlobCreatedDispatchToGitHub. fold config.
  split.
  - destruct (negb _ || negb _); [reflexivity|].
    destruct (negb (Dispatcher.truthy (Dispatcher.GITHUB_PAT config))); [reflexivity|].
    destruct (Dispatcher.get_json azeventgrid); [|reflexivity].
    destruct Hskip as [-> | Hskip]; [reflexivity|].
    destruct (Dispatcher.truthy (Dispatcher.PATH_BEGINS config) && _); [reflexivity|].
    rewrite Hskip. reflexivity.
  - intros Ho Hr Hp [data Hd]. unfold Dispatcher.truthy at 1 2 3.
    apply String.eqb_neq in Ho, Hr, Hp. rewrite Ho, Hr, Hp, Hd. cbn [negb orb].
    destruct Hskip as [-> | Hskip]; [reflexivity|].
    destruct (Dispatcher.truthy (Dispatcher.PATH_BEGINS config) && _); [reflexivity|].
    rewrite Hskip. reflexivity.
Qed.

(** Scenario 4 of the specification: the suffix filter rejects the subject. *)
Lemma C6_filtered_subject_is_noop_witness :
  Dispatcher.OnBlobCreatedDispatchToGitHub
    (Examples.dispatcher_world (Some "ghp_token")) Examples.notes_created = (Ret tt, []).
Proof.
  assert (Hfilter :
    let config := Dispatcher.get_config
                    (Dispatcher.environ (Examples.dispatcher_world (Some "ghp_token"))) in
    (Dispatcher.PATH_BEGINS config <> EmptyString /\
     Py.startswith (Dispatcher.subject Examples.notes_created)
                   (Dispatcher.PATH_BEGINS config) = false) \/
    (Dispatcher.PATH_ENDS config <> EmptyString /\
     Py.endswith (Dispatcher.subject Examples.notes_created)
                 (Dispatcher.PATH_ENDS config) = false)).
  { right. split; vm_compute; [discriminate | reflexivity]. }
  destruct (C6_filtered_subject_is_noop
              (Examples.dispatcher_world (Some "ghp_token")) Examples.notes_created
              Hfilter) as [Hposts Hret].
  assert (Hr : fst (Dispatcher.OnBlobCreatedDispatchToGitHub
                      (Examples.dispatcher_world (Some "ghp_token"))
                      Examples.notes_created) = Ret tt).
  { apply Hret; try (vm_compute; discriminate). eexists. reflexivity. }
  rewrite (surjective_pairing (Dispatcher.OnBlobCreatedDispatchToGitHub _ _)).
  rewrite Hr, Hposts. reflexivity.
Defined.

(** C6 as stated fails: with the token missing, the invocation raises
    although the suffix filter rejects the subject. *)
Lemma C6_counterexample :
  let w := Examples.dispatcher_world None in
  let config := Dispatcher.get_config (Dispatcher.environ w) in
  Dispatcher.PATH_ENDS config <> EmptyString /\
  Py.endswith (Dispatcher.subject Examples.notes_created) (Dispatcher.PATH_ENDS config) = false /\
  Dispatcher.OnBlobCreatedDispatchToGitHub w Examples.notes_created
  = (Exn "GitHub PAT not configured", []).
Proof. split; [discriminate|]. split; reflexivity. Qed.

(** ** The filters of the splitter *)

(** Paths under the archive prefix and under the dispatch-summary output
    prefix are skipped: nothing is read, written or archived. *)
Lemma internal_prefix_skipped (w : Splitter.World) (full_path : string) :
  Py.startswith (Splitter.blob_name_of full_path) "_archive/" = true \/
  Py.startswith (Splitter.blob_name_of full_path) "dsp_summary/" = true ->
  Splitter.run w full_path = (Ret tt, initial (Splitter.start_time w)).
Proof.
  intros H. unfold Splitter.run, Splitter.split_excel.
  destruct H as [-> | ->]; [|rewrite orb_true_r]; reflexivity.
Qed.

(** C7 fails on the code for the driver-routes output prefix: a workbook
    under driver_routes/ is not skipped, it is read, exported and archived,
    and the source is deleted. *)
Theorem C7_driver_routes_prefix_not_skipped :
  let path := "ingestion/driver_routes/2025/09/Routes_DSK4_2025-09-13_15_16 (EDT).xlsx" in
  Py.startswith (Splitter.blob_name_of path)
                (Splitter.OUT_PREFIX "driver_routes" "2025" "09") = true /\
  result (Splitter.run (Examples.storage ["Routes"]) path) = Ret tt /\
  events (Splitter.run (Examples.storage ["Routes"]) path)
  = [ Splitter.EvReadWorkbook;
      Splitter.EvReadExcel "Routes";
      Splitter.EvUpload
        "driver_routes/2025/09/Routes_DSK4_2025-09-13_15_16 (EDT)__Routes.csv" "Routes";
      Splitter.EvStartCopy
        "driver_routes/2025/09/Routes_DSK4_2025-09-13_15_16 (EDT).xlsx"
        "_archive/driver_routes/2025/09/Routes_DSK4_2025-09-13_15_16 (EDT).xlsx";
      Splitter.EvPoll
        "_archive/driver_routes/2025/09/Routes_DSK4_2025-09-13_15_16 (EDT).xlsx"
        (Some "pending");
      Splitter.EvSleep 1;
      Splitter.EvPoll
        "_archive/driver_routes/2025/09/Routes_DSK4_2025-09-13_15_16 (EDT).xlsx"
        (Some "pending");
      Splitter.EvSleep 1;
      Splitter.EvPoll
        "_archive/driver_routes/2025/09/Routes_DSK4_2025-09-13_15_16 (EDT).xlsx"
        (Some "success");
      Splitter.EvDelete
        "driver_routes/2025/09/Routes_DSK4_2025-09-13_15_16 (EDT).xlsx" ].
Proof. repeat split; vm_compute; reflexivity. Qed.

(** ** End to end *)

Section EndToEnd.
Import Splitter.
Variable w : World.

Lemma call_ok (e : Event) (s : St) :
  raises w e = false ->
  call w e s
  = (Ret tt, {| now := now s; polls := polls s;
                trace := (trace s ++ [(now s, e)])%list |}).
Proof. intros H. unfold call, bind, emit. now rewrite H. Qed.

(** The wait returns, and adds polls of [dst] and sleeps of a second. *)
Lemma wait_for_copy_inv (dst copy_id : string) (s s' : St) (r : Res bool) :
  _wait_for_copy_success w dst copy_id 60 s = (r, s') ->
  r <> OutOfFuel /\
  exists added, trace s' = (trace s ++ added)%list /\ Forall (wait_entry dst) added.
Proof.
  unfold _wait_for_copy_success, bind at 1, time_time at 1. intros H. split.
  - pose proof (wait_loop_fuel w dst (now s + 1000 * 60)%Z 60 s ltac:(lia)) as F.
    change (S (Z.to_nat 60)) with 61%nat in H. now rewrite H in F.
  - apply wait_loop_inv in H as (added & T & F & _). eauto.
Qed.

(** The events after the start of the copy. *)
Lemma archive_tail (src dst : string) (s : St) :
  exists rest,
    events ((ok <- _wait_for_copy_success w dst EmptyString 60 ;;
             if ok then call w (EvDelete src) else ret tt) s)
    = (List.map snd (trace s) ++ rest)%list /\
    Forall (archive_event src dst) rest.
Proof.
  unfold bind at 1.
  destruct (_wait_for_copy_success w dst EmptyString 60 s) as [r s'] eqn:W.
  apply wait_for_copy_inv in W as (_ & added & T & F).
  assert (Fa : Forall (archive_event src dst) (List.map snd added)).
  { apply Forall_map. eapply Forall_impl; [|exact F].
    intros [t e] [[st E] | E]; cbn in E; subst e; reflexivity. }
  destruct r as [[|]|e|].
  - destruct (call w (EvDelete src) s') as [r2 s2] eqn:Cd.
    apply call_inv in Cd as (T2 & _ & _).
    exists (List.map snd added ++ [EvDelete src])%list. unfold events. cbn [snd].
    rewrite T2, T, !map_app, <- app_assoc. split; [reflexivity|].
    apply Forall_app. split; [exact Fa | repeat constructor].
  - exists (List.map snd added). unfold events, ret. cbn [snd].
    rewrite T, map_app. split; [reflexivity | exact Fa].
  - exists (List.map snd added). unfold events. cbn [snd].
    rewrite T, map_app. split; [reflexivity | exact Fa].
  - exists (List.map snd added). unfold events. cbn [snd].
    rewrite T, map_app. split; [reflexivity | exact Fa].
Qed.

End EndToEnd.

(** C8: with the storage account configured, the workbook read with the
    sheets Solution and Notes, and no storage call failing, the file
    2025-02-10-DSK4-CYCLE_1-DSP-DayOfOpsPlan.xlsx is classified dsp_summary
    with partition (2025, 02); the trace is the read of the workbook, the two
    uploads under dsp_summary/2025/02/, and the start of the copy to
    _archive/dsp_summary/2025/02/, followed only by polls of that copy, sleeps
    and the delete of the source. *)
Theorem C8_end_to_end_day_of_ops_plan (w : Splitter.World) :
  Splitter.storage_configured w = true ->
  Splitter.sheet_names w = Returns ["Solution"; "Notes"] ->
  (forall e, Splitter.raises w e = false) ->
  let filename := "2025-02-10-DSK4-CYCLE_1-DSP-DayOfOpsPlan.xlsx" in
  Splitter._determine_file_type filename = ("dsp_summary", None) /\
  Splitter._extract_year_month (Splitter.utcnow w) (Py.drop_last 5 filename) = ("2025", "02") /\
  exists rest,
    events (Splitter.run w ("ingestion/" ++ filename))
    = ([ Splitter.EvReadWorkbook;
         Splitter.EvReadExcel "Solution";
         Splitter.EvUpload
           "dsp_summary/2025/02/2025-02-10-DSK4-CYCLE_1-DSP-DayOfOpsPlan__Solution.csv"
           "Solution";
         Splitter.EvReadExcel "Notes";
         Splitter.EvUpload
           "dsp_summary/2025/02/2025-02-10-DSK4-CYCLE_1-DSP-DayOfOpsPlan__Notes.csv"
           "Notes";
         Splitter.EvStartCopy
           "2025-02-10-DSK4-CYCLE_1-DSP-DayOfOpsPlan.xlsx"
           "_archive/dsp_summary/2025/02/2025-02-10-DSK4-CYCLE_1-DSP-DayOfOpsPlan.xlsx" ]
       ++ rest)%list /\
    Forall (Splitter.archive_event
              "2025-02-10-DSK4-CYCLE_1-DSP-DayOfOpsPlan.xlsx"
              "_archive/dsp_summary/2025/02/2025-02-10-DSK4-CYCLE_1-DSP-DayOfOpsPlan.xlsx")
           rest.
Proof.
  intros Hc Hs Hr filename.
  split; [reflexivity|]. split; [reflexivity|].
  unfold Splitter.run.
  change (Splitter.split_excel w ("ingestion/" ++ filename))
    with (Splitter.process w filename filename).
  unfold Splitter.process.
  change (Splitter._extract_year_month (Splitter.utcnow w) (Py.drop_last 5 filename))
    with ("2025", "02").
  change (Splitter._determine_file_type filename) with ("dsp_summary", @None string).
  cbn [Splitter.truthy]. unfold Splitter.ACCEPTED_SHEETS, Splitter._get_blob_service_client.
  rewrite Hc, Hs.
  unfold bind at 1, ret at 1. unfold bind at 1, emit at 1.
  cbn [Splitter.export_sheets].
  unfold bind at 1. unfold bind at 1. rewrite (call_ok w _ _ (Hr _)).
  unfold bind at 1. rewrite (call_ok w _ _ (Hr _)).
  unfold bind at 1. rewrite (call_ok w _ _ (Hr _)).
  unfold bind at 1. rewrite (call_ok w _ _ (Hr _)).
  unfold ret at 1.
  unfold bind at 1. rewrite (call_ok w _ _ (Hr _)).
  match goal with
  | |- context [bind (Splitter._wait_for_copy_success w ?dst _ _) _ ?s] =>
      destruct (archive_tail w filename dst s) as (rest & E & F)
  end.
  exists rest. split; [rewrite E; reflexivity | exact F].
Qed.

Lemma C8_end_to_end_day_of_ops_plan_witness :
  exists rest,
    events (Splitter.run (Examples.storage ["Solution"; "Notes"])
              "ingestion/2025-02-10-DSK4-CYCLE_1-DSP-DayOfOpsPlan.xlsx")
    = ([ Splitter.EvReadWorkbook;
         Splitter.EvReadExcel "Solution";
         Splitter.EvUpload
           "dsp_summary/2025/02/2025-02-10-DSK4-CYCLE_1-DSP-DayOfOpsPlan__Solution.csv"
           "Solution";
         Splitter.EvReadExcel "Notes";
         Splitter.EvUpload
           "dsp_summary/2025/02/2025-02-10-DSK4-CYCLE_1-DSP-DayOfOpsPlan__Notes.csv"
           "Notes";
         Splitter.EvStartCopy
           "2025-02-10-DSK4-CYCLE_1-DSP-DayOfOpsPlan.xlsx"
           "_archive/dsp_summary/2025/02/2025-02-10-DSK4-CYCLE_1-DSP-DayOfOpsPlan.xlsx" ]
       ++ rest)%list.
Proof.
  destruct (C8_end_to_end_day_of_ops_plan
              (Examples.storage ["Solution"; "Notes"]) eq_refl eq_refl (fun _ => eq_refl))
    as (_ & _ & rest & E & _).
  exists rest. exact E.
Defined.

(** ** Normalization of the base name *)

Section Strings.
Variable p : ascii -> bool.

Lemma str_app_assoc (a b c : string) : (a ++ b) ++ c = a ++ (b ++ c).
Proof. induction a as [|x a IH]; cbn; [reflexivity | now rewrite IH]. Qed.

Lemma all_chars_app (a b : string) :
  Py.all_chars p (a ++ b) = Py.all_chars p a && Py.all_chars p b.
Proof. induction a as [|x a IH]; cbn; [reflexivity | now rewrite IH, andb_assoc]. Qed.

Lemma all_chars_repeat (c : ascii) (n : nat) :
  p c = true -> Py.all_chars p (Py.repeat_char c n) = true.
Proof. intros H. induction n as [|n IH]; cbn; [reflexivity | now rewrite H, IH]. Qed.

Lemma all_chars_last (s : string) (c : ascii) :
  Py.all_chars p s = true -> Py.last_char s = Some c -> p c = true.
Proof.
  induction s as [|x s IH]; cbn; [discriminate|].
  intros H L. apply andb_true_iff in H as [Hx Hs].
  destruct (Py.last_char s) as [d|]; inversion L; subst; auto.
Qed.

Lemma last_char_none (s : string) : Py.last_char s = None -> s = EmptyString.
Proof. destruct s as [|x s]; cbn; [reflexivity|]. destruct (Py.last_char s); discriminate. Qed.

Lemma last_char_app (a b : string) :
  Py.last_char (a ++ b)
  = match Py.last_char b with
    | Some d => Some d
    | None => Py.last_char a
    end.
Proof.
  induction a as [|x a IH]; cbn.
  - destruct (Py.last_char b); reflexivity.
  - rewrite IH. destruct (Py.last_char b); [reflexivity|]. reflexivity.
Qed.

Lemma last_char_map (f : ascii -> ascii) (s : string) :
  Py.last_char (Py.map f s) = option_map f (Py.last_char s).
Proof.
  induction s as [|x s IH]; cbn; [reflexivity|].
  rewrite IH. destruct (Py.last_char s); reflexivity.
Qed.

Lemma endswith_last_char (t : string) (c : ascii) : forall s,
  Py.endswith s t = true -> Py.last_char t = Some c -> Py.last_char s = Some c.
Proof.
  induction s as [|x s IH]; cbn [Py.endswith]; intros H L.
  - rewrite orb_false_r in H. apply String.eqb_eq in H. now subst t.
  - apply orb_true_iff in H as [H | H].
    + apply String.eqb_eq in H. now subst t.
    + cbn. now rewrite (IH H L).
Qed.

Lemma rstrip_by_all (t : string) :
  Py.all_chars p t = true -> Py.rstrip_by p t = EmptyString.
Proof.
  induction t as [|x t IH]; cbn; [reflexivity|].
  intros H. apply andb_true_iff in H as [Hx Ht]. now rewrite (IH Ht), Hx.
Qed.

Lemma rstrip_by_app_all (s t : string) :
  Py.all_chars p t = true -> Py.rstrip_by p (s ++ t) = Py.rstrip_by p s.
Proof.
  intros H. induction s as [|x s IH]; cbn.
  - now apply rstrip_by_all.
  - now rewrite IH.
Qed.

Lemma rstrip_by_last (s : string) (c : ascii) :
  Py.last_char s = Some c -> p c = false -> Py.rstrip_by p s = s.
Proof.
  intros L Hc. induction s as [|x s IH]; cbn in *; [reflexivity|].
  destruct (Py.last_char s) as [d|] eqn:E.
  - rewrite (IH L). destruct s; [discriminate E | reflexivity].
  - apply last_char_none in E. subst s. inversion L; subst. cbn. now rewrite Hc.
Qed.

(** A tail free of strippable characters stays, behind a text that ends
    in a character that is not strippable either. *)
Lemma rstrip_by_keep (s t : string) (c : ascii) :
  Py.last_char s = Some c -> p c = false ->
  Py.all_chars (fun d => negb (p d)) t = true ->
  Py.rstrip_by p (s ++ t) = s ++ t.
Proof.
  intros L Hc Ht.
  destruct (Py.last_char t) as [d|] eqn:E.
  - apply (rstrip_by_last _ d).
    + now rewrite last_char_app, E.
    + revert E Ht. clear. revert d.
      induction t as [|x t IH]; cbn; [discriminate|].
      intros d E H. apply andb_true_iff in H as [Hx Ht].
      destruct (Py.last_char t) as [d'|].
      * inversion E; subst. now apply IH.
      * inversion E; subst. now apply negb_true_iff.
  - apply last_char_none in E. subst t.
    apply (rstrip_by_last _ c); [|exact Hc].
    now rewrite last_char_app.
Qed.

Lemma lstrip_by_app_all (ws s : string) :
  Py.all_chars p ws = true -> Py.lstrip_by p (ws ++ s) = Py.lstrip_by p s.
Proof.
  induction ws as [|x ws IH]; cbn; [reflexivity|].
  intros H. apply andb_true_iff in H as [Hx Hws]. now rewrite Hx, IH.
Qed.

Lemma all_chars_has_char (s : string) (c : ascii) :
  Py.all_chars p s = true -> p c = false -> Py.has_char c s = false.
Proof.
  intros H Hc. induction s as [|x s IH]; cbn in *; [reflexivity|].
  apply andb_true_iff in H as [Hx Hs]. rewrite (IH Hs), orb_false_r.
  apply Ascii.eqb_neq. intros ->. congruence.
Qed.

End Strings.

Lemma has_char_app (c : ascii) (a b : string) :
  Py.has_char c (a ++ b) = Py.has_char c a || Py.has_char c b.
Proof. induction a as [|x a IH]; cbn; [reflexivity | now rewrite IH, orb_assoc]. Qed.

Lemma prefix_has_char (c : ascii) : forall p s,
  String.prefix p s = true -> Py.has_char c p = true -> Py.has_char c s = true.
Proof.
  induction p as [|x p IH]; intros s H Hc; [discriminate Hc|].
  destruct s as [|y s]; [discriminate H|]. cbn in H, Hc |- *.
  destruct (ascii_dec x y) as [-> | Hne]; [|discriminate H].
  apply orb_true_iff in Hc as [Hc | Hc]; [now rewrite Hc|].
  rewrite (IH s H Hc). apply orb_true_r.
Qed.

Lemma lower_x_plain (c : ascii) :
  (Py.lower_char c =? "x")%char = true ->
  Py.isspace c || ((c =? "'")%char || (c =? Py.dquote)%char) = false.
Proof.
  destruct c as [[] [] [] [] [] [] [] []]; vm_compute; intros H;
    first [reflexivity | discriminate H].
Qed.

Section CleanFilename.
Variables ws1 base ws2 : string.
Variables m n : nat.

Hypothesis ws1_space : Py.all_chars Py.isspace ws1 = true.
Hypothesis ws2_space : Py.all_chars Py.isspace ws2 = true.
Hypothesis base_no_slash : Py.has_char "/" base = false.
Hypothesis base_head : forall c rest, base = String c rest -> Py.isspace c = false.
Hypothesis base_xlsx : Py.endswith (Py.lower base) ".xlsx" = true.


Lemma base_last :
  exists c, Py.last_char base = Some c /\ Py.isspace c = false /\
            (c =? "'")%char = false /\ (c =? Py.dquote)%char = false.
Proof.
  pose proof (endswith_last_char ".xlsx" "x" _ base_xlsx eq_refl) as L.
  unfold Py.lower in L. rewrite last_char_map in L. destruct (Py.last_char base) as [c|]; [|discriminate L].
  cbn in L. exists c. split; [reflexivity|].
  assert (H : (Py.lower_char c =? "x")%char = true)
    by (apply Ascii.eqb_eq; congruence).
  apply lower_x_plain in H. apply orb_false_iff in H as [H1 H2].
  apply orb_false_iff in H2 as [H2 H3]. auto.
Qed.

Lemma name_no_slash : Py.has_char "/" (Splitter.decorated ws1 base ws2 m n) = false.
Proof.
  unfold Splitter.decorated, Splitter.trailing_quotes. rewrite !has_char_app, base_no_slash.
  rewrite (all_chars_has_char Py.isspace ws1 "/" ws1_space eq_refl).
  rewrite (all_chars_has_char Py.isspace ws2 "/" ws2_space eq_refl).
  rewrite (all_chars_has_char (fun d => (d =? Py.dquote)%char) _ "/"
             (all_chars_repeat _ Py.dquote m eq_refl) eq_refl).
  rewrite (all_chars_has_char (fun d => (d =? "'")%char) _ "/"
             (all_chars_repeat _ "'"%char n eq_refl) eq_refl).
  reflexivity.
Qed.

Lemma basename_name :
  Py.basename ("ingestion/" ++ Splitter.decorated ws1 base ws2 m n)
  = Splitter.decorated ws1 base ws2 m n.
Proof.
  unfold Py.basename. cbn [append Py.after_last Py.has_char Ascii.eqb Bool.eqb orb].
  now rewrite name_no_slash.
Qed.

Lemma strip_name : Py.strip (Splitter.decorated ws1 base ws2 m n) = base ++ Splitter.trailing_quotes m n.
Proof.
  destruct base_last as (c & L & Hs & _).
  unfold Py.strip, Splitter.decorated. rewrite (lstrip_by_app_all _ _ _ ws1_space).
  assert (E : Py.lstrip_by Py.isspace (base ++ Splitter.trailing_quotes m n ++ ws2)
              = base ++ Splitter.trailing_quotes m n ++ ws2).
  { destruct base as [|x b] eqn:Eb; [discriminate L|].
    cbn. now rewrite (base_head x b eq_refl). }
  rewrite E, <- str_app_assoc, (rstrip_by_app_all _ _ _ ws2_space).
  apply (rstrip_by_keep _ _ _ c L Hs).
  unfold Splitter.trailing_quotes. rewrite all_chars_app.
  now rewrite !all_chars_repeat.
Qed.

Lemma clean_filename_name :
  Splitter.clean_filename ("ingestion/" ++ Splitter.decorated ws1 base ws2 m n) = base.
Proof.
  destruct base_last as (c & L & _ & Ha & Hd).
  unfold Splitter.clean_filename. rewrite basename_name, strip_name.
  unfold Splitter.trailing_quotes, Py.rstrip.
  rewrite <- str_app_assoc.
  rewrite (rstrip_by_app_all _ _ _ (all_chars_repeat _ "'"%char n eq_refl)).
  rewrite (rstrip_by_keep (fun d => (d =? "'")%char) _ _ c L Ha
             (all_chars_repeat _ Py.dquote m eq_refl)).
  rewrite (rstrip_by_app_all _ _ _ (all_chars_repeat _ Py.dquote m eq_refl)).
  exact (rstrip_by_last _ _ c L Hd).
Qed.

Lemma name_not_internal (prefix : string) :
  Py.has_char "/" prefix = true -> Py.startswith (Splitter.decorated ws1 base ws2 m n) prefix = false.
Proof.
  intros H. unfold Py.startswith.
  destruct (String.prefix prefix (Splitter.decorated ws1 base ws2 m n)) eqn:E; [|reflexivity].
  pose proof (prefix_has_char "/" _ _ E H) as C. rewrite name_no_slash in C.
  discriminate C.
Qed.

Lemma split_excel_name (w : Splitter.World) :
  Py.startswith base "~$" = false ->
  Splitter.split_excel w ("ingestion/" ++ (Splitter.decorated ws1 base ws2 m n)) = Splitter.process w (Splitter.decorated ws1 base ws2 m n) base.
Proof.
  intros Htmp. unfold Splitter.split_excel.
  assert (B : Splitter.blob_name_of ("ingestion/" ++ (Splitter.decorated ws1 base ws2 m n)) = (Splitter.decorated ws1 base ws2 m n)) by reflexivity.
  rewrite B, clean_filename_name.
  rewrite !name_not_internal by reflexivity.
  now rewrite Htmp, base_xlsx.
Qed.

End CleanFilename.


Lemma report_head (c : ascii) (rest : string) :
  "report.xlsx" = String c rest -> Py.isspace c = false.
Proof. intros H. inversion H. reflexivity. Defined.


Example trailing_quote_run :
  events (Splitter.run (Examples.storage ["Plan"])
            (String.append "ingestion/report.xlsx" (String Py.dquote EmptyString)))
  = [ Splitter.EvReadWorkbook;
      Splitter.EvReadExcel "Plan";
      Splitter.EvUpload "dsp_summary/2026/03/report__Plan.csv" "Plan";
      Splitter.EvStartCopy (String.append "report.xlsx" (String Py.dquote EmptyString))
                           "_archive/dsp_summary/2026/03/report.xlsx";
      Splitter.EvPoll "_archive/dsp_summary/2026/03/report.xlsx" (Some "pending");
      Splitter.EvSleep 1;
      Splitter.EvPoll "_archive/dsp_summary/2026/03/report.xlsx" (Some "pending");
      Splitter.EvSleep 1;
      Splitter.EvPoll "_archive/dsp_summary/2026/03/report.xlsx" (Some "success");
      Splitter.EvDelete (String.append "report.xlsx" (String Py.dquote EmptyString)) ].
Proof. vm_compute. reflexivity. Qed.

(* ================================================================== *)
(** * Further properties of the code *)

(** ** Sanitized sheet names *)

(** X1: [_safe] keeps the length of the name, counted in characters as
    [len] does, and leaves a name as it is exactly when every character of
    it is alphanumeric, a hyphen or an underscore. *)
Theorem X1_safe_length_and_fixed_points (s : string) :
  Py.len (Splitter._safe s) = Py.len s /\
  (Splitter._safe s = s <-> forallb Splitter.path_safe (Py.chars s) = true).
Proof.
  split; [|split].
  - unfold Py.len. now rewrite chars_safe, length_map.
  - intros H. pose proof (chars_safe s) as C. rewrite H in C.
    apply forallb_forall. intros c Hc.
    assert (E : forall l, List.map Splitter.safe_char l = l ->
                          In c l -> Splitter.safe_char c = c).
    { induction l as [|x l IH]; [intros _ []|].
      cbn [List.map]. intros Hl Hin. injection Hl as Hx Hr.
      destruct Hin as [<- | Hin]; [exact Hx | now apply IH]. }
    rewrite <- (E _ (eq_sym C) Hc). apply safe_char_path_safe.
  - intros H. unfold Splitter._safe.
    replace (List.map Splitter.safe_char (Py.chars s)) with (Py.chars s).
    + apply join_chars.
    + rewrite <- (map_id (Py.chars s)) at 1. apply map_ext_in. intros c Hc.
      symmetry. apply safe_char_fixed.
      rewrite forallb_forall in H. now apply H.
Qed.

(** ** The partition key *)

Lemma match_date_here_groups (s year month day : string) :
  Splitter.match_date_here s = Some (year, month, day) ->
  Stages.year_text year = true /\
  String.length month = 2%nat /\ Py.all_chars Py.isdigit month = true.
Proof.
  do 10 (destruct s as [|? s]; [discriminate|]).
  unfold Splitter.match_date_here.
  match goal with |- (if ?c then _ else _) = _ -> _ => destruct c eqn:E end;
    [|discriminate].
  intros H. inversion H; subst. clear H.
  do 9 (apply andb_true_iff in E; destruct E as [E ?]).
  unfold Stages.year_text. cbn [String.length Nat.eqb Py.all_chars andb].
  repeat match goal with H : Py.isdigit _ = true |- _ => rewrite H; clear H end.
  repeat split; reflexivity.
Qed.

Lemma re_search_date_groups (year month day : string) : forall stem,
  Splitter.re_search_date stem = Some (year, month, day) ->
  Stages.year_text year = true /\
  String.length month = 2%nat /\ Py.all_chars Py.isdigit month = true.
Proof.
  induction stem as [|c stem IH]; cbn [Splitter.re_search_date]; intros H.
  - destruct (Splitter.match_date_here EmptyString) as [g|] eqn:E; [|discriminate].
    inversion H; subst. exact (match_date_here_groups _ _ _ _ E).
  - destruct (Splitter.match_date_here (String c stem)) as [g|] eqn:E.
    + inversion H; subst. exact (match_date_here_groups _ _ _ _ E).
    + exact (IH H).
Qed.

Lemma str_of_year (y : Z) :
  (1000 <= y <= 9999)%Z -> Stages.year_text (Py.str y) = true.
Proof.
  intros Hy.
  assert (All : forallb (fun k => Stages.year_text (Py.str (1000 + Z.of_nat k)))
                        (seq 0 (Z.to_nat 9000)) = true) by (vm_compute; reflexivity).
  rewrite forallb_forall in All.
  specialize (All (Z.to_nat (y - 1000))).
  replace (1000 + Z.of_nat (Z.to_nat (y - 1000)))%Z with y in All by lia.
  apply All, in_seq. lia.
Qed.

Lemma fmt_of_month (m : Z) :
  (1 <= m <= 12)%Z -> Stages.month_text (Py.fmt_02d m) = true.
Proof.
  intros Hm.
  assert (All : forallb (fun k => Stages.month_text (Py.fmt_02d (Z.of_nat k)))
                        (seq 1 12) = true) by (vm_compute; reflexivity).
  rewrite forallb_forall in All.
  specialize (All (Z.to_nat m)). rewrite Z2Nat.id in All by lia.
  apply All, in_seq. lia.
Qed.

(** X2: for a file name of ASCII characters, and with the clock in the
    years 1000 to 9999, the partition key is a year of four digits 0 to 9 and
    a month of two such digits from 01 to 12, whether it comes from the file
    name or from the clock. *)
Theorem X2_partition_key_well_formed (now : Splitter.UtcNow) (stem : string) :
  Py.isascii stem = true ->
  (1000 <= Splitter.now_year now <= 9999)%Z ->
  (1 <= Splitter.now_month now <= 12)%Z ->
  Stages.year_text (fst (Splitter._extract_year_month now stem)) = true /\
  Stages.month_text (snd (Splitter._extract_year_month now stem)) = true.
Proof.
  intros _ Hy Hm. unfold Splitter._extract_year_month.
  destruct (Splitter.re_search_date stem) as [[[year month] day]|] eqn:E.
  - destruct (Splitter.strptime_first_of_month_ok year month) eqn:V; cbn [fst snd].
    + destruct (re_search_date_groups _ _ _ _ E) as (Y & L & D).
      split; [exact Y|]. unfold Stages.month_text. rewrite L, D. cbn [Nat.eqb andb].
      unfold Splitter.strptime_first_of_month_ok in V.
      apply andb_true_iff in V as [V V3]. apply andb_true_iff in V as [_ V2].
      now rewrite V2, V3.
    + split; [now apply str_of_year | now apply fmt_of_month].
  - cbn [fst snd]. split; [now apply str_of_year | now apply fmt_of_month].
Qed.

Lemma X2_partition_key_well_formed_witness :
  Stages.year_text
    (fst (Splitter._extract_year_month
            {| Splitter.now_year := 2026; Splitter.now_month := 3 |} "notes 2025-13-40")) = true /\
  Stages.month_text
    (snd (Splitter._extract_year_month
            {| Splitter.now_year := 2026; Splitter.now_month := 3 |} "notes 2025-13-40")) = true.
Proof.
  apply (X2_partition_key_well_formed
           {| Splitter.now_year := 2026; Splitter.now_month := 3 |} "notes 2025-13-40");
    [reflexivity | cbn; lia | cbn; lia].
Defined.

(** ** The filters of the splitter, continued *)

Lemma split_excel_accepted (w : Splitter.World) (full_path : string) :
  Splitter.split_excel w full_path
  = if Stages.accepted full_path
    then Splitter.process w (Splitter.blob_name_of full_path)
                          (Splitter.clean_filename full_path)
    else ret tt.
Proof.
  unfold Splitter.split_excel, Stages.accepted.
  destruct (Py.startswith _ "_archive/" || Py.startswith _ "dsp_summary/");
    [reflexivity|].
  destruct (Py.startswith _ "~$" || negb _); reflexivity.
Qed.

Lemma has_char_last (sep : ascii) (s : string) :
  Py.has_char sep s = true -> exists d, Py.last_char s = Some d.
Proof.
  destruct s as [|x s]; [discriminate|]. intros _. cbn.
  destruct (Py.last_char s); eauto.
Qed.

Lemma last_char_after_last (sep c : ascii) : forall s,
  Py.last_char s = Some c -> c <> sep ->
  Py.last_char (Py.after_last sep s) = Some c.
Proof.
  induction s as [|x s IH]; [discriminate|]. intros L Hc.
  cbn [Py.after_last]. cbn [Py.last_char] in L.
  destruct (Py.has_char sep s) eqn:Hs.
  - destruct (has_char_last _ _ Hs) as [d Hd]. rewrite Hd in L.
    apply IH; [congruence | exact Hc].
  - destruct (Ascii.eqb_spec x sep) as [-> | Hx].
    + destruct (Py.last_char s) as [d|]; [exact L|]. inversion L. congruence.
    + cbn [Py.last_char]. exact L.
Qed.

Lemma last_char_lstrip (p : ascii -> bool) (c : ascii) : forall s,
  Py.last_char s = Some c -> p c = false ->
  Py.last_char (Py.lstrip_by p s) = Some c.
Proof.
  induction s as [|x s IH]; [discriminate|]. intros L Hc.
  cbn [Py.lstrip_by]. destruct (p x) eqn:Hx; [|exact L].
  cbn [Py.last_char] in L. destruct (Py.last_char s) as [d|].
  - apply IH; [exact L | exact Hc].
  - inversion L; subst. congruence.
Qed.

Lemma lower_char_x (c : ascii) :
  Py.lower_char c = "x"%char -> c = "x"%char \/ c = "X"%char.
Proof.
  destruct c as [[] [] [] [] [] [] [] []]; vm_compute; intros H;
    first [discriminate H | now left | now right].
Qed.

(** The name that is left of a path ending in [c] still ends in [c], when
    [c] is neither the separator nor a character the cleaning strips. *)
Lemma clean_filename_last (full_path : string) (c : ascii) :
  Py.last_char full_path = Some c ->
  Py.isspace c = false -> c <> "/"%char -> c <> "'"%char -> c <> Py.dquote ->
  Py.last_char (Splitter.clean_filename full_path) = Some c.
Proof.
  intros L Hs Hsep Ha Hd. unfold Splitter.clean_filename, Py.basename, Py.strip, Py.rstrip.
  pose proof (last_char_lstrip Py.isspace c _
                (last_char_after_last "/" c _ L Hsep) Hs) as L1.
  rewrite (rstrip_by_last Py.isspace _ c L1 Hs).
  assert (Ha' : (c =? "'")%char = false) by now apply Ascii.eqb_neq.
  assert (Hd' : (c =? Py.dquote)%char = false) by now apply Ascii.eqb_neq.
  rewrite (rstrip_by_last (fun d => (d =? "'")%char) _ c L1 Ha').
  rewrite (rstrip_by_last (fun d => (d =? Py.dquote)%char) _ c L1 Hd').
  exact L1.
Qed.

(** Such a name does not have the extension xlsx, when [c] is not an x. *)
Lemma clean_filename_not_xlsx (full_path : string) (c : ascii) :
  Py.last_char full_path = Some c ->
  Py.isspace c = false -> c <> "/"%char -> c <> "'"%char -> c <> Py.dquote ->
  c <> "x"%char -> c <> "X"%char ->
  Py.endswith (Py.lower (Splitter.clean_filename full_path)) ".xlsx" = false.
Proof.
  intros L Hs Hsep Ha Hd Hx HX.
  destruct (Py.endswith _ ".xlsx") eqn:E; [|reflexivity].
  pose proof (endswith_last_char ".xlsx" "x" _ E eq_refl) as Lx.
  unfold Py.lower in Lx.
  rewrite last_char_map, (clean_filename_last _ c L Hs Hsep Ha Hd) in Lx.
  inversion Lx as [Lc]. destruct (lower_char_x c Lc); contradiction.
Qed.



Lemma after_last_app (sep : ascii) (b : string) : forall a,
  Py.has_char sep b = false -> Py.after_last sep (a ++ String sep b) = b.
Proof.
  intros a Hb. induction a as [|x a IH]; cbn [append Py.after_last].
  - now rewrite Hb, Ascii.eqb_refl.
  - rewrite has_char_app. cbn [Py.has_char]. rewrite Ascii.eqb_refl.
    cbn [orb]. rewrite orb_true_r. exact IH.
Qed.

Lemma rstrip_by_cons (p : ascii -> bool) (c : ascii) (s : string) :
  p c = false -> Py.rstrip_by p (String c s) = String c (Py.rstrip_by p s).
Proof.
  intros Hc. cbn [Py.rstrip_by]. destruct (Py.rstrip_by p s); [now rewrite Hc | reflexivity].
Qed.

(** X4: an Office lock file, whose base name starts with a tilde and a
    dollar sign, is ignored by the splitter in whatever folder it lies and
    whatever follows in its name, the extension xlsx included. *)
Theorem X4_lock_file_ignored (w : Splitter.World) (dir rest : string) :
  Py.has_char "/" rest = false ->
  Splitter.run w (dir ++ "/~$" ++ rest) = (Ret tt, initial (Splitter.start_time w)).
Proof.
  intros Hrest. unfold Splitter.run. rewrite split_excel_accepted.
  assert (B : Py.basename (dir ++ "/~$" ++ rest) = "~$" ++ rest).
  { unfold Py.basename. apply after_last_app. cbn [append Py.has_char].
    rewrite Hrest. reflexivity. }
  assert (E : Py.startswith (Splitter.clean_filename (dir ++ "/~$" ++ rest)) "~$" = true).
  { unfold Splitter.clean_filename, Py.strip, Py.rstrip. rewrite B.
    cbn [append Py.lstrip_by].
    change (Py.isspace "~") with false. cbn iota.
    rewrite !rstrip_by_cons by reflexivity. unfold Py.startswith. cbn [String.prefix].
    destruct (ascii_dec "~" "~"); [|congruence].
    destruct (ascii_dec "$" "$"); [|congruence].
    destruct (Py.rstrip_by _ _); reflexivity. }
  unfold Stages.accepted. rewrite E. cbn [orb negb]. rewrite andb_false_r. reflexivity.
Qed.

Lemma X4_lock_file_ignored_witness :
  Splitter.run (Examples.storage ["Solution"])
               "ingestion/~$2025-02-10-DSK4-CYCLE_1-DSP-DayOfOpsPlan.xlsx"
  = (Ret tt, initial 0).
Proof.
  exact (X4_lock_file_ignored (Examples.storage ["Solution"]) "ingestion"
           "2025-02-10-DSK4-CYCLE_1-DSP-DayOfOpsPlan.xlsx" eq_refl).
Defined.

(** ** The stages of one invocation *)

Section ProcessStages.
Import Splitter.
Variable w : World.

Lemma call_cases (e : Event) (s : St) :
  call w e s
  = (if raises w e then Exn "sdk error" else Ret tt,
     {| now := now s; polls := polls s; trace := (trace s ++ [(now s, e)])%list |}).
Proof. unfold call, bind, emit. destruct (raises w e); reflexivity. Qed.

Lemma export_sheets_trace (filename : string) : forall sheets s r s',
  export_sheets w
    (OUT_PREFIX (fst (_determine_file_type filename))
       (fst (_extract_year_month (utcnow w) (Py.drop_last 5 filename)))
       (snd (_extract_year_month (utcnow w) (Py.drop_last 5 filename))))
    (Py.drop_last 5 filename) sheets s = (r, s') ->
  exists added,
    trace s' = (trace s ++ added)%list /\ now s' = now s /\
    Forall (fun te => Stages.export_event w filename sheets (snd te)) added /\
    (r = Ret tt ->
     added = Stages.export_trace w (now s) filename sheets /\
     forall sheet, In sheet sheets ->
       raises w (EvReadExcel sheet) = false /\
       raises w (EvUpload (Stages.upload_name w filename sheet) sheet) = false).
Proof.
  induction sheets as [|sheet rest IH]; intros s r s' H.
  - same_pair H. exists []. rewrite app_nil_r.
    split; [reflexivity|]. split; [reflexivity|]. split; [constructor|].
    intros _. split; [reflexivity | intros ? []].
  - cbn [export_sheets] in H. unfold bind at 1 in H. rewrite call_cases in H.
    assert (E1 : Stages.export_event w filename (sheet :: rest) (EvReadExcel sheet))
      by (exists sheet; split; [left; reflexivity | left; reflexivity]).
    assert (E2 : Stages.export_event w filename (sheet :: rest)
                   (EvUpload (Stages.upload_name w filename sheet) sheet))
      by (exists sheet; split; [left; reflexivity | right; reflexivity]).
    destruct (raises w (EvReadExcel sheet)) eqn:R1.
    { same_pair H. exists [(now s, EvReadExcel sheet)]. cbn [trace now].
      split; [reflexivity|]. split; [reflexivity|].
      split; [constructor; [exact E1 | constructor] | discriminate]. }
    unfold bind at 1 in H. rewrite call_cases in H. cbn [now polls trace] in H.
    fold (Stages.upload_name w filename sheet) in H.
    destruct (raises w (EvUpload (Stages.upload_name w filename sheet) sheet)) eqn:R2.
    { same_pair H.
      exists [(now s, EvReadExcel sheet);
              (now s, EvUpload (Stages.upload_name w filename sheet) sheet)].
      cbn [trace now]. rewrite <- app_assoc.
      split; [reflexivity|]. split; [reflexivity|].
      split; [constructor; [exact E1 | constructor; [exact E2 | constructor]]
             | discriminate]. }
    apply IH in H as (added & T & N & F & Hret). cbn [now polls trace] in *.
    exists ((now s, EvReadExcel sheet)
            :: (now s, EvUpload (Stages.upload_name w filename sheet) sheet) :: added).
    split; [rewrite T, <- !app_assoc; reflexivity|]. split; [exact N|].
    split.
    + constructor; [exact E1|]. constructor; [exact E2|].
      eapply Forall_impl; [|exact F].
      intros te (sh & Hin & Hsh). exists sh. split; [right; exact Hin | exact Hsh].
    + intros Hr. destruct (Hret Hr) as [Ea Hno]. split.
      * rewrite Ea. reflexivity.
      * intros sh [<- | Hin]; [split; assumption | exact (Hno sh Hin)].
Qed.

Lemma archive_trace (blob_name dst : string) (s s' : St) (r : Res unit) :
  Stages.archive w blob_name dst s = (r, s') ->
  r <> OutOfFuel /\
  exists added,
    trace s' = (trace s ++ (now s, EvStartCopy blob_name dst) :: added)%list /\
    Forall (fun te => archive_event blob_name dst (snd te)) added.
Proof.
  unfold Stages.archive, bind at 1. rewrite call_cases.
  destruct (raises w (EvStartCopy blob_name dst)).
  { intros H; same_pair H. split; [discriminate|]. exists []. cbn.
    split; [reflexivity | constructor]. }
  unfold bind at 1. cbn [now polls trace].
  match goal with
  | |- context [_wait_for_copy_success w dst EmptyString 60 ?st] =>
      destruct (_wait_for_copy_success w dst EmptyString 60 st) as [rw sw] eqn:W
  end.
  apply wait_for_copy_inv in W as (Rw & added & T & F). cbn [trace] in T.
  assert (Fa : Forall (fun te => archive_event blob_name dst (snd te)) added).
  { eapply Forall_impl; [|exact F].
    intros [t e] [[st E] | E]; cbn in E; subst e; reflexivity. }
  destruct rw as [[|]|e|]; intros H.
  - rewrite call_cases in H. same_pair H. split; [destruct (raises w _); discriminate|].
    exists (added ++ [(now sw, EvDelete blob_name)])%list. cbn [trace].
    rewrite T, <- !app_assoc. split; [reflexivity|].
    apply Forall_app. split; [exact Fa | repeat constructor].
  - same_pair H. split; [discriminate|]. exists added. rewrite T, <- app_assoc.
    split; [reflexivity | exact Fa].
  - same_pair H. split; [discriminate|]. exists added. rewrite T, <- app_assoc.
    split; [reflexivity | exact Fa].
  - contradiction.
Qed.

Lemma process_stages (blob_name filename : string) :
  process w blob_name filename
  = (_get_blob_service_client w ;;
     emit EvReadWorkbook ;;
     match sheet_names w with
     | Raises e => raise e
     | Returns names =>
         match Stages.selection (snd (_determine_file_type filename)) names with
         | None => ret tt
         | Some [] => ret tt
         | Some sheets =>
             export_sheets w
               (OUT_PREFIX (fst (_determine_file_type filename))
                  (fst (_extract_year_month (utcnow w) (Py.drop_last 5 filename)))
                  (snd (_extract_year_month (utcnow w) (Py.drop_last 5 filename))))
               (Py.drop_last 5 filename) sheets ;;
             Stages.archive w blob_name (Stages.archive_name w filename)
         end
     end).
Proof.
  unfold process, Stages.archive_name, Stages.archive, Stages.selection.
  destruct (_extract_year_month (utcnow w) (Py.drop_last 5 filename)) as [year month].
  destruct (_determine_file_type filename) as [file_type target_sheet].
  reflexivity.
Qed.

(** The trace of the part after the filters, stage by stage. *)
Lemma process_trace (blob_name filename : string) (s s' : St) (r : Res unit) :
  trace s = [] ->
  process w blob_name filename s = (r, s') ->
  r <> OutOfFuel /\
  (trace s' = [] /\ storage_configured w = false \/
   trace s' = [(now s, EvReadWorkbook)] /\ storage_configured w = true /\
     (r = Ret tt \/ exists e, sheet_names w = Raises e) \/
   exists names sheets ex rest,
     storage_configured w = true /\
     sheet_names w = Returns names /\
     Stages.selection (snd (_determine_file_type filename)) names = Some sheets /\
     sheets <> [] /\
     trace s' = ((now s, EvReadWorkbook) :: ex ++ rest)%list /\
     Forall (fun te => Stages.export_event w filename sheets (snd te)) ex /\
     (rest = [] /\ (exists e, r = Exn e) \/
      ex = Stages.export_trace w (now s) filename sheets /\
      (forall sheet, In sheet sheets ->
         raises w (EvReadExcel sheet) = false /\
         raises w (EvUpload (Stages.upload_name w filename sheet) sheet) = false) /\
      exists added,
        rest = (now s, EvStartCopy blob_name (Stages.archive_name w filename)) :: added /\
        Forall (fun te => archive_event blob_name (Stages.archive_name w filename) (snd te))
               added)).
Proof.
  intros Hnil. rewrite process_stages.
  unfold bind at 1, _get_blob_service_client.
  destruct (storage_configured w) eqn:C.
  2:{ intros H; same_pair H. split; [discriminate|]. left. now split. }
  unfold ret at 1. unfold bind at 1, emit at 1. rewrite Hnil. cbn [app].
  destruct (sheet_names w) as [names|e] eqn:Sn.
  2:{ intros H; same_pair H. split; [discriminate|]. right; left.
      split; [reflexivity|]. split; [reflexivity|]. right. eauto. }
  destruct (Stages.selection _ names) as [[|sheet sheets]|] eqn:Sel.
  1,3: intros H; same_pair H; (split; [discriminate|]); right; left;
       (split; [reflexivity|]); (split; [reflexivity|]); left; reflexivity.
  unfold bind at 1.
  match goal with
  | |- context [export_sheets w ?o ?st ?sh ?s0] =>
      destruct (export_sheets w o st sh s0) as [re se] eqn:Ex
  end.
  destruct (export_sheets_inv w _ _ _ _ _ _ Ex) as (? & _ & _ & _ & Rne).
  apply export_sheets_trace in Ex as (ex & T & N & F & Hret).
  cbn [now polls trace] in T, N, Hret.
  destruct re as [[]|e|]; intros H.
  - destruct (Hret eq_refl) as [Eex Hno].
    apply archive_trace in H as (R & added & Ta & Fa). split; [exact R|].
    right; right. exists names, (sheet :: sheets), ex, ((now se, EvStartCopy blob_name
                          (Stages.archive_name w filename)) :: added).
    split; [reflexivity|]. split; [reflexivity|]. split; [exact Sel|].
    split; [discriminate|]. split; [rewrite Ta, T; reflexivity|].
    split; [exact F|]. right. split; [exact Eex|]. split; [exact Hno|].
    exists added. rewrite N. split; [reflexivity | exact Fa].
  - same_pair H. split; [discriminate|]. right; right.
    exists names, (sheet :: sheets), ex, []. rewrite app_nil_r.
    split; [reflexivity|]. split; [reflexivity|]. split; [exact Sel|].
    split; [discriminate|]. split; [exact T|]. split; [exact F|].
    left. split; [reflexivity | eauto].
  - contradiction.
Qed.

End ProcessStages.

(** ** Names of the objects written *)

Lemma selection_in (target_sheet : option string) (names sheets : list string) :
  Stages.selection target_sheet names = Some sheets ->
  forall sheet, In sheet sheets -> In sheet names.
Proof.
  unfold Stages.selection, Splitter.ACCEPTED_SHEETS.
  destruct (Splitter.truthy target_sheet).
  - destruct target_sheet as [t|]; [|discriminate].
    destruct (Py.mem t names) eqn:M; [|discriminate].
    intros H sheet Hin. inversion H; subst. destruct Hin as [<- | []].
    unfold Py.mem in M. apply existsb_exists in M as (x & Hx & Ex).
    apply String.eqb_eq in Ex. now subst x.
  - intros H. inversion H; subst. auto.
Qed.

Lemma upload_name_last (w : Splitter.World) (filename sheet : string) :
  Py.last_char (Stages.upload_name w filename sheet) = Some "v"%char.
Proof. unfold Stages.upload_name. now rewrite !last_char_app. Qed.

Lemma archive_name_prefix (w : Splitter.World) (filename : string) :
  Py.startswith (Stages.archive_name w filename) "_archive/" = true.
Proof.
  unfold Stages.archive_name, Splitter.ARCHIVE_PREFIX, Py.startswith.
  cbn [append String.prefix].
  repeat match goal with
         | |- context [ascii_dec ?a ?a] => destruct (ascii_dec a a); [|congruence]
         end.
  match goal with |- String.prefix EmptyString ?x = true => destruct x; reflexivity end.
Qed.

(** The trace of an invocation, by the stage it reached. *)
Lemma run_trace (w : Splitter.World) (full_path : string) :
  let r := Splitter.run w full_path in
  let t0 := Splitter.start_time w in
  let blob_name := Splitter.blob_name_of full_path in
  let filename := Splitter.clean_filename full_path in
  trace (snd r) = [] \/
  Stages.accepted full_path = true /\
  (trace (snd r) = [(t0, Splitter.EvReadWorkbook)] \/
   exists names sheets ex rest,
     Splitter.sheet_names w = Returns names /\
     Stages.selection (snd (Splitter._determine_file_type filename)) names = Some sheets /\
     sheets <> [] /\
     trace (snd r) = ((t0, Splitter.EvReadWorkbook) :: ex ++ rest)%list /\
     Forall (fun te => Stages.export_event w filename sheets (snd te)) ex /\
     (rest = [] \/
      ex = Stages.export_trace w t0 filename sheets /\
      (forall sheet, In sheet sheets ->
         Splitter.raises w (Splitter.EvReadExcel sheet) = false /\
         Splitter.raises w (Splitter.EvUpload (Stages.upload_name w filename sheet) sheet)
         = false) /\
      exists added,
        rest = (t0, Splitter.EvStartCopy blob_name (Stages.archive_name w filename)) :: added /\
        Forall (fun te => Splitter.archive_event blob_name
                            (Stages.archive_name w filename) (snd te)) added)).
Proof.
  intros r t0 blob_name filename. subst r. unfold Splitter.run.
  rewrite split_excel_accepted.
  destruct (Stages.accepted full_path) eqn:A; [|left; reflexivity].
  destruct (Splitter.process w _ _ _) as [r s'] eqn:P.
  apply process_trace in P; [|reflexivity]. cbn [snd initial now] in *.
  destruct P as [_ [[T _] | [[T _] | (names & sheets & ex & rest & _ & Sn & Sel & Ne & T & F & R)]]].
  - left. exact T.
  - right. split; [reflexivity|]. left. exact T.
  - right. split; [reflexivity|]. right. exists names, sheets, ex, rest.
    repeat (split; [assumption|]).
    destruct R as [[-> _] | R]; [left; reflexivity | right; exact R].
Qed.

(** Where an upload can sit in such a trace. *)
Lemma upload_in_trace (w : Splitter.World) (filename src dst : string)
      (sheets : list string) (t0 : Z) (ex rest : list (Z * Splitter.Event))
      (t : Z) (name sheet : string) :
  Forall (fun te => Stages.export_event w filename sheets (snd te)) ex ->
  (rest = [] \/
   exists added,
     rest = (t0, Splitter.EvStartCopy src dst) :: added /\
     Forall (fun te => Splitter.archive_event src dst (snd te)) added) ->
  In (t, Splitter.EvUpload name sheet)
     ((t0, Splitter.EvReadWorkbook) :: ex ++ rest) ->
  In sheet sheets /\ name = Stages.upload_name w filename sheet.
Proof.
  intros F R [H | H]; [discriminate H|].
  apply in_app_or in H as [H | H].
  - rewrite Forall_forall in F. destruct (F _ H) as (sh & Hin & [E | E]);
      cbn in E; inversion E; subst. now split.
  - destruct R as [-> | (added & -> & Fa)]; [destruct H|].
    destruct H as [H | H]; [discriminate H|].
    rewrite Forall_forall in Fa. destruct (Fa _ H).
Qed.

Lemma copy_not_in_export (w : Splitter.World) (filename : string)
      (sheets : list string) (ex : list (Z * Splitter.Event)) (t : Z) (src dst : string) :
  Forall (fun te => Stages.export_event w filename sheets (snd te)) ex ->
  ~ In (t, Splitter.EvStartCopy src dst) ex.
Proof.
  intros F H. rewrite Forall_forall in F.
  destruct (F _ H) as (sh & _ & [E | E]); discriminate E.
Qed.

(** X5: for a blob path of ASCII characters, every object the splitter
    uploads is the CSV of a sheet of the workbook, named
    file_type/year/month/stem__sheet.csv from the cleaned file name, its
    classification, its partition key and the sheet name sanitized
    character by character. *)
Theorem X5_uploads_are_named_after_sheets (w : Splitter.World) (full_path : string)
        (t : Z) (name sheet : string) :
  Py.isascii full_path = true ->
  In (t, Splitter.EvUpload name sheet) (trace (snd (Splitter.run w full_path))) ->
  Stages.accepted full_path = true /\
  name = Stages.upload_name w (Splitter.clean_filename full_path) sheet /\
  exists names, Splitter.sheet_names w = Returns names /\ In sheet names.
Proof.
  intros _ H.
  destruct (run_trace w full_path)
    as [T | [A [T | (names & sheets & ex & rest & Sn & Sel & _ & T & F & R)]]];
    rewrite T in H.
  - destruct H.
  - destruct H as [H | []]. discriminate H.
  - split; [exact A|].
    assert (Hu : In sheet sheets /\
                 name = Stages.upload_name w (Splitter.clean_filename full_path) sheet).
    { apply (upload_in_trace w _ (Splitter.blob_name_of full_path)
               (Stages.archive_name w (Splitter.clean_filename full_path))
               sheets (Splitter.start_time w) ex rest t name sheet F); [|exact H].
      destruct R as [-> | (_ & _ & added & -> & Fa)]; [left; reflexivity|].
      right. exists added. now split. }
    destruct Hu as [Hin ->]. split; [reflexivity|].
    exists names. split; [exact Sn|]. exact (selection_in _ _ _ Sel _ Hin).
Qed.

Lemma X5_uploads_are_named_after_sheets_witness :
  "dsp_summary/2025/02/2025-02-10-DSK4-CYCLE_1-DSP-DayOfOpsPlan__Plan_A.csv"
  = Stages.upload_name (Examples.storage ["Solution"; "Plan–A"])
      (Splitter.clean_filename "ingestion/2025-02-10-DSK4-CYCLE_1-DSP-DayOfOpsPlan.xlsx")
      "Plan–A".
Proof.
  assert (Hin : In (0%Z, Splitter.EvUpload
                     "dsp_summary/2025/02/2025-02-10-DSK4-CYCLE_1-DSP-DayOfOpsPlan__Plan_A.csv"
                     "Plan–A")
                  (trace (snd (Splitter.run (Examples.storage ["Solution"; "Plan–A"])
                     "ingestion/2025-02-10-DSK4-CYCLE_1-DSP-DayOfOpsPlan.xlsx")))).
  { vm_compute. do 4 right. left. reflexivity. }
  exact (proj1 (proj2 (X5_uploads_are_named_after_sheets
                         (Examples.storage ["Solution"; "Plan–A"])
                         "ingestion/2025-02-10-DSK4-CYCLE_1-DSP-DayOfOpsPlan.xlsx"
                         0 _ "Plan–A" eq_refl Hin))).
Defined.

(** Where a start of copy can sit in the trace of an invocation. *)
Lemma copy_in_trace (w : Splitter.World) (filename src dst : string)
      (sheets : list string) (t0 : Z) (ex added : list (Z * Splitter.Event))
      (t : Z) (src' dst' : string) :
  Forall (fun te => Stages.export_event w filename sheets (snd te)) ex ->
  Forall (fun te => Splitter.archive_event src dst (snd te)) added ->
  In (t, Splitter.EvStartCopy src' dst')
     ((t0, Splitter.EvReadWorkbook) :: ex ++ (t0, Splitter.EvStartCopy src dst) :: added) ->
  t = t0 /\ src' = src /\ dst' = dst.
Proof.
  intros F Fa [H | H]; [discriminate H|].
  apply in_app_or in H as [H | [H | H]].
  - destruct (copy_not_in_export _ _ _ _ _ _ _ F H).
  - inversion H; subst. auto.
  - rewrite Forall_forall in Fa. destruct (Fa _ H).
Qed.



(** X7: the splitter is not triggered again by what it writes.  Delivered
    as an event of the container, every CSV it uploaded and every archive
    copy it started is ignored: nothing is read, written or deleted. *)
Theorem X7_own_outputs_are_ignored (w : Splitter.World) (full_path : string) :
  (forall t name sheet,
     In (t, Splitter.EvUpload name sheet) (trace (snd (Splitter.run w full_path))) ->
     forall w', Splitter.run w' ("ingestion/" ++ name)
                = (Ret tt, initial (Splitter.start_time w'))) /\
  (forall t src dst,
     In (t, Splitter.EvStartCopy src dst) (trace (snd (Splitter.run w full_path))) ->
     forall w', Splitter.run w' ("ingestion/" ++ dst)
                = (Ret tt, initial (Splitter.start_time w'))).
Proof.
  destruct (run_trace w full_path)
    as [T | [A [T | (names & sheets & ex & rest & Sn & Sel & _ & T & F & R)]]];
    rewrite T.
  1,2: split; intros; repeat match goal with
                             | H : In _ [] |- _ => destruct H
                             | H : In _ [_] |- _ => destruct H as [H | []]; discriminate H
                             end.
  split.
  - intros t name sheet H w'.
    assert (Hu : In sheet sheets /\
                 name = Stages.upload_name w (Splitter.clean_filename full_path) sheet).
    { apply (upload_in_trace w _ (Splitter.blob_name_of full_path)
               (Stages.archive_name w (Splitter.clean_filename full_path))
               sheets (Splitter.start_time w) ex rest t name sheet F); [|exact H].
      destruct R as [-> | (_ & _ & added & -> & Fa)]; [left; reflexivity|].
      right. exists added. now split. }
    destruct Hu as [_ ->].
    unfold Splitter.run. rewrite split_excel_accepted.
    assert (E : Stages.accepted ("ingestion/" ++ Stages.upload_name w
                                   (Splitter.clean_filename full_path) sheet) = false).
    { unfold Stages.accepted.
      rewrite (clean_filename_not_xlsx _ "v"); try discriminate; try reflexivity.
      - cbn [negb]. now rewrite orb_true_r, andb_false_r.
      - now rewrite last_char_app, upload_name_last. }
    rewrite E. reflexivity.
  - intros t src dst H w'.
    assert (Hd : dst = Stages.archive_name w (Splitter.clean_filename full_path)).
    { destruct R as [-> | (_ & _ & added & -> & Fa)].
      - rewrite app_nil_r in H. destruct H as [H | H]; [discriminate H|].
        destruct (copy_not_in_export _ _ _ _ _ _ _ F H).
      - now destruct (copy_in_trace _ _ _ _ _ _ _ _ _ _ _ F Fa H) as (_ & _ & ->). }
    subst dst. unfold Splitter.run. rewrite split_excel_accepted.
    assert (E : Stages.accepted ("ingestion/" ++ Stages.archive_name w
                                   (Splitter.clean_filename full_path)) = false).
    { unfold Stages.accepted.
      change (Splitter.blob_name_of ("ingestion/" ++ Stages.archive_name w
                                       (Splitter.clean_filename full_path)))
        with (Stages.archive_name w (Splitter.clean_filename full_path)).
      now rewrite archive_name_prefix. }
    rewrite E. reflexivity.
Qed.

(** ** Order and failure of the stages *)








(** ** The number of polls of the archive copy *)

Section PollBound.
Import Splitter.
Variable w : World.

Lemma wait_loop_polls (dst : string) (deadline : Z) : forall fuel n s r s',
  wait_loop w fuel dst deadline s = (r, s') ->
  (deadline - now s <= 1000 * Z.of_nat n)%Z ->
  (polls s' <= polls s + n)%nat.
Proof.
  induction fuel as [|fuel IH]; intros n s r s' H Hn.
  - same_pair H. lia.
  - cbn [wait_loop] in H. unfold bind at 1, time_time at 1 in H.
    destruct (now s <? deadline)%Z eqn:G; [|same_pair H; lia].
    apply Z.ltb_lt in G.
    unfold bind at 1, get_copy_status, poll in H.
    destruct (poll_status w (polls s)) as [status|e]; [|same_pair H; cbn; lia].
    destruct (status_is status "success"); [same_pair H; cbn; lia|].
    destruct (status_is status "aborted" || status_is status "failed");
      [same_pair H; cbn; lia|].
    unfold bind at 1 in H. rewrite time_sleep_run in H. cbn [now polls trace] in H.
    apply (IH (n - 1)%nat) in H; cbn [now polls] in *; lia.
Qed.

Lemma export_sheets_polls (out_prefix stem : string) : forall sheets s r s',
  export_sheets w out_prefix stem sheets s = (r, s') -> polls s' = polls s.
Proof.
  induction sheets as [|sheet rest IH]; intros s r s' H.
  - now same_pair H.
  - cbn [export_sheets] in H. unfold bind at 1 in H. rewrite call_cases in H.
    destruct (raises w (EvReadExcel sheet)); [now same_pair H|].
    unfold bind at 1 in H. rewrite call_cases in H.
    destruct (raises w (EvUpload _ sheet)); [now same_pair H|].
    apply IH in H. exact H.
Qed.

Lemma archive_polls (blob_name dst : string) (s s' : St) (r : Res unit) :
  Stages.archive w blob_name dst s = (r, s') -> (polls s' <= polls s + 60)%nat.
Proof.
  unfold Stages.archive, bind at 1. rewrite call_cases.
  destruct (raises w (EvStartCopy blob_name dst)); [intros H; same_pair H; cbn; lia|].
  unfold bind at 1, _wait_for_copy_success at 1, bind at 1, time_time at 1.
  cbn [now polls trace].
  match goal with
  | |- context [wait_loop w ?f dst ?d ?st] =>
      destruct (wait_loop w f dst d st) as [rw sw] eqn:W
  end.
  apply (wait_loop_polls _ _ _ 60) in W; [|cbn [now]; lia]. cbn [polls] in W.
  destruct rw as [[|]|e|]; intros H.
  - rewrite call_cases in H. same_pair H. cbn. exact W.
  - same_pair H. exact W.
  - same_pair H. exact W.
  - same_pair H. exact W.
Qed.

End PollBound.

(** X11: one invocation of the splitter polls the copy status at most 60
    times, whatever the storage account answers and however long each answer
    takes. *)
Theorem X11_at_most_sixty_polls (w : Splitter.World) (full_path : string) :
  (polls (snd (Splitter.run w full_path)) <= 60)%nat.
Proof.
  unfold Splitter.run. rewrite split_excel_accepted.
  destruct (Stages.accepted full_path); [|cbn; lia].
  rewrite process_stages.
  unfold bind at 1, Splitter._get_blob_service_client.
  destruct (Splitter.storage_configured w); [|cbn; lia].
  unfold ret at 1. unfold bind at 1, emit at 1.
  destruct (Splitter.sheet_names w) as [names|e]; [|cbn; lia].
  destruct (Stages.selection _ names) as [[|sheet sheets]|]; [cbn; lia| |cbn; lia].
  unfold bind at 1.
  match goal with
  | |- context [Splitter.export_sheets w ?o ?st ?sh ?s0] =>
      destruct (Splitter.export_sheets w o st sh s0) as [re se] eqn:Ex
  end.
  apply export_sheets_polls in Ex. unfold initial in Ex. cbn [polls] in Ex.
  destruct re as [[]|e|]; cbn [snd]; try lia.
  destruct (Stages.archive w _ _ se) as [ra sa] eqn:Ar.
  apply archive_polls in Ar. cbn [snd]. lia.
Qed.

(** ** The diagnostics endpoint *)

Lemma sample_loop_prefix : forall items i names sample,
  (1 <= i <= 5)%nat ->
  firstn (6 - i) items = List.map Returns sample ->
  Diag.sample_loop i items names = Returns (names ++ sample)%list.
Proof.
  induction items as [|item rest IH]; intros i names sample Hi H.
  - rewrite firstn_nil in H. destruct sample; [|discriminate H].
    cbn. now rewrite app_nil_r.
  - replace (6 - i)%nat with (S (5 - i)) in H by lia. cbn [firstn] in H.
    destruct sample as [|b sample]; [discriminate H|]. cbn [List.map] in H.
    inversion H as [[Hitem Hrest]]. cbn [Diag.sample_loop].
    destruct (Nat.leb_spec 5 i) as [Hle | Hlt].
    + assert (i = 5%nat) by lia. subst i. cbn [Nat.sub firstn] in Hrest.
      destruct sample; [reflexivity | discriminate Hrest].
    + rewrite (IH (S i) _ sample); [now rewrite <- app_assoc | lia|].
      replace (6 - S i)%nat with (5 - i)%nat by lia. exact Hrest.
Qed.



(** X12: with a storage setting, [diag] answers 200 with the names of the
    first five blobs of the listing, in its order, or of all of them when
    there are fewer; what the listing does past the fifth blob, a failure
    included, is not seen. *)
Theorem X12_diag_samples_first_five (w : Diag.World) (sample : list string) :
  (exists client, Diag._get_blob_service_client w = Returns client) ->
  firstn 5 (Diag.blobs w) = List.map Returns sample ->
  Diag.diag w
  = {| Diag.body := Diag.Sample
                      match Diag.service_uri w with
                      | Some v => v
                      | None => "<missing>"
                      end
                      "ingestion" sample;
       Diag.status_code := 200 |}
  /\ (List.length sample <= 5)%nat.
Proof.
  intros [client Hc] H. split.
  - unfold Diag.diag. rewrite Hc.
    now rewrite (sample_loop_prefix (Diag.blobs w) 1 [] sample ltac:(lia) H).
  - pose proof (f_equal (@List.length _) H) as L.
    rewrite length_map, length_firstn in L. lia.
Qed.

Lemma X12_diag_samples_first_five_witness :
  Diag.diag MoreExamples.seven_blobs
  = {| Diag.body := Diag.Sample "https://epldatastore01.blob.core.windows.net"
                      "ingestion" ["a.xlsx"; "b.xlsx"; "c.xlsx"; "d.xlsx"; "e.xlsx"];
       Diag.status_code := 200 |}.
Proof.
  exact (proj1 (X12_diag_samples_first_five MoreExamples.seven_blobs
                  ["a.xlsx"; "b.xlsx"; "c.xlsx"; "d.xlsx"; "e.xlsx"]
                  (ex_intro _ _ eq_refl) eq_refl)).
Defined.


Example bad_service_uri_diag :
  Diag.diag MoreExamples.bad_service_uri
  = {| Diag.body := Diag.DiagError "Invalid URL"; Diag.status_code := 500 |}.
Proof. reflexivity. Qed.

(** ** The dispatcher, from validation to the answer of GitHub *)

Lemma status_match {A : Type} (a b : A) (code : Z) :
  match code with
  | 204%Z => a
  | _ => b
  end = if (code =? 204)%Z then a else b.
Proof.
  destruct code as [|p|p]; try reflexivity.
  do 8 (destruct p as [p|p|]; try reflexivity).
Qed.

Lemma after_last_no_sep (sep : ascii) (s : string) :
  Py.has_char sep (Py.after_last sep s) = false.
Proof.
  induction s as [|x s IH]; [reflexivity|]. cbn [Py.after_last].
  destruct (Py.has_char sep s) eqn:H; [exact IH|].
  destruct (x =? sep)%char eqn:E; [exact H|].
  cbn [Py.has_char]. now rewrite E, H.
Qed.

Section Dispatching.
Import Dispatcher.
Variable w : World.
Variable azeventgrid : EventGridEvent.

(** What the invocation does once validation and filters are passed. *)
Lemma dispatch_run :
  Dispatch.dispatches w azeventgrid = true ->
  exists post,
    OnBlobCreatedDispatchToGitHub w azeventgrid
    = (match http w with
       | Status code =>
           if (code =? 204)%Z then Ret tt
           else Exn ("GitHub dispatch failed with status " ++ Py.str code)
       | TimedOut => Exn "timeout"
       | RequestException => Exn "request failed"
       end, [post]) /\
    url post = "https://api.github.com/repos/"
               ++ GITHUB_OWNER (get_config (environ w)) ++ "/"
               ++ GITHUB_REPO (get_config (environ w)) ++ "/dispatches" /\
    authorization post = "token " ++ GITHUB_PAT (get_config (environ w)) /\
    post_event_type post = "blob-created" /\
    blob_url post = Dispatch.blob_url_of azeventgrid /\
    post_file_name post
    = Py.after_last "/" (if truthy (Dispatch.blob_url_of azeventgrid)
                         then Dispatch.blob_url_of azeventgrid
                         else subject azeventgrid).
Proof.
  unfold Dispatch.dispatches, Dispatch.blob_url_of, OnBlobCreatedDispatchToGitHub.
  intros H.
  repeat (apply andb_true_iff in H; destruct H as [H ?]).
  destruct (get_json azeventgrid) as [data|e]; [|discriminate].
  repeat match goal with
         | Hc : truthy _ = true |- _ => rewrite Hc; clear Hc
         end.
  cbn [negb orb].
  assert (F1 : truthy (PATH_BEGINS (get_config (environ w)))
               && negb (Py.startswith (subject azeventgrid)
                                      (PATH_BEGINS (get_config (environ w)))) = false).
  { destruct (truthy (PATH_BEGINS _)); [|reflexivity].
    cbn [negb orb] in *. now rewrite H1. }
  assert (F2 : truthy (PATH_ENDS (get_config (environ w)))
               && negb (Py.endswith (subject azeventgrid)
                                    (PATH_ENDS (get_config (environ w)))) = false).
  { destruct (truthy (PATH_ENDS _)); [|reflexivity].
    cbn [negb orb] in *. now rewrite H0. }
  rewrite F1, F2. eexists. split.
  - destruct (http w) as [code| |]; [rewrite status_match; destruct (code =? 204)%Z|..];
      reflexivity.
  - cbn [url authorization post_event_type blob_url post_file_name].
    repeat (split; [reflexivity|]).
    match goal with
    | |- context [if truthy ?u then _ else _] => destruct (truthy u)
    end; reflexivity.
Qed.

Lemma no_dispatch :
  Dispatch.dispatches w azeventgrid = false ->
  snd (OnBlobCreatedDispatchToGitHub w azeventgrid) = [].
Proof.
  unfold Dispatch.dispatches, OnBlobCreatedDispatchToGitHub. intros H.
  destruct (truthy (GITHUB_OWNER _)); [|reflexivity].
  destruct (truthy (GITHUB_REPO _)); [|reflexivity].
  destruct (truthy (GITHUB_PAT _)); [|reflexivity].
  destruct (get_json azeventgrid) as [data|e]; [|reflexivity].
  cbn [negb orb andb] in *.
  destruct (truthy (PATH_BEGINS _)); cbn [negb orb andb] in *.
  - destruct (Py.startswith _ _); cbn [negb orb andb] in *; [|reflexivity].
    destruct (truthy (PATH_ENDS _)); cbn [negb orb andb] in *; [|discriminate H].
    now rewrite H.
  - destruct (truthy (PATH_ENDS _)); cbn [negb orb andb] in *; [|discriminate H].
    now rewrite H.
Qed.

End Dispatching.

(** X14: the dispatcher makes one HTTP call, a POST to the dispatches
    endpoint of the configured repository with the event type blob-created
    and the token in the authorization header, exactly when owner, repository
    and token are set, the event data can be read and the subject passes the
    path filters; otherwise it makes none.  An empty filter lets every
    subject pass. *)
Theorem X14_one_post_exactly_when_dispatching (w : Dispatcher.World)
        (azeventgrid : Dispatcher.EventGridEvent) :
  let config := Dispatcher.get_config (Dispatcher.environ w) in
  let posts := snd (Dispatcher.OnBlobCreatedDispatchToGitHub w azeventgrid) in
  (Dispatch.dispatches w azeventgrid = true ->
   exists post,
     posts = [post] /\
     Dispatcher.url post
     = "https://api.github.com/repos/" ++ Dispatcher.GITHUB_OWNER config ++ "/"
       ++ Dispatcher.GITHUB_REPO config ++ "/dispatches" /\
     Dispatcher.authorization post = "token " ++ Dispatcher.GITHUB_PAT config /\
     Dispatcher.post_event_type post = "blob-created" /\
     Dispatcher.blob_url post = Dispatch.blob_url_of azeventgrid) /\
  (Dispatch.dispatches w azeventgrid = false -> posts = []).
Proof.
  intros config posts. split.
  - intros H. destruct (dispatch_run w azeventgrid H) as (post & E & U & A & T & B & _).
    exists post. subst posts. rewrite E. repeat split; assumption.
  - exact (no_dispatch w azeventgrid).
Qed.

(** X15: once the call is made, HTTP 204 is the only answer after which
    the invocation returns; every other status, a timeout and any other
    request error end in an exception. *)
Theorem X15_only_204_returns (w : Dispatcher.World)
        (azeventgrid : Dispatcher.EventGridEvent) :
  Dispatch.dispatches w azeventgrid = true ->
  (fst (Dispatcher.OnBlobCreatedDispatchToGitHub w azeventgrid) = Ret tt <->
   Dispatcher.http w = Dispatcher.Status 204) /\
  (Dispatcher.http w <> Dispatcher.Status 204 ->
   exists e, fst (Dispatcher.OnBlobCreatedDispatchToGitHub w azeventgrid) = Exn e).
Proof.
  intros H. destruct (dispatch_run w azeventgrid H) as (post & E & _).
  rewrite E. cbn [fst]. destruct (Dispatcher.http w) as [code| |].
  - destruct (code =? 204)%Z eqn:C.
    + apply Z.eqb_eq in C. subst code.
      split; [split; reflexivity | intros N; contradiction].
    + apply Z.eqb_neq in C.
      split; [split; [discriminate | intros N; inversion N; contradiction]|].
      intros _. eauto.
  - split; [split; discriminate | eauto].
  - split; [split; discriminate | eauto].
Qed.

(** X16: the file name sent to GitHub is the last segment of the blob URL,
    or of the subject when the event data has no URL, and so never holds a
    slash. *)
Theorem X16_file_name_is_last_segment (w : Dispatcher.World)
        (azeventgrid : Dispatcher.EventGridEvent) (post : Dispatcher.Post) :
  In post (snd (Dispatcher.OnBlobCreatedDispatchToGitHub w azeventgrid)) ->
  Dispatcher.post_file_name post
  = Py.after_last "/" (if Dispatcher.truthy (Dispatch.blob_url_of azeventgrid)
                       then Dispatch.blob_url_of azeventgrid
                       else Dispatcher.subject azeventgrid) /\
  Py.has_char "/" (Dispatcher.post_file_name post) = false.
Proof.
  intros Hin. destruct (Dispatch.dispatches w azeventgrid) eqn:D.
  - destruct (dispatch_run w azeventgrid D) as (p & E & _ & _ & _ & _ & F).
    rewrite E in Hin. destruct Hin as [<- | []].
    split; [exact F|]. rewrite F. apply after_last_no_sep.
  - rewrite (no_dispatch w azeventgrid D) in Hin. destruct Hin.
Qed.

Lemma X15_only_204_returns_witness :
  fst (Dispatcher.OnBlobCreatedDispatchToGitHub
         (MoreExamples.answered 204) Examples.notes_created) = Ret tt /\
  exists e, fst (Dispatcher.OnBlobCreatedDispatchToGitHub
                   (MoreExamples.answered 422) Examples.notes_created) = Exn e.
Proof.
  assert (D204 : Dispatch.dispatches (MoreExamples.answered 204) Examples.notes_created
                 = true) by (vm_compute; reflexivity).
  assert (D422 : Dispatch.dispatches (MoreExamples.answered 422) Examples.notes_created
                 = true) by (vm_compute; reflexivity).
  split.
  - exact (proj2 (proj1 (X15_only_204_returns _ _ D204)) eq_refl).
  - apply (proj2 (X15_only_204_returns _ _ D422)). discriminate.
Defined.

Lemma X16_file_name_is_last_segment_witness :
  Py.has_char "/" (Dispatcher.post_file_name MoreExamples.notes_post) = false.
Proof.
  assert (Hin : In MoreExamples.notes_post
                   (snd (Dispatcher.OnBlobCreatedDispatchToGitHub
                           (MoreExamples.answered 204) Examples.notes_created)))
    by (vm_compute; left; reflexivity).
  exact (proj2 (X16_file_name_is_last_segment _ _ _ Hin)).
Defined.

(** ** The gate: termination, exit codes, the connection *)

Section GateBounds.
Import Gate.
Variable w : World.
Variable file_tail : string.
Variables start timeout_s : Z.

Lemma gate_loop_fuel : forall n s,
  (1000 * timeout_s - (now s - start) <= 10000 * Z.of_nat n)%Z ->
  fst (poll_loop w (S n) file_tail start timeout_s s) <> OutOfFuel.
Proof.
  induction n as [|n IH]; intros s Hn; cbn [poll_loop];
    unfold bind at 1, time_time at 1;
    (destruct (now s - start <? 1000 * timeout_s)%Z eqn:G; [|discriminate]);
    apply Z.ltb_lt in G.
  - lia.
  - unfold bind at 1, fetchone, poll.
    destruct (query_reply w (polls s)) as [row|e]; [|discriminate].
    destruct (verdict row); [discriminate|].
    unfold bind at 1, time_sleep. unfold bind at 1, emit, elapse.
    cbn [now polls trace]. apply IH. cbn [now]. lia.
Qed.

(** What the loop returns and what it adds to the trace. *)
Lemma gate_loop_inv : forall fuel n s r s',
  poll_loop w fuel file_tail start timeout_s s = (r, s') ->
  (1000 * timeout_s - (now s - start) <= 10000 * Z.of_nat n)%Z ->
  (polls s' <= polls s + n)%nat /\
  (forall exit_code, r = Ret exit_code ->
     exit_code = 0%Z \/ exit_code = 2%Z \/ exit_code = 3%Z) /\
  exists added,
    trace s' = (trace s ++ added)%list /\
    Forall (fun te => snd te <> EvClose /\ snd te <> EvConnect) added.
Proof.
  induction fuel as [|fuel IH]; intros n s r s' H Hn.
  - same_pair H. split; [lia|]. split; [discriminate|].
    exists []. now rewrite app_nil_r.
  - cbn [poll_loop] in H. unfold bind at 1, time_time at 1 in H.
    destruct (now s - start <? 1000 * timeout_s)%Z eqn:G.
    2:{ same_pair H. split; [lia|]. split; [intros c E; inversion E; auto|].
        exists []. now rewrite app_nil_r. }
    apply Z.ltb_lt in G.
    unfold bind at 1, fetchone, poll in H.
    destruct (query_reply w (polls s)) as [row|e].
    2:{ same_pair H. cbn [polls trace]. split; [lia|]. split; [discriminate|].
        exists []. now rewrite app_nil_r. }
    destruct (verdict row) as [c|] eqn:V.
    + same_pair H. cbn [polls trace]. split; [lia|]. split.
      * intros c' E. inversion E; subst. unfold verdict in V.
        destruct row as [r0|]; [|discriminate V].
        destruct (status_of r0 =? "LOADED"); [inversion V; auto|].
        destruct ((status_of r0 =? "LOAD_FAILED") || (status_of r0 =? "PARTIALLY_LOADED"));
          [inversion V; auto | discriminate V].
      * eexists. split; [reflexivity|]. constructor; [|constructor].
        split; discriminate.
    + unfold bind at 1, time_sleep in H. unfold bind at 1, emit, elapse in H.
      cbn [now polls trace] in H.
      apply (IH (n - 1)%nat) in H; [|cbn [now]; lia].
      cbn [now polls trace] in H. destruct H as (P & C & added & T & F).
      split; [lia|]. split; [exact C|].
      eexists. rewrite T, <- !app_assoc. split; [reflexivity|].
      cbn [app]. constructor; [split; discriminate|].
      constructor; [split; discriminate | exact F].
Qed.

End GateBounds.

Lemma finally_close (m : Gate.M Z) (s s' : Gate.St) (r : Res Z) :
  m s = (r, s') -> r <> OutOfFuel ->
  finally m (emit Gate.EvClose) s
  = (r, {| now := now s'; polls := polls s';
           trace := (trace s' ++ [(now s', Gate.EvClose)])%list |}).
Proof.
  intros H R. unfold finally. rewrite H.
  destruct r as [c|e|]; [reflexivity | reflexivity | contradiction].
Qed.

(** The run of a gate whose connection opened: the loop, then the close. *)
Lemma gate_run_shape (w : Gate.World) (args : Gate.Args) :
  Gate.connect_ok w = true ->
  exists r s',
    Gate.poll_loop w (S (Z.to_nat (Gate.timeout args)))
      (Py.after_last "/" (Gate.file args)) (Gate.start_time w) (Gate.timeout args)
      (Gate.at_round w (Py.after_last "/" (Gate.file args)) 0) = (r, s') /\
    r <> OutOfFuel /\
    Gate.run w args
    = (r, {| now := now s'; polls := polls s';
             trace := (trace s' ++ [(now s', Gate.EvClose)])%list |}).
Proof.
  intros C. rewrite (main_unfold w args C).
  destruct (Gate.poll_loop w _ _ _ _ _) as [r s'] eqn:L.
  exists r, s'. split; [reflexivity|].
  assert (R : r <> OutOfFuel).
  { pose proof (gate_loop_fuel w (Py.after_last "/" (Gate.file args))
                  (Gate.start_time w) (Gate.timeout args)
                  (Z.to_nat (Gate.timeout args))
                  (Gate.at_round w (Py.after_last "/" (Gate.file args)) 0)) as F.
    rewrite L in F. apply F. cbn [now Gate.at_round Gate.guard_time]. lia. }
  split; [exact R|]. now apply finally_close.
Qed.

(** X17: the gate always comes to an end, and makes at most one query per
    started ten seconds of the timeout: none when the timeout is zero or
    negative, 180 with the default of 1800 seconds. *)
Theorem X17_gate_ends_within_bound (w : Gate.World) (args : Gate.Args) :
  result (Gate.run w args) <> OutOfFuel /\
  (Z.of_nat (polls (snd (Gate.run w args))) <= (Z.max 0 (Gate.timeout args) + 9) / 10)%Z.
Proof.
  destruct (Gate.connect_ok w) eqn:C.
  - destruct (gate_run_shape w args C) as (r & s' & L & R & E). rewrite E.
    split; [exact R|]. cbn [snd polls].
    apply (gate_loop_inv w _ _ _ _
             (Z.to_nat ((Z.max 0 (Gate.timeout args) + 9) / 10))) in L.
    + destruct L as [P _]. cbn [polls Gate.at_round] in P.
      assert (0 <= (Z.max 0 (Gate.timeout args) + 9) / 10)%Z
        by (apply Z.div_pos; lia).
      lia.
    + cbn [now Gate.at_round Gate.guard_time].
      pose proof (Z.div_mod (Z.max 0 (Gate.timeout args) + 9) 10 ltac:(lia)) as D.
      pose proof (Z.mod_pos_bound (Z.max 0 (Gate.timeout args) + 9) 10 ltac:(lia)) as M.
      assert (0 <= (Z.max 0 (Gate.timeout args) + 9) / 10)%Z
        by (apply Z.div_pos; lia).
      rewrite Z2Nat.id by assumption. lia.
  - unfold Gate.run, Gate.main, bind, emit. rewrite C. cbn.
    split; [discriminate|]. apply Z.div_pos; lia.
Qed.

(** X18: when the gate returns, its exit code is 0, 2 or 3. *)
Theorem X18_gate_exit_code_range (w : Gate.World) (args : Gate.Args) (exit_code : Z) :
  result (Gate.run w args) = Ret exit_code ->
  exit_code = 0%Z \/ exit_code = 2%Z \/ exit_code = 3%Z.
Proof.
  destruct (Gate.connect_ok w) eqn:C.
  - destruct (gate_run_shape w args C) as (r & s' & L & R & E). rewrite E.
    cbn [result fst]. intros ->.
    apply (gate_loop_inv w _ _ _ _ (Z.to_nat (Gate.timeout args))) in L.
    + destruct L as (_ & Codes & _). now apply Codes.
    + cbn [now Gate.at_round Gate.guard_time]. lia.
  - unfold Gate.run, Gate.main, bind, emit. rewrite C. cbn. discriminate.
Qed.

Lemma X18_gate_exit_code_range_witness :
  2%Z = 0%Z \/ 2%Z = 2%Z \/ 2%Z = 3%Z.
Proof.
  apply (X18_gate_exit_code_range (Examples.warehouse "LOAD_FAILED")
           (Examples.gate_args 1800) 2).
  vm_compute. reflexivity.
Defined.

(** X19: a connection that was opened is closed exactly once, as the last
    call of the run, on every way out: success, failure, timeout and an
    exception of a query.  When the connection cannot be opened, the run ends
    with the exception and nothing is queried or closed. *)
Theorem X19_connection_closed_once (w : Gate.World) (args : Gate.Args) :
  (Gate.connect_ok w = true ->
   exists t body,
     trace (snd (Gate.run w args))
     = ((Gate.start_time w, Gate.EvConnect) :: body ++ [(t, Gate.EvClose)])%list /\
     Forall (fun te => snd te <> Gate.EvClose /\ snd te <> Gate.EvConnect) body) /\
  (Gate.connect_ok w = false ->
   Gate.run w args
   = (Exn "connection error",
      {| now := Gate.start_time w; polls := 0;
         trace := [(Gate.start_time w, Gate.EvConnect)] |})).
Proof.
  split; intros C.
  - destruct (gate_run_shape w args C) as (r & s' & L & R & E). rewrite E.
    apply (gate_loop_inv w _ _ _ _ (Z.to_nat (Gate.timeout args))) in L.
    + destruct L as (_ & _ & added & T & F).
      cbn [trace Gate.at_round Gate.rounds_trace] in T.
      exists (now s'), added. cbn [snd trace]. rewrite T. split; [reflexivity | exact F].
    + cbn [now Gate.at_round Gate.guard_time]. lia.
  - unfold Gate.run, Gate.main, bind, emit. rewrite C. reflexivity.
Qed.

(** X20: an exception of a query is not caught: it ends the run at that
    round, after the connection is closed, and no further query is made. *)
Theorem X20_query_error_ends_run (w : Gate.World) (args : Gate.Args) (k : nat)
        (e : string) :
  Gate.connect_ok w = true ->
  (forall j, (j < k)%nat -> Gate.in_time w args j /\ Gate.another_round w j) ->
  Gate.in_time w args k ->
  Gate.query_reply w k = Raises e ->
  Gate.run w args
  = (Exn e,
     {| now := Gate.guard_time w k + Z.of_N (Gate.query_delay w k);
        polls := S k;
        trace := Gate.rounds_trace w (Py.after_last "/" (Gate.file args)) k
                 ++ [((Gate.guard_time w k + Z.of_N (Gate.query_delay w k))%Z,
                      Gate.EvClose)] |}).
Proof.
  intros C Hpre Ht E. rewrite (main_unfold w args C). unfold finally.
  assert (Hk : (Z.of_nat k < Gate.timeout args)%Z).
  { pose proof (guard_time_lower w k). unfold Gate.in_time in Ht. lia. }
  replace (S (Z.to_nat (Gate.timeout args)))
    with (k + S (Z.to_nat (Gate.timeout args) - k))%nat by lia.
  rewrite (poll_loop_rounds w args k _ Hpre).
  cbn [Gate.poll_loop]. unfold bind at 1, time_time at 1. cbn [now Gate.at_round].
  apply Z.ltb_lt in Ht. rewrite Ht.
  unfold bind at 1, Gate.fetchone, poll. cbn [now polls trace Gate.at_round].
  rewrite E. reflexivity.
Qed.

Lemma flaky_warehouse_rounds (j : nat) :
  (j < 2)%nat ->
  Gate.in_time MoreExamples.flaky_warehouse (Examples.gate_args 1800) j /\
  Gate.another_round MoreExamples.flaky_warehouse j.
Proof.
  intros Hj. destruct j as [|[|j]]; [| |lia];
    (split; [unfold Gate.in_time; cbn; lia|]);
    exists None; split; [reflexivity | left; reflexivity | reflexivity | left; reflexivity].
Defined.

Lemma X20_query_error_ends_run_witness :
  result (Gate.run MoreExamples.flaky_warehouse (Examples.gate_args 1800))
  = Exn "connection lost".
Proof.
  assert (Hin : Gate.in_time MoreExamples.flaky_warehouse (Examples.gate_args 1800) 2)
    by (unfold Gate.in_time; cbn; lia).
  rewrite (X20_query_error_ends_run MoreExamples.flaky_warehouse
             (Examples.gate_args 1800) 2 "connection lost" eq_refl
             flaky_warehouse_rounds Hin eq_refl).
  reflexivity.
Defined.

(** X21: with a timeout of zero or less the gate makes no query at all: it
    opens the connection, closes it and returns exit code 3. *)
Theorem X21_no_query_without_timeout (w : Gate.World) (args : Gate.Args) :
  Gate.connect_ok w = true ->
  (Gate.timeout args <= 0)%Z ->
  Gate.run w args
  = (Ret 3%Z,
     {| now := Gate.start_time w; polls := 0;
        trace := [(Gate.start_time w, Gate.EvConnect);
                  (Gate.start_time w, Gate.EvClose)] |}).
Proof.
  intros C Ht.
  rewrite (gate_timed_out w args 0 C).
  - reflexivity.
  - intros j Hj. lia.
  - unfold Gate.in_time. cbn [Gate.guard_time]. lia.
Qed.

Lemma X21_no_query_without_timeout_witness :
  result (Gate.run (Examples.warehouse "LOADED") (Examples.gate_args 0)) = Ret 3%Z.
Proof.
  rewrite (X21_no_query_without_timeout (Examples.warehouse "LOADED")
             (Examples.gate_args 0) eq_refl ltac:(cbn; lia)).
  reflexivity.
Defined.

(** ** Which sheets are exported *)




Lemma export_sheets_ok (w : Splitter.World) (filename : string) :
  (forall e, Splitter.raises w e = false) ->
  forall sheets s,
    Splitter.export_sheets w
      (Splitter.OUT_PREFIX (fst (Splitter._determine_file_type filename))
         (fst (Splitter._extract_year_month (Splitter.utcnow w) (Py.drop_last 5 filename)))
         (snd (Splitter._extract_year_month (Splitter.utcnow w) (Py.drop_last 5 filename))))
      (Py.drop_last 5 filename) sheets s
    = (Ret tt, {| now := now s; polls := polls s;
                  trace := (trace s ++ Stages.export_trace w (now s) filename sheets)%list |}).
Proof.
  intros Hr. induction sheets as [|sheet rest IH]; intros s.
  - cbn. rewrite app_nil_r. now destruct s.
  - cbn [Splitter.export_sheets]. unfold bind at 1. rewrite (call_ok w _ _ (Hr _)).
    unfold bind at 1. rewrite (call_ok w _ _ (Hr _)). rewrite IH.
    cbn [now polls trace Stages.export_trace flat_map].
    rewrite <- !app_assoc. reflexivity.
Qed.



(** ** The outcome of the archive step *)

Section ArchiveOutcome.
Import Splitter.
Variable w : World.
Variable dst : string.
Variable t0 : Z.




End ArchiveOutcome.










(** ** The cleaned file name, from the filters to the archive copy *)

(** A complete export followed by the start of the archive copy. *)
Lemma process_exports (w : Splitter.World) (blob_name filename : string)
      (names sheets : list string) (t0 : Z) :
  Splitter.storage_configured w = true ->
  Splitter.sheet_names w = Returns names ->
  Stages.selection (snd (Splitter._determine_file_type filename)) names = Some sheets ->
  sheets <> [] ->
  (forall e, Splitter.raises w e = false) ->
  exists rest,
    trace (snd (Splitter.process w blob_name filename (initial t0)))
    = ((t0, Splitter.EvReadWorkbook)
       :: Stages.export_trace w t0 filename sheets
       ++ (t0, Splitter.EvStartCopy blob_name (Stages.archive_name w filename))
       :: rest)%list /\
    Forall (fun te => Splitter.archive_event blob_name (Stages.archive_name w filename)
                        (snd te)) rest.
Proof.
  intros C Sn Sel Ne Hr. rewrite process_stages.
  unfold bind at 1, Splitter._get_blob_service_client. rewrite C.
  unfold ret at 1. unfold bind at 1, emit at 1. rewrite Sn, Sel.
  destruct sheets as [|sheet sheets]; [contradiction|].
  unfold bind at 1. rewrite (export_sheets_ok w _ Hr).
  cbn [now polls trace initial app].
  match goal with
  | |- context [Stages.archive w ?b ?d ?st] =>
      destruct (Stages.archive w b d st) as [ra sa] eqn:Ar
  end.
  apply archive_trace in Ar as (_ & added & T & F). cbn [now trace] in T.
  exists added. cbn [snd]. rewrite T. split; [reflexivity | exact F].
Qed.

(** C9: before the extension check and the classification, the base name
    is stripped of white space at both ends, then of trailing apostrophes,
    then of trailing double quotes.  A blob whose base name, of ASCII
    characters, ends in .xlsx followed by quote characters, with white space
    around, is cleaned to the name without them and passes the filters; the
    workbook is then read, every selected sheet is written under the stem,
    the classification and the partition key of the cleaned name, and the
    blob, under the name it came with, is copied to the archive path of the
    cleaned name. *)
Theorem C9_trailing_quote_trimmed (w : Splitter.World) (ws1 base ws2 : string) (m n : nat)
        (names sheets : list string) :
  Py.all_chars Py.isspace ws1 = true ->
  Py.all_chars Py.isspace ws2 = true ->
  Py.isascii base = true ->
  Py.has_char "/" base = false ->
  (forall c rest, base = String c rest -> Py.isspace c = false) ->
  Py.endswith (Py.lower base) ".xlsx" = true ->
  let name := Splitter.decorated ws1 base ws2 m n in
  Splitter.clean_filename ("ingestion/" ++ name) = base /\
  (Py.startswith base "~$" = false ->
   Splitter.split_excel w ("ingestion/" ++ name) = Splitter.process w name base /\
   (Splitter.storage_configured w = true ->
    Splitter.sheet_names w = Returns names ->
    Stages.selection (snd (Splitter._determine_file_type base)) names = Some sheets ->
    sheets <> [] ->
    (forall e, Splitter.raises w e = false) ->
    exists rest,
      trace (snd (Splitter.run w ("ingestion/" ++ name)))
      = ((Splitter.start_time w, Splitter.EvReadWorkbook)
         :: Stages.export_trace w (Splitter.start_time w) base sheets
         ++ (Splitter.start_time w,
             Splitter.EvStartCopy name (Stages.archive_name w base))
         :: rest)%list /\
      Forall (fun te => Splitter.archive_event name (Stages.archive_name w base) (snd te))
             rest)).
Proof.
  intros H1 H2 _ H3 H4 H5 name. split.
  - exact (clean_filename_name ws1 base ws2 m n H1 H2 H3 H4 H5).
  - intros Htmp.
    pose proof (split_excel_name ws1 base ws2 m n H1 H2 H3 H4 H5 w Htmp) as E.
    subst name. split; [exact E|]. intros C Sn Sel Ne Hr.
    unfold Splitter.run. rewrite E.
    exact (process_exports w _ base names sheets (Splitter.start_time w) C Sn Sel Ne Hr).
Qed.

(** The blob report.xlsx followed by an apostrophe: the sheet is written
    under the stem report, and the blob is archived as report.xlsx. *)
Lemma C9_trailing_quote_trimmed_witness :
  Splitter.clean_filename "ingestion/report.xlsx'" = "report.xlsx" /\
  exists rest,
    trace (snd (Splitter.run (Examples.storage ["Plan"]) "ingestion/report.xlsx'"))
    = ((0%Z, Splitter.EvReadWorkbook)
       :: (0%Z, Splitter.EvReadExcel "Plan")
       :: (0%Z, Splitter.EvUpload "dsp_summary/2026/03/report__Plan.csv" "Plan")
       :: (0%Z, Splitter.EvStartCopy "report.xlsx'" "_archive/dsp_summary/2026/03/report.xlsx")
       :: rest)%list.
Proof.
  destruct (C9_trailing_quote_trimmed (Examples.storage ["Plan"])
              EmptyString "report.xlsx" EmptyString 0 1 ["Plan"] ["Plan"]
              eq_refl eq_refl eq_refl eq_refl report_head eq_refl) as [Hclean Hrun].
  split; [exact Hclean|].
  destruct (Hrun eq_refl) as [_ Htrace].
  destruct (Htrace eq_refl eq_refl eq_refl ltac:(discriminate) (fun _ => eq_refl))
    as (rest & T & _).
  exists rest. exact T.
Defined.
